(** * King Phisher client: the campaign tabs (king_phisher/client/tabs/campaign.py)

    A shallow embedding of the tab classes of the module and of their
    background loader.  Every method of the module is written once, as a
    program over the primitive actions it performs on the tab object, on the
    GTK widgets, on the RPC client and on the threading library.  The
    programs are given two readings: an atomic run on one thread, and an
    interleaved run of the GTK main thread with the loader threads.

    Scope of the model.  The rows that [remote_table] yields are taken as a
    list; a database boolean is the integer 1 or 0.  The RPC client answers
    every call, and every column a formatter reads is present in the row.
    Of the exceptions of the module the model has two: the [KeyError] of a
    dash port without a graph in the configuration, on which the
    constructors return nothing ([None]), and the [TypeError] of a campaign
    name that is no string, which leaves the export handler ([Raise]).
    [glib_idle_add_wait] and the dialogs belong to [gui_utilities], whose
    code is in another module: the first is taken as described at [perform],
    the dialogs as calls that return the answer of the user. *)

From Stdlib Require Import ZArith Lia.
From stdpp Require Import base option list strings gmap pretty relations.

(** ** Python values *)

(** The cells of a database row as the RPC client returns them. *)
Inductive pyval :=
| PNone
| PStr (s : string)
| PInt (n : Z).

#[global] Instance pyval_inhabited : Inhabited pyval := populate PNone.
#[global] Instance pyval_eq_dec : EqDecision pyval.
Proof. solve_decision. Defined.

(** [str(x)] *)
Definition py_str (x : pyval) : string :=
  match x with
  | PNone => "None"
  | PStr s => s
  | PInt n => pretty n
  end.

(** Truth value of [x] in a condition. *)
Definition py_truthy (x : pyval) : bool :=
  match x with
  | PNone => false
  | PStr s => negb (String.eqb s "")
  | PInt n => negb (n =? 0)%Z
  end.

(** A row is a dict from column names to cells.  The server sends every
    column of the table; a column read with [row !!! name]. *)
Abbreviation row := (gmap string pyval).

(** Truth value of the result of [remote_table_row]: [None] and the empty
    dict are false. *)
Definition row_truthy (r : option row) : bool :=
  match r with
  | None => false
  | Some d => negb (bool_decide (d = ∅))
  end.

(** The floats of the module: [float('-inf')] and the stamps of
    [time.time()], counted in clock ticks. *)
Inductive pyfloat :=
| NegInf
| Stamp (t : Z).

(** [(now - last) < refresh_frequency]; [now - float('-inf')] is [+inf],
    which is below no number. *)
Definition elapsed_lt (now : Z) (last : pyfloat) (refresh_frequency : Z) : bool :=
  match last with
  | NegInf => false
  | Stamp t => (now - t <? refresh_frequency)%Z
  end.

(** The [info_cache] dict handed from graph to graph. *)
Abbreviation info_cache := (gmap string (list row)).

(** A graph instance of the dashboard: [Klass(self.config, self.parent, details)]. *)
Record graph := {
  graph_name : string;
  graph_size : option (Z * Z)
}.

(** ** Primitive actions *)

Inductive thread_id :=
| MainThread
| LoaderThread (n : nat)
| OtherThread (n : nat).

#[global] Instance thread_id_eq_dec : EqDecision thread_id.
Proof. solve_decision. Defined.

(** The [target] of a [threading.Thread]. *)
Inductive routine :=
| RowLoaderRoutine (store : nat)
| DashboardLoaderRoutine.

Inductive key :=
| KEY_F5
| KEY_Delete
| KEY_other.

(** Calls into GTK and into the dialogs of [gui_utilities]. *)
Inductive gui_call :=
| TreeviewSetSensitive (b : bool)
| TreeviewGetModel
| TreeviewSetModel (store : nat)
| ListStoreNew (ncols : nat)
| ListStoreClear (store : nat)
| ListStoreAppend (store : nat) (row_data : list string)
| SelectionGetSelected
| ModelGetValue (tree_iter : nat) (column : nat)
| ColumnSetVisible (column : nat) (b : bool)
| ButtonGetActive
| PopupMenuPopup
| ClipboardSetText (s : string)
| GraphRefresh (g : graph) (cache : info_cache)
| ShowDialogWarning (title : string)
| ShowDialogYesNo (title : string) (message : string)
| FileChooserQuickSave (file_name : string).

Definition gui_result (c : gui_call) : Type :=
  match c with
  | TreeviewGetModel => option nat
  | ListStoreNew _ => nat
  | SelectionGetSelected => option nat
  | ModelGetValue _ _ => string
  | ButtonGetActive => bool
  | GraphRefresh _ _ => info_cache
  | ShowDialogYesNo _ _ => bool
  | FileChooserQuickSave _ => option string
  | _ => unit
  end.

Inductive action :=
| TimeTime
| GetLastLoadTime
| SetLastLoadTime (t : Z)
| GetRefreshFrequency
| LoaderIsAlive
| LockAcquire
| LockRelease
| ThreadCreate (target : routine)
| ThreadStart
| ThreadJoin
| IsDestroyedSet
| IsDestroyedIsSet
| HasRpc
| ConfigGet (key : string)
| RpcRemoteTable (table : string) (campaign_id : pyval)
| RpcRemoteTableRow (table : string) (row_id : pyval)
| RpcCall (method : string) (arg : pyval)
| ExportCsv (destination_file : string)
| LoggerLog (level : string) (message : string)
| Raise (exception : string)
| Gui (c : gui_call)
| GlibIdleAddWait (c : gui_call).

Definition result (a : action) : Type :=
  match a with
  | TimeTime => Z
  | GetLastLoadTime => pyfloat
  | GetRefreshFrequency => Z
  | LoaderIsAlive => bool
  | IsDestroyedIsSet => bool
  | HasRpc => bool
  | ConfigGet _ => pyval
  | RpcRemoteTable _ _ => list row
  | RpcRemoteTableRow _ _ => option row
  | Gui c => gui_result c
  | GlibIdleAddWait c => gui_result c
  | _ => unit
  end.

(** ** Programs *)

Inductive prog (A : Type) : Type :=
| Ret (x : A)
| Do (a : action) (k : result a -> prog A).
Arguments Ret {A} x.
Arguments Do {A} a k.

Fixpoint bind {A B} (p : prog A) (f : A -> prog B) : prog B :=
  match p with
  | Ret x => f x
  | Do a k => Do a (fun r => bind (k r) f)
  end.

Declare Scope prog_scope.
Delimit Scope prog_scope with prog.
Notation "x <- a ; k" := (Do a (fun x => k%prog))
  (at level 100, a at next level, right associativity) : prog_scope.
Notation "a ;; k" := (Do a (fun _ => k%prog))
  (at level 100, right associativity) : prog_scope.
Notation "x <~ p ; k" := (bind p (fun x => k%prog))
  (at level 100, p at next level, right associativity) : prog_scope.
Notation "p ~; k" := (bind p (fun _ => k%prog))
  (at level 100, right associativity) : prog_scope.
Local Open Scope prog_scope.


(** ** The classes of the module *)

(** The class attributes and the overridden method of a subclass of
    [CampaignViewGenericTab].  [view_columns] lists the column names of the
    dict in the order of its keys [1 .. len]. *)
Record tab_class := {
  remote_table_name : string;
  label_text : string;
  view_columns : list string;
  format_row_data : row -> prog (option (list pyval))
}.

(** [not force and ((time.time() - self.last_load_time) < self.refresh_frequency)];
    [and] does not evaluate its right operand when [force] is true. *)
Definition not_stale (force : bool) : prog bool :=
  if force then Ret false else
  now <- TimeTime;
  last <- GetLastLoadTime;
  freq <- GetRefreshFrequency;
  Ret (elapsed_lt now last freq).

Module CampaignViewGenericTab.

Definition load_campaign_information (self : tab_class) (force : bool) : prog unit :=
  fresh <~ not_stale force;
  if fresh then Ret tt else
  alive <- LoaderIsAlive;
  if alive then Ret tt else
  LockAcquire;;
  store <- Gui TreeviewGetModel;
  store <~ match store with
           | None =>
               store <- Gui (ListStoreNew (1 + length (view_columns self)));
               Gui (TreeviewSetModel store);;
               Ret store
           | Some store =>
               Gui (ListStoreClear store);;
               Ret store
           end;
  ThreadCreate (RowLoaderRoutine store);;
  ThreadStart;;
  LockRelease;;
  Ret tt.

Definition _prompt_to_delete_row (self : tab_class) : prog unit :=
  alive <- LoaderIsAlive;
  if alive then
    Gui (ShowDialogWarning "Can Not Delete Rows While Loading");;
    Ret tt
  else
  tree_iter <- Gui SelectionGetSelected;
  match tree_iter with
  | None => Ret tt
  | Some tree_iter =>
      row_id <- Gui (ModelGetValue tree_iter 0);
      yes <- Gui (ShowDialogYesNo "Delete This Row?" "This information will be lost.");
      if negb yes then Ret tt else
      RpcCall (remote_table_name self +:+ "/delete") (PStr row_id);;
      load_campaign_information self true
  end.

(** The body of the [for] loop of [row_loader_thread_routine], over the rows
    of the remote table; [false] when the routine returned from inside it. *)
Fixpoint row_loader_loop (self : tab_class) (store : nat) (rows : list row) : prog bool :=
  match rows with
  | [] => Ret true
  | row_data :: rows =>
      let row_id := row_data !!! "id" in
      row_data <~ format_row_data self row_data;
      match row_data with
      | None =>
          RpcCall (remote_table_name self +:+ "/delete") row_id;;
          row_loader_loop self store rows
      | Some row_data =>
          let row_data :=
            map (fun x => if bool_decide (x = PNone) then "" else py_str x) row_data in
          let row_data := py_str row_id :: row_data in
          destroyed <- IsDestroyedIsSet;
          if destroyed then Ret false else
          GlibIdleAddWait (ListStoreAppend store row_data);;
          row_loader_loop self store rows
      end
  end.

Definition row_loader_thread_routine (self : tab_class) (store : nat) : prog unit :=
  GlibIdleAddWait (TreeviewSetSensitive false);;
  campaign_id <- ConfigGet "campaign_id";
  rows <- RpcRemoteTable ("campaign/" +:+ remote_table_name self) campaign_id;
  completed <~ row_loader_loop self store rows;
  if completed then
    GlibIdleAddWait (TreeviewSetSensitive true);;
    now <- TimeTime;
    SetLastLoadTime now;;
    Ret tt
  else Ret tt.

Definition signal_button_clicked_refresh (self : tab_class) : prog unit :=
  load_campaign_information self true.

Definition signal_button_clicked_export (self : tab_class) : prog unit :=
  alive <- LoaderIsAlive;
  if alive then
    Gui (ShowDialogWarning "Can Not Export Rows While Loading");;
    Ret tt
  else
  campaign_name <- ConfigGet "campaign_name";
  match campaign_name with
  | PStr campaign_name =>
      let file_name := campaign_name +:+ ".csv" in
      response <- Gui (FileChooserQuickSave file_name);
      match response with
      | None => Ret tt
      | Some destination_file => ExportCsv destination_file;; Ret tt
      end
  | _ =>
      (* [+] of a value that is no string and ['.csv'] *)
      Raise "TypeError";; Ret tt
  end.

Definition signal_destroy : prog unit :=
  IsDestroyedSet;;
  alive <- LoaderIsAlive;
  if alive then ThreadJoin;; Ret tt else Ret tt.

(** [None] is the implicit return value of Python, [Some true] is [True]. *)
Definition signal_treeview_button_pressed (is_button_press : bool) (button : Z)
  : prog (option bool) :=
  if negb (is_button_press && (button =? 3)%Z) then Ret None else
  tree_iter <- Gui SelectionGetSelected;
  match tree_iter with
  | None => Ret None
  | Some _ => Gui PopupMenuPopup;; Ret (Some true)
  end.

Definition signal_treeview_key_pressed (self : tab_class) (is_key_press : bool)
    (keyval : key) : prog unit :=
  if negb is_key_press then Ret tt else
  match keyval with
  | KEY_F5 => load_campaign_information self true
  | KEY_Delete => _prompt_to_delete_row self
  | KEY_other => Ret tt
  end.

Definition signal_activate_popup_menu_copy (column_id : nat) : prog unit :=
  tree_iter <- Gui SelectionGetSelected;
  match tree_iter with
  | None => Ret tt
  | Some tree_iter =>
      selection_text <- Gui (ModelGetValue tree_iter column_id);
      Gui (ClipboardSetText selection_text);;
      Ret tt
  end.

End CampaignViewGenericTab.

Module CampaignViewDeaddropTab.
Section WithUtilities.
(** [utilities.format_datetime] *)
Variable format_datetime : pyval -> pyval.

Definition format_row_data (connection : row) : prog (option (list pyval)) :=
  let deploy_id := connection !!! "deployment_id" in
  deploy_details <- RpcRemoteTableRow "deaddrop_deployments" deploy_id;
  if negb (row_truthy deploy_details) then Ret None else
  let deploy_details := default ∅ deploy_details in
  Ret (Some [
    deploy_details !!! "destination";
    connection !!! "visit_count";
    connection !!! "visitor_ip";
    connection !!! "local_username";
    connection !!! "local_hostname";
    connection !!! "local_ip_addresses";
    format_datetime (connection !!! "first_visit");
    format_datetime (connection !!! "last_visit")
  ]).

Definition cls : tab_class :=
  Build_tab_class "deaddrop_connections" "Deaddrop"
    ["Destination"; "Visit Count"; "External IP"; "Username"; "Hostname"; "Local IP Addresses"; "First Hit"; "Last Hit"]
    format_row_data.
End WithUtilities.
End CampaignViewDeaddropTab.

Module CampaignViewCredentialsTab.
Section WithUtilities.
Variable format_datetime : pyval -> pyval.

Definition format_row_data (credential : row) : prog (option (list pyval)) :=
  let msg_id := credential !!! "message_id" in
  msg_details <- RpcRemoteTableRow "messages" msg_id;
  if negb (row_truthy msg_details) then Ret None else
  let msg_details := default ∅ msg_details in
  Ret (Some [
    msg_details !!! "target_email";
    credential !!! "username";
    credential !!! "password";
    format_datetime (credential !!! "submitted")
  ]).

Definition cls : tab_class :=
  Build_tab_class "credentials" "Credentials"
    ["Email"; "Username"; "Password"; "Submitted"]
    format_row_data.
End WithUtilities.

Definition signal_button_toggled_show_passwords : prog unit :=
  active <- Gui ButtonGetActive;
  Gui (ColumnSetVisible 3 active);;
  Ret tt.
End CampaignViewCredentialsTab.

Module CampaignViewVisitsTab.
Section WithUtilities.
Variable format_datetime : pyval -> pyval.

Definition format_row_data (visit : row) : prog (option (list pyval)) :=
  let msg_id := visit !!! "message_id" in
  msg_details <- RpcRemoteTableRow "messages" msg_id;
  if negb (row_truthy msg_details) then Ret None else
  let msg_details := default ∅ msg_details in
  Ret (Some [
    msg_details !!! "target_email";
    visit !!! "visitor_ip";
    visit !!! "visitor_details";
    visit !!! "visit_count";
    format_datetime (visit !!! "first_visit");
    format_datetime (visit !!! "last_visit")
  ]).

Definition cls : tab_class :=
  Build_tab_class "visits" "Visits"
    ["Email"; "Visitor IP"; "Visitor Details"; "Visit Count"; "First Visit"; "Last Visit"]
    format_row_data.
End WithUtilities.
End CampaignViewVisitsTab.

Module CampaignViewMessagesTab.
Section WithUtilities.
Variable format_datetime : pyval -> pyval.

Definition format_row_data (message : row) : prog (option (list pyval)) :=
  Ret (Some [
    message !!! "target_email";
    format_datetime (message !!! "sent");
    format_datetime (message !!! "opened");
    (if py_truthy (message !!! "trained") then PStr "Yes" else PStr "")
  ]).

Definition cls : tab_class :=
  Build_tab_class "messages" "Messages"
    ["Email"; "Sent"; "Opened"; "Trained"]
    format_row_data.
End WithUtilities.
End CampaignViewMessagesTab.

Module CampaignViewDashboardTab.

Definition load_campaign_information (force : bool) : prog unit :=
  fresh <~ not_stale force;
  if fresh then Ret tt else
  has_rpc <- HasRpc;
  if negb has_rpc then
    LoggerLog "warning" "skipping load_campaign_information because rpc is not initialized";;
    Ret tt
  else
  LockAcquire;;
  alive <- LoaderIsAlive;
  if alive then LockRelease;; Ret tt else
  ThreadCreate DashboardLoaderRoutine;;
  ThreadStart;;
  LockRelease;;
  Ret tt.

Definition loader_idle_routine : prog bool :=
  LoggerLog "debug" "idle loader routine called";;
  load_campaign_information true ~;
  Ret true.

(** The [for] loop of [loader_thread_routine]. *)
Fixpoint refresh_graphs (graphs : list graph) (cache : info_cache) : prog info_cache :=
  match graphs with
  | [] => Ret cache
  | graph :: graphs =>
      cache <- GlibIdleAddWait (GraphRefresh graph cache);
      refresh_graphs graphs cache
  end.

Definition loader_thread_routine (graphs : list graph) : prog unit :=
  refresh_graphs graphs ∅ ~;
  now <- TimeTime;
  SetLastLoadTime now;;
  Ret tt.

Definition signal_button_clicked_refresh : prog unit :=
  load_campaign_information true.

End CampaignViewDashboardTab.

(** ** The state of a tab object and of the libraries around it *)

(** [threading.Lock] has no owner; [threading.RLock] counts the entries of
    its owner. *)
Inductive lock_state :=
| PlainLock (locked : bool)
| ReentrantLock (owner : option (thread_id * nat)).

(** A [threading.Thread] object: created, or started with the code it has
    left to run.  It is alive while it has an action left. *)
Inductive thread_state :=
| Unstarted (target : routine)
| Started (code : prog unit).

Record list_store := {
  store_ncols : nat;
  store_rows : list (list string)
}.

(** The callbacks handed to [GLib.timeout_add_seconds]. *)
Inductive callback :=
| LoaderIdleRoutine.

Record world := {
  (* attributes of the tab *)
  last_load_time : pyfloat;
  refresh_frequency : Z;
  loader_thread : option nat;
  loader_thread_lock : lock_state;
  is_destroyed : bool;
  (* the threading library *)
  threads : list thread_state;
  (* the widgets of the tab *)
  treeview_sensitive : bool;
  treeview_model : option nat;
  stores : list list_store;
  view_column_visible : gmap nat bool;
  show_passwords_active : bool;
  (* the GLib main context *)
  timeouts : list (Z * callback);
  (* what was done, by which thread, oldest first *)
  log : list (thread_id * action)
}.

Definition set_last_load_time (x : pyfloat) (w : world) : world :=
  {| last_load_time := x; refresh_frequency := refresh_frequency w;
     loader_thread := loader_thread w; loader_thread_lock := loader_thread_lock w;
     is_destroyed := is_destroyed w; threads := threads w;
     treeview_sensitive := treeview_sensitive w; treeview_model := treeview_model w;
     stores := stores w; view_column_visible := view_column_visible w;
     show_passwords_active := show_passwords_active w; timeouts := timeouts w;
     log := log w |}.

Definition set_loader_thread (x : option nat) (w : world) : world :=
  {| last_load_time := last_load_time w; refresh_frequency := refresh_frequency w;
     loader_thread := x; loader_thread_lock := loader_thread_lock w;
     is_destroyed := is_destroyed w; threads := threads w;
     treeview_sensitive := treeview_sensitive w; treeview_model := treeview_model w;
     stores := stores w; view_column_visible := view_column_visible w;
     show_passwords_active := show_passwords_active w; timeouts := timeouts w;
     log := log w |}.

Definition set_loader_thread_lock (x : lock_state) (w : world) : world :=
  {| last_load_time := last_load_time w; refresh_frequency := refresh_frequency w;
     loader_thread := loader_thread w; loader_thread_lock := x;
     is_destroyed := is_destroyed w; threads := threads w;
     treeview_sensitive := treeview_sensitive w; treeview_model := treeview_model w;
     stores := stores w; view_column_visible := view_column_visible w;
     show_passwords_active := show_passwords_active w; timeouts := timeouts w;
     log := log w |}.

Definition set_is_destroyed (x : bool) (w : world) : world :=
  {| last_load_time := last_load_time w; refresh_frequency := refresh_frequency w;
     loader_thread := loader_thread w; loader_thread_lock := loader_thread_lock w;
     is_destroyed := x; threads := threads w;
     treeview_sensitive := treeview_sensitive w; treeview_model := treeview_model w;
     stores := stores w; view_column_visible := view_column_visible w;
     show_passwords_active := show_passwords_active w; timeouts := timeouts w;
     log := log w |}.

Definition set_threads (x : list thread_state) (w : world) : world :=
  {| last_load_time := last_load_time w; refresh_frequency := refresh_frequency w;
     loader_thread := loader_thread w; loader_thread_lock := loader_thread_lock w;
     is_destroyed := is_destroyed w; threads := x;
     treeview_sensitive := treeview_sensitive w; treeview_model := treeview_model w;
     stores := stores w; view_column_visible := view_column_visible w;
     show_passwords_active := show_passwords_active w; timeouts := timeouts w;
     log := log w |}.

Definition set_treeview_sensitive (x : bool) (w : world) : world :=
  {| last_load_time := last_load_time w; refresh_frequency := refresh_frequency w;
     loader_thread := loader_thread w; loader_thread_lock := loader_thread_lock w;
     is_destroyed := is_destroyed w; threads := threads w;
     treeview_sensitive := x; treeview_model := treeview_model w;
     stores := stores w; view_column_visible := view_column_visible w;
     show_passwords_active := show_passwords_active w; timeouts := timeouts w;
     log := log w |}.

Definition set_treeview_model (x : option nat) (w : world) : world :=
  {| last_load_time := last_load_time w; refresh_frequency := refresh_frequency w;
     loader_thread := loader_thread w; loader_thread_lock := loader_thread_lock w;
     is_destroyed := is_destroyed w; threads := threads w;
     treeview_sensitive := treeview_sensitive w; treeview_model := x;
     stores := stores w; view_column_visible := view_column_visible w;
     show_passwords_active := show_passwords_active w; timeouts := timeouts w;
     log := log w |}.

Definition set_stores (x : list list_store) (w : world) : world :=
  {| last_load_time := last_load_time w; refresh_frequency := refresh_frequency w;
     loader_thread := loader_thread w; loader_thread_lock := loader_thread_lock w;
     is_destroyed := is_destroyed w; threads := threads w;
     treeview_sensitive := treeview_sensitive w; treeview_model := treeview_model w;
     stores := x; view_column_visible := view_column_visible w;
     show_passwords_active := show_passwords_active w; timeouts := timeouts w;
     log := log w |}.

Definition set_view_column_visible (x : gmap nat bool) (w : world) : world :=
  {| last_load_time := last_load_time w; refresh_frequency := refresh_frequency w;
     loader_thread := loader_thread w; loader_thread_lock := loader_thread_lock w;
     is_destroyed := is_destroyed w; threads := threads w;
     treeview_sensitive := treeview_sensitive w; treeview_model := treeview_model w;
     stores := stores w; view_column_visible := x;
     show_passwords_active := show_passwords_active w; timeouts := timeouts w;
     log := log w |}.

Definition set_show_passwords_active (x : bool) (w : world) : world :=
  {| last_load_time := last_load_time w; refresh_frequency := refresh_frequency w;
     loader_thread := loader_thread w; loader_thread_lock := loader_thread_lock w;
     is_destroyed := is_destroyed w; threads := threads w;
     treeview_sensitive := treeview_sensitive w; treeview_model := treeview_model w;
     stores := stores w; view_column_visible := view_column_visible w;
     show_passwords_active := x; timeouts := timeouts w;
     log := log w |}.

Definition set_timeouts (x : list (Z * callback)) (w : world) : world :=
  {| last_load_time := last_load_time w; refresh_frequency := refresh_frequency w;
     loader_thread := loader_thread w; loader_thread_lock := loader_thread_lock w;
     is_destroyed := is_destroyed w; threads := threads w;
     treeview_sensitive := treeview_sensitive w; treeview_model := treeview_model w;
     stores := stores w; view_column_visible := view_column_visible w;
     show_passwords_active := show_passwords_active w; timeouts := x;
     log := log w |}.

Definition set_log (x : list (thread_id * action)) (w : world) : world :=
  {| last_load_time := last_load_time w; refresh_frequency := refresh_frequency w;
     loader_thread := loader_thread w; loader_thread_lock := loader_thread_lock w;
     is_destroyed := is_destroyed w; threads := threads w;
     treeview_sensitive := treeview_sensitive w; treeview_model := treeview_model w;
     stores := stores w; view_column_visible := view_column_visible w;
     show_passwords_active := show_passwords_active w; timeouts := timeouts w;
     log := x |}.

(** What the surroundings answer when asked: the clock, the RPC server, the
    client configuration, the user in front of the dialogs and the charting
    component.  The answers may differ from one step to the next. *)
Record env := {
  env_time : Z;
  env_has_rpc : bool;
  env_config : string -> pyval;
  env_remote_table : string -> pyval -> list row;
  env_remote_table_row : string -> pyval -> option row;
  env_selected : option nat;
  env_yes_no : bool;
  env_quick_save : option string;
  env_graph_refresh : graph -> info_cache -> info_cache
}.

(** The tab object whose methods run: an instance of a subclass of
    [CampaignViewGenericTab], or a [CampaignViewDashboardTab] with its
    [self.graphs]. *)
Inductive tab_object :=
| GenericTab (cls : tab_class)
| DashboardTab (graphs : list graph).

(** The code a thread runs once started on [target]. *)
Definition thread_code (self : tab_object) (target : routine) : prog unit :=
  match self, target with
  | GenericTab cls, RowLoaderRoutine store =>
      CampaignViewGenericTab.row_loader_thread_routine cls store
  | DashboardTab graphs, DashboardLoaderRoutine =>
      CampaignViewDashboardTab.loader_thread_routine graphs
  | _, _ => Ret tt
  end.

(** [Thread.is_alive()] *)
Definition is_alive (t : thread_state) : bool :=
  match t with
  | Started (Do _ _) => true
  | _ => false
  end.

(** [isinstance(self.row_loader_thread, threading.Thread) and
    self.row_loader_thread.is_alive()] *)
Definition loader_is_alive (w : world) : bool :=
  match loader_thread w with
  | None => false
  | Some n =>
      match threads w !! n with
      | Some t => is_alive t
      | None => false
      end
  end.

Definition store_clear (s : list_store) : list_store :=
  {| store_ncols := store_ncols s; store_rows := [] |}.

Definition store_append (row_data : list string) (s : list_store) : list_store :=
  {| store_ncols := store_ncols s; store_rows := store_rows s ++ [row_data] |}.

(** [model.get_value(tree_iter, column)] on the model of the tree view. *)
Definition model_get_value (w : world) (tree_iter column : nat) : string :=
  default "" (n ← treeview_model w; s ← stores w !! n;
              r ← store_rows s !! tree_iter; r !! column).

Definition gui (e : env) (c : gui_call) (w : world) : gui_result c * world :=
  match c return gui_result c * world with
  | TreeviewSetSensitive b => (tt, set_treeview_sensitive b w)
  | TreeviewGetModel => (treeview_model w, w)
  | TreeviewSetModel store => (tt, set_treeview_model (Some store) w)
  | ListStoreNew ncols =>
      (length (stores w),
       set_stores (stores w ++ [{| store_ncols := ncols; store_rows := [] |}]) w)
  | ListStoreClear store => (tt, set_stores (alter store_clear store (stores w)) w)
  | ListStoreAppend store row_data =>
      (tt, set_stores (alter (store_append row_data) store (stores w)) w)
  | SelectionGetSelected => (env_selected e, w)
  | ModelGetValue tree_iter column => (model_get_value w tree_iter column, w)
  | ColumnSetVisible column b =>
      (tt, set_view_column_visible (alter (fun _ => b) column (view_column_visible w)) w)
  | ButtonGetActive => (show_passwords_active w, w)
  | PopupMenuPopup => (tt, w)
  | ClipboardSetText _ => (tt, w)
  | GraphRefresh g cache => (env_graph_refresh e g cache, w)
  | ShowDialogWarning _ => (tt, w)
  | ShowDialogYesNo _ _ => (env_yes_no e, w)
  | FileChooserQuickSave _ => (env_quick_save e, w)
  end.

Definition lock_acquire (th : thread_id) (l : lock_state) : option lock_state :=
  match l with
  | PlainLock false => Some (PlainLock true)
  | PlainLock true => None
  | ReentrantLock None => Some (ReentrantLock (Some (th, 1)))
  | ReentrantLock (Some (owner, n)) =>
      if decide (owner = th) then Some (ReentrantLock (Some (owner, S n))) else None
  end.

Definition lock_release (th : thread_id) (l : lock_state) : lock_state :=
  match l with
  | PlainLock _ => PlainLock false
  | ReentrantLock (Some (owner, S (S n))) =>
      if decide (owner = th) then ReentrantLock (Some (owner, S n)) else l
  | ReentrantLock (Some (owner, _)) =>
      if decide (owner = th) then ReentrantLock None else l
  | ReentrantLock None => l
  end.

(** [self.row_loader_thread = threading.Thread(target=...)] *)
Definition thread_create (target : routine) (w : world) : world :=
  set_loader_thread (Some (length (threads w)))
    (set_threads (threads w ++ [Unstarted target]) w).

(** [self.row_loader_thread.start()] *)
Definition thread_start (self : tab_object) (w : world) : world :=
  set_threads
    (match loader_thread w with
     | None => threads w
     | Some n =>
         match threads w !! n with
         | Some (Unstarted target) => <[n := Started (thread_code self target)]> (threads w)
         | _ => threads w
         end
     end) w.

(** The log takes every call on the threading library, on GTK, on the RPC
    client and on the logger, and every assignment to an attribute of the
    tab; it does not take the reads of the attributes, of the clock and of
    the configuration. *)
Definition record (th : thread_id) (a : action) (w : world) : world :=
  set_log (log w ++ [(th, a)]) w.

(** One action of thread [th]; [None] when the thread has to wait.
    [Raise] is an exception that leaves a signal handler: PyGObject reports
    it and the main loop goes on.
    [glib_idle_add_wait] hands the call to the GTK main loop and waits until
    the loop has run it: it goes through only for a thread other than the main
    thread and while the main thread sits in its loop ([main_idle]); the call
    itself is then made by the main thread. *)
Definition perform (self : tab_object) (e : env) (main_idle : bool) (th : thread_id)
    (a : action) (w : world) : option (result a * world) :=
  match a return option (result a * world) with
  | TimeTime => Some (env_time e, w)
  | GetLastLoadTime => Some (last_load_time w, w)
  | SetLastLoadTime t => Some (tt, record th a (set_last_load_time (Stamp t) w))
  | GetRefreshFrequency => Some (refresh_frequency w, w)
  | LoaderIsAlive => Some (loader_is_alive w, w)
  | LockAcquire =>
      l ← lock_acquire th (loader_thread_lock w);
      Some (tt, record th a (set_loader_thread_lock l w))
  | LockRelease =>
      Some (tt, record th a (set_loader_thread_lock (lock_release th (loader_thread_lock w)) w))
  | ThreadCreate target => Some (tt, record th a (thread_create target w))
  | ThreadStart => Some (tt, record th a (thread_start self w))
  | ThreadJoin => if loader_is_alive w then None else Some (tt, record th a w)
  | IsDestroyedSet => Some (tt, record th a (set_is_destroyed true w))
  | IsDestroyedIsSet => Some (is_destroyed w, w)
  | HasRpc => Some (env_has_rpc e, w)
  | ConfigGet key => Some (env_config e key, w)
  | RpcRemoteTable table campaign_id =>
      Some (env_remote_table e table campaign_id, record th a w)
  | RpcRemoteTableRow table row_id =>
      Some (env_remote_table_row e table row_id, record th a w)
  | RpcCall _ _ => Some (tt, record th a w)
  | ExportCsv _ => Some (tt, record th a w)
  | LoggerLog _ _ => Some (tt, record th a w)
  | Raise _ => Some (tt, record th a w)
  | Gui c => let '(r, w) := gui e c w in Some (r, record th a w)
  | GlibIdleAddWait c =>
      if main_idle && negb (bool_decide (th = MainThread)) then
        let '(r, w) := gui e c (record th a w) in Some (r, record MainThread (Gui c) w)
      else None
  end.

(** A program run to its end by one thread, nothing else happening in
    between; [None] when it gets stuck waiting. *)
Fixpoint run {A} (self : tab_object) (e : env) (main_idle : bool) (th : thread_id)
    (p : prog A) (w : world) : option (A * world) :=
  match p with
  | Ret x => Some (x, w)
  | Do a k =>
      match perform self e main_idle th a w with
      | Some (r, w) => run self e main_idle th (k r) w
      | None => None
      end
  end.

(** A signal handler or a timeout callback run by the GTK main thread. *)
Definition run_main {A} (self : tab_object) (e : env) (p : prog A) (w : world)
  : option (A * world) :=
  run self e false MainThread p w.

(** A loader thread run to its end while the main thread sits in its loop. *)
Definition run_loader {A} (self : tab_object) (e : env) (n : nat) (p : prog A) (w : world)
  : option (A * world) :=
  run self e true (LoaderThread n) p w.

(** ** Construction *)

Section Construction.
(** [utilities.timedef_to_seconds] and the client configuration dict. *)
Variable timedef_to_seconds : string -> Z.
Variable config : gmap string pyval.

(** [utilities.timedef_to_seconds(str(self.config.get('gui.refresh_frequency', '5m')))] *)
Definition configured_refresh_frequency : Z :=
  timedef_to_seconds (py_str (default (PStr "5m") (config !! "gui.refresh_frequency"))).

(** [CampaignViewGenericTab.__init__]: one visible column per entry of
    [view_columns], numbered from 1.  [toggle_active] is the state in which
    the Glade file creates the toggle buttons of the tab. *)
Definition generic__init__ (self : tab_class) (toggle_active : bool) : world :=
  {| last_load_time := NegInf;
     refresh_frequency := configured_refresh_frequency;
     loader_thread := None;
     loader_thread_lock := PlainLock false;
     is_destroyed := false;
     threads := [];
     treeview_sensitive := true;
     treeview_model := None;
     stores := [];
     view_column_visible :=
       list_to_map ((fun column_id => (column_id, true)) <$> seq 1 (length (view_columns self)));
     show_passwords_active := toggle_active;
     timeouts := [];
     log := [] |}.

(** [CampaignViewCredentialsTab.__init__] *)
Definition credentials__init__ (format_datetime : pyval -> pyval) (toggle_active : bool)
  : world :=
  let w := generic__init__ (CampaignViewCredentialsTab.cls format_datetime) toggle_active in
  set_view_column_visible (alter (fun _ => false) 3 (view_column_visible w)) w.

(** [graphs.get_graph]: whether a graph class of that name exists. *)
Variable get_graph : string -> bool.

Definition dash_ports : list (string * option (Z * Z)) :=
  [("top_left", Some (380, 200)%Z); ("top_right", Some (380, 200)%Z); ("bottom", None)].

(** The loop of [CampaignViewDashboardTab.__init__] over [dash_ports.items()],
    building [self.graphs] and logging a warning for a graph that is not
    found.  [self.config['dashboard.' + dash_port]] raises [KeyError] for a
    port that is not configured: the loop then returns [None].  So it does
    for a name that is no string: [graphs.get_graph] looks the name up among
    the graph classes, which are named by strings, and line 342 cannot
    concatenate it to the warning. *)
Fixpoint dashboard_add_graphs (items : list (string * option (Z * Z)))
    (graphs : list graph) (w : world) : option (list graph * world) :=
  match items with
  | [] => Some (graphs, w)
  | (dash_port, details) :: items =>
      match config !! ("dashboard." +:+ dash_port) with
      | Some (PStr graph_name) =>
          if negb (get_graph graph_name) then
            dashboard_add_graphs items graphs
              (record MainThread
                 (LoggerLog "warning" ("could not get graph: " +:+ graph_name)) w)
          else
            let graph_inst := {| graph_name := graph_name; graph_size := details |} in
            dashboard_add_graphs items (graphs ++ [graph_inst]) w
      | _ => None
      end
  end.

(** [CampaignViewDashboardTab.__init__]; [items] is [dash_ports.items()] in
    the order of the dict.  [None] when the constructor raises. *)
Definition dashboard__init__ (items : list (string * option (Z * Z)))
  : option (list graph * world) :=
  let w :=
    {| last_load_time := NegInf;
       refresh_frequency := configured_refresh_frequency;
       loader_thread := None;
       loader_thread_lock := ReentrantLock None;
       is_destroyed := false;
       threads := [];
       treeview_sensitive := true;
       treeview_model := None;
       stores := [];
       view_column_visible := ∅;
       show_passwords_active := false;
       timeouts := [];
       log := [] |} in
  let w :=
    record MainThread
      (LoggerLog "debug" ("dashboard refresh frequency set to "
                          +:+ pretty configured_refresh_frequency +:+ " seconds")) w in
  '(graphs, w) ← dashboard_add_graphs items [] w;
  (* GLib.timeout_add_seconds(self.refresh_frequency, self.loader_idle_routine) *)
  Some (graphs, set_timeouts (timeouts w ++ [(refresh_frequency w, LoaderIdleRoutine)]) w).
End Construction.

(** GLib runs the callback of a timeout each time its interval has passed and
    drops the timeout when the callback returns false.  [fire_timeout] is one
    such round for the [i]-th timeout of the dashboard. *)
Definition callback_code (c : callback) : prog bool :=
  match c with
  | LoaderIdleRoutine => CampaignViewDashboardTab.loader_idle_routine
  end.

Definition fire_timeout (self : tab_object) (e : env) (i : nat) (w : world) : option world :=
  '(_, c) ← timeouts w !! i;
  '(again, w) ← run_main self e (callback_code c) w;
  Some (if again : bool then w else set_timeouts (delete i (timeouts w)) w).

(** ** The top-level tab *)

Module CampaignViewTab.

(** A sub-tab: the object and its state. *)
Record sub_tab := {
  tab_self : tab_object;
  tab_world : world
}.

Record state := {
  tabs : gmap string sub_tab;
  notebook_pages : list string;
  last_page_id : Z
}.

Section WithSurroundings.
Variable timedef_to_seconds : string -> Z.
Variable format_datetime : pyval -> pyval.
Variable get_graph : string -> bool.
(** [graphs.has_matplotlib], the order of [dash_ports.items()] and the
    state of the toggle buttons in the Glade file. *)
Variable has_matplotlib : bool.
Variable dash_ports_items : list (string * option (Z * Z)).
Variable toggle_active : bool.

Definition new_generic (config : gmap string pyval) (cls : tab_class) : sub_tab :=
  {| tab_self := GenericTab cls;
     tab_world := generic__init__ timedef_to_seconds config cls toggle_active |}.

(** [self.tabs[name] = tab; self.notebook.append_page(tab.box, tab.label)] *)
Definition add_tab (name : string) (tab : sub_tab) (s : state) : state :=
  {| tabs := <[name := tab]> (tabs s);
     notebook_pages := notebook_pages s ++ [name];
     last_page_id := last_page_id s |}.

(** [None] when the constructor of the dashboard raises: no sub-tab is
    registered then. *)
Definition __init__ (config : gmap string pyval) : option state :=
  (* notebook.get_current_page() of an empty notebook is -1 *)
  let s := {| tabs := ∅; notebook_pages := []; last_page_id := (-1)%Z |} in
  s ← (if has_matplotlib then
         '(graphs, w) ←
           dashboard__init__ timedef_to_seconds config get_graph dash_ports_items;
         Some (add_tab "dashboard" {| tab_self := DashboardTab graphs; tab_world := w |} s)
       else Some s);
  let s := add_tab "messages"
             (new_generic config (CampaignViewMessagesTab.cls format_datetime)) s in
  let s := add_tab "visits"
             (new_generic config (CampaignViewVisitsTab.cls format_datetime)) s in
  let s := add_tab "credentials"
             {| tab_self := GenericTab (CampaignViewCredentialsTab.cls format_datetime);
                tab_world := credentials__init__ timedef_to_seconds config
                               format_datetime toggle_active |} s in
  let s := add_tab "deaddrop_connections"
             (new_generic config (CampaignViewDeaddropTab.cls format_datetime)) s in
  Some s.
End WithSurroundings.

(** [tab.load_campaign_information(force)] on a sub-tab of either kind. *)
Definition load_campaign_information (self : tab_object) (force : bool) : prog unit :=
  match self with
  | GenericTab cls => CampaignViewGenericTab.load_campaign_information cls force
  | DashboardTab _ => CampaignViewDashboardTab.load_campaign_information force
  end.

Definition load_tab (e : env) (force : bool) (tab : sub_tab) : sub_tab :=
  match run_main (tab_self tab) e (load_campaign_information (tab_self tab) force)
          (tab_world tab) with
  | Some (_, w) => {| tab_self := tab_self tab; tab_world := w |}
  | None => tab
  end.

Definition signal_kpc_campaign_set (e : env) (s : state) : state :=
  {| tabs := load_tab e true <$> tabs s;
     notebook_pages := notebook_pages s;
     last_page_id := last_page_id s |}.

(** [current_page] names the sub-tab whose box the page is. *)
Definition _tab_changed (e : env) (current_page : string) (index : Z) (s : state) : state :=
  if negb (env_has_rpc e) then s else
  {| tabs := alter (load_tab e false) current_page (tabs s);
     notebook_pages := notebook_pages s;
     last_page_id := index |}.

End CampaignViewTab.

(** ** Traces *)

(** An action together with what it answered. *)
Record event := Ev {
  ev_action : action;
  ev_result : result ev_action
}.

(** [runs p t x]: [p] performs the actions of [t], receiving the answers of
    [t], and returns [x].  The answers are arbitrary: the rest of the system
    may do anything in between. *)
Fixpoint runs {A} (p : prog A) (t : list event) (x : A) : Prop :=
  match p with
  | Ret y => t = [] /\ x = y
  | Do a k => exists r t', t = Ev a r :: t' /\ runs (k r) t' x
  end.

(** [store.append(row_data)], called directly or through [glib_idle_add_wait]. *)
Definition is_append (a : action) : bool :=
  match a with
  | Gui (ListStoreAppend _ _) | GlibIdleAddWait (ListStoreAppend _ _) => true
  | _ => false
  end.

Definition is_set_last_load_time (a : action) : bool :=
  match a with
  | SetLastLoadTime _ => true
  | _ => false
  end.

Definition is_delete_rpc (a : action) : bool :=
  match a with
  | RpcCall _ _ => true
  | _ => false
  end.

Definition is_direct_gui (a : action) : bool :=
  match a with
  | Gui _ => true
  | _ => false
  end.

(** The calls that change a widget or a store. *)
Definition is_gui_mutation (c : gui_call) : bool :=
  match c with
  | TreeviewSetSensitive _ | TreeviewSetModel _ | ListStoreNew _ | ListStoreClear _
  | ListStoreAppend _ _ | ColumnSetVisible _ _ | GraphRefresh _ _ => true
  | _ => false
  end.

Definition is_row_fetch (a : action) : bool :=
  match a with
  | RpcRemoteTable _ _ => true
  | _ => false
  end.

(** [self.is_destroyed.is_set()] answered [b]. *)
Definition tested_destroyed (b : bool) (ev : event) : bool :=
  match ev with
  | Ev a r =>
      match a return result a -> bool with
      | IsDestroyedIsSet => fun r => bool_decide (r = b)
      | _ => fun _ => false
      end r
  end.

Definition actions (t : list event) : list action := ev_action <$> t.

(** What the loop of [row_loader_thread_routine] does with one row, as the
    piece [t] of its trace: it formats the row; a row without format is
    deleted on the server; a row with a format is appended after a test of
    [is_destroyed], unless the test stops the loop ([continue] false). *)
Definition row_outcome (self : tab_class) (store : nat) (row_data : row)
    (t : list event) (continue : bool) : Prop :=
  exists tf formatted ts,
    t = tf ++ ts /\ runs (format_row_data self row_data) tf formatted /\
    match formatted with
    | None =>
        ts = [Ev (RpcCall (remote_table_name self +:+ "/delete") (row_data !!! "id")) tt]
        /\ continue = true
    | Some fields =>
        let cells := py_str (row_data !!! "id")
                     :: map (fun x => if bool_decide (x = PNone) then "" else py_str x) fields in
        (ts = [Ev IsDestroyedIsSet true] /\ continue = false)
        \/ (ts = [Ev IsDestroyedIsSet false;
                  Ev (GlibIdleAddWait (ListStoreAppend store cells)) tt]
            /\ continue = true)
    end.

(** [tested t]: in [t] every append comes right after a test of
    [is_destroyed] that answered false, and nothing comes after a test that
    answered true. *)
Fixpoint tested (t : list event) : bool :=
  match t with
  | [] => true
  | ev :: t =>
      if tested_destroyed true ev then
        match t with [] => true | _ => false end
      else if tested_destroyed false ev then
        match t with
        | ev' :: t' => if is_append (ev_action ev') then tested t' else tested t
        | [] => true
        end
      else negb (is_append (ev_action ev)) && tested t
  end.

(** The actions of the loop of [row_loader_thread_routine] when the format
    method does nothing but look rows up. *)
Definition loop_action (a : action) : bool :=
  match a with
  | RpcRemoteTableRow _ _ | RpcCall _ _ | IsDestroyedIsSet
  | GlibIdleAddWait (ListStoreAppend _ _) => true
  | _ => false
  end.

(** The refresh of graph [g] through [glib_idle_add_wait]. *)
Definition is_refresh_of (g : graph) (a : action) : Prop :=
  exists cache, a = GlibIdleAddWait (GraphRefresh g cache).

(** ** Atomic runs: side conditions *)

(** The lock lets the main thread in. *)
Definition lock_free (w : world) : Prop :=
  is_Some (lock_acquire MainThread (loader_thread_lock w)).

Definition needs_rpc (self : tab_object) : bool :=
  match self with
  | GenericTab _ => false
  | DashboardTab _ => true
  end.

(** The target a tab gives to its loader thread. *)
Definition spawnable (self : tab_object) (target : routine) : Prop :=
  match self, target with
  | GenericTab _, RowLoaderRoutine _ | DashboardTab _, DashboardLoaderRoutine => True
  | _, _ => False
  end.

(** ** The main thread and the loader threads, interleaved *)

Inductive signal :=
| SigLoad (force : bool)
| SigButtonClickedRefresh
| SigButtonClickedExport
| SigDestroy
| SigTreeviewButtonPressed (is_button_press : bool) (button : Z)
| SigTreeviewKeyPressed (is_key_press : bool) (keyval : key)
| SigPopupMenuCopy (column_id : nat)
| SigPopupMenuDelete
| SigButtonToggledShowPasswords
| SigTimeout (c : callback).

Definition ignore {A} (p : prog A) : prog unit := p ~; Ret tt.

(** The method connected to a signal.  [SigLoad] stands for the calls made by
    [CampaignViewTab]; the toggle is connected by [CampaignViewCredentialsTab]
    only. *)
Definition handler (self : tab_object) (s : signal) : option (prog unit) :=
  match self, s with
  | GenericTab cls, SigLoad force =>
      Some (CampaignViewGenericTab.load_campaign_information cls force)
  | GenericTab cls, SigButtonClickedRefresh =>
      Some (CampaignViewGenericTab.signal_button_clicked_refresh cls)
  | GenericTab cls, SigButtonClickedExport =>
      Some (CampaignViewGenericTab.signal_button_clicked_export cls)
  | GenericTab cls, SigDestroy => Some CampaignViewGenericTab.signal_destroy
  | GenericTab cls, SigTreeviewButtonPressed is_button_press button =>
      Some (ignore (CampaignViewGenericTab.signal_treeview_button_pressed is_button_press button))
  | GenericTab cls, SigTreeviewKeyPressed is_key_press keyval =>
      Some (CampaignViewGenericTab.signal_treeview_key_pressed cls is_key_press keyval)
  | GenericTab cls, SigPopupMenuCopy column_id =>
      Some (CampaignViewGenericTab.signal_activate_popup_menu_copy column_id)
  | GenericTab cls, SigPopupMenuDelete =>
      Some (CampaignViewGenericTab._prompt_to_delete_row cls)
  | GenericTab cls, SigButtonToggledShowPasswords =>
      Some CampaignViewCredentialsTab.signal_button_toggled_show_passwords
  | DashboardTab _, SigLoad force =>
      Some (CampaignViewDashboardTab.load_campaign_information force)
  | DashboardTab _, SigButtonClickedRefresh =>
      Some CampaignViewDashboardTab.signal_button_clicked_refresh
  | DashboardTab _, SigTimeout c => Some (ignore (callback_code c))
  | _, _ => None
  end.

(** What GTK has changed by the time it emits the signal: a toggle button
    has flipped when it emits [toggled]. *)
Definition emit (s : signal) (w : world) : world :=
  match s with
  | SigButtonToggledShowPasswords =>
      set_show_passwords_active (negb (show_passwords_active w)) w
  | _ => w
  end.

(** The main thread is in the GTK main loop ([None]) or inside a handler,
    with the code the handler has left to run. *)
Record system := {
  sys_world : world;
  sys_main : option (prog unit)
}.

(** The dialogs run a main loop of their own until they are answered. *)
Definition in_dialog (a : action) : bool :=
  match a with
  | Gui (ShowDialogWarning _) | Gui (ShowDialogYesNo _ _) | Gui (FileChooserQuickSave _) => true
  | _ => false
  end.

(** Whether a main loop is running, to take the calls handed over by
    [glib_idle_add_wait]: the main thread is in no handler, or in a dialog. *)
Definition main_idle (main : option (prog unit)) : bool :=
  match main with
  | None => true
  | Some (Do a _) => in_dialog a
  | Some (Ret _) => false
  end.

Definition set_thread (n : nat) (code : prog unit) (w : world) : world :=
  set_threads (<[n := Started code]> (threads w)) w.

Inductive step (self : tab_object) : system -> system -> Prop :=
| step_signal s p w :
    handler self s = Some p ->
    step self {| sys_world := w; sys_main := None |}
              {| sys_world := emit s w; sys_main := Some p |}
| step_main e a k r w w' :
    perform self e false MainThread a w = Some (r, w') ->
    step self {| sys_world := w; sys_main := Some (Do a k) |}
              {| sys_world := w'; sys_main := Some (k r) |}
| step_return w :
    step self {| sys_world := w; sys_main := Some (Ret tt) |}
              {| sys_world := w; sys_main := None |}
| step_loader e n a k r w w' main :
    threads w !! n = Some (Started (Do a k)) ->
    perform self e (main_idle main) (LoaderThread n) a w
      = Some (r, w') ->
    step self {| sys_world := w; sys_main := main |}
              {| sys_world := set_thread n (k r) w'; sys_main := main |}.

Inductive reachable (self : tab_object) (w0 : world) : system -> Prop :=
| reachable_init : reachable self w0 {| sys_world := w0; sys_main := None |}
| reachable_step s s' : reachable self w0 s -> step self s s' -> reachable self w0 s'.

(** The rows appended so far, in the log. *)
Definition appended (w : world) : list (thread_id * action) :=
  List.filter (fun '(_, a) => is_append a) (log w).

(** *** What the code of a loader thread may do *)

(** The actions a loader takes besides testing the flag and appending:
    neither a direct GTK call, nor a thread, the flag or the lock. *)
Definition loader_plain (a : action) : bool :=
  match a with
  | TimeTime | SetLastLoadTime _ | ConfigGet _ | RpcRemoteTable _ _
  | RpcRemoteTableRow _ _ | RpcCall _ _ => true
  | GlibIdleAddWait c => negb (is_append a)
  | _ => false
  end.

Definition is_idle_append (a : action) : bool :=
  match a with
  | GlibIdleAddWait (ListStoreAppend _ _) => true
  | _ => false
  end.

(** The next action of [p] is an append. *)
Definition is_armed {A} (p : prog A) : bool :=
  match p with
  | Do a _ => is_idle_append a
  | Ret _ => false
  end.

(** [only ok p]: every action [p] may take satisfies [ok]. *)
Fixpoint only {A} (ok : action -> bool) (p : prog A) : Prop :=
  match p with
  | Ret _ => True
  | Do a k => ok a = true /\ forall r, only ok (k r)
  end.

(** [plain p]: [p] takes plain actions only. *)
Definition plain {A} (p : prog A) : Prop := only loader_plain p.

(** [guarded false p]: [p] appends a row only as the next action after a
    test of [is_destroyed] that answered false.  [guarded true p]: [p] has
    passed the test and appends next. *)
Fixpoint guarded {A} (passed : bool) (p : prog A) : Prop :=
  match p with
  | Ret _ => passed = false
  | Do a k =>
      if passed then is_idle_append a = true /\ forall r, guarded false (k r)
      else
        match a return (result a -> prog A) -> Prop with
        | IsDestroyedIsSet => fun k => guarded false (k true) /\ guarded true (k false)
        | a => fun k => loader_plain a = true /\ forall r, guarded false (k r)
        end k
  end.

(** *** What the code of a handler may do *)

Definition handler_plain (a : action) : bool :=
  match a with
  | TimeTime | GetLastLoadTime | GetRefreshFrequency | LockAcquire | LockRelease
  | HasRpc | ConfigGet _ | RpcCall _ _ | ExportCsv _ | LoggerLog _ _ | Raise _ => true
  | Gui c => negb (is_append a)
  | _ => false
  end.

(** [waits p]: [p] is the end of [signal_destroy]: it joins the loader thread
    if that is alive. *)
Fixpoint waits {A} (p : prog A) : Prop :=
  match p with
  | Ret _ => False
  | Do a k =>
      match a return (result a -> prog A) -> Prop with
      | LoaderIsAlive => fun k => waits (k true)
      | ThreadJoin => fun _ => True
      | _ => fun _ => False
      end k
  end.

(** [careful false p]: [p] creates and starts a thread only after having seen
    that the loader is not alive, and sets [is_destroyed] only to join the
    loader next.  [careful true p]: [p] has seen that the loader is not alive
    and may create and start a thread. *)
Fixpoint careful {A} (cleared : bool) (p : prog A) : Prop :=
  match p with
  | Ret _ => True
  | Do a k =>
      match a return (result a -> prog A) -> Prop with
      | LoaderIsAlive => fun k => careful cleared (k true) /\ careful true (k false)
      | ThreadJoin => fun k => forall r, careful cleared (k r)
      | IsDestroyedSet => fun k => forall r, waits (k r) /\ careful cleared (k r)
      | ThreadCreate _ => fun k => cleared = true /\ forall r, careful true (k r)
      | ThreadStart => fun k => cleared = true /\ forall r, careful false (k r)
      | a => fun k => handler_plain a = true /\ forall r, careful cleared (k r)
      end k
  end.

(** The format method of the class does nothing but look rows up. *)
Definition is_row_lookup (a : action) : bool :=
  match a with
  | RpcRemoteTableRow _ _ => true
  | _ => false
  end.

Definition formats_plainly (self : tab_object) : Prop :=
  match self with
  | GenericTab cls => forall row_data, only is_row_lookup (format_row_data cls row_data)
  | DashboardTab _ => True
  end.

(** What the log says of a run in which the GTK calls are made by the main
    thread and the rows are fetched by a loader thread. *)
Definition log_entry_ok (entry : thread_id * action) : Prop :=
  let '(th, a) := entry in
  (is_direct_gui a = true -> th = MainThread) /\
  (is_row_fetch a = true -> exists n, th = LoaderThread n).

(** ** Callers of [load_campaign_information] on several threads *)

(** [schedule] names, step by step, the caller that takes its next action;
    a caller that has to wait is skipped. *)
Fixpoint interleave (self : tab_object) (e : env) (schedule : list nat)
    (callers : list (prog unit)) (w : world) : list (prog unit) * world :=
  match schedule with
  | [] => (callers, w)
  | i :: schedule =>
      match callers !! i with
      | Some (Do a k) =>
          match perform self e false (OtherThread i) a w with
          | Some (r, w') => interleave self e schedule (<[i := k r]> callers) w'
          | None => interleave self e schedule callers w
          end
      | _ => interleave self e schedule callers w
      end
  end.

Definition alive_threads (w : world) : nat :=
  length (List.filter is_alive (threads w)).

(** ** The operations on a tab, each taken as a whole *)

Inductive operation :=
| OpSignal (s : signal)
| OpLoaderRun (n : nat).

Definition is_toggle (s : signal) : bool :=
  match s with
  | SigButtonToggledShowPasswords => true
  | _ => false
  end.

(** A signal handled by the main thread from start to end, or a loader thread
    run from where it stands to its end.  [None] when it cannot complete. *)
Definition apply_operation (self : tab_object) (e : env) (op : operation) (w : world)
  : option world :=
  match op with
  | OpSignal s =>
      p ← handler self s;
      '(_, w) ← run_main self e p (emit s w);
      Some w
  | OpLoaderRun n =>
      t ← threads w !! n;
      match t with
      | Started p =>
          '(_, w) ← run_loader self e n p w;
          Some (set_thread n (Ret tt) w)
      | Unstarted _ => None
      end
  end.

Fixpoint apply_operations (self : tab_object) (ops : list (env * operation)) (w : world)
  : option world :=
  match ops with
  | [] => Some w
  | (e, op) :: ops => w ← apply_operation self e op w; apply_operations self ops w
  end.

Definition toggled (ops : list (env * operation)) : bool :=
  existsb (fun '(_, op) => match op with OpSignal s => is_toggle s | _ => false end) ops.

(** The actions that leave the visibility of the columns alone. *)
Definition not_column_set (a : action) : bool :=
  match a with
  | Gui (ColumnSetVisible _ _) | GlibIdleAddWait (ColumnSetVisible _ _) => false
  | _ => true
  end.

(** Every started thread has code that satisfies [ok] only. *)
Definition threads_only (ok : action -> bool) (w : world) : Prop :=
  forall n p, threads w !! n = Some (Started p) -> only ok p.

(** What an action of thread [th] adds to the log. *)
Definition log_of (th : thread_id) (a : action) : list (thread_id * action) :=
  match a with
  | TimeTime | GetLastLoadTime | GetRefreshFrequency | LoaderIsAlive | IsDestroyedIsSet
  | HasRpc | ConfigGet _ => []
  | GlibIdleAddWait c => [(th, a); (MainThread, Gui c)]
  | _ => [(th, a)]
  end.

(** *** The invariant of the interleaved runs *)

(** No thread is alive. *)
Definition all_dead (w : world) : Prop :=
  forall n t, threads w !! n = Some t -> is_alive t = false.

(** In every state of an interleaved run: the code of each loader thread is
    guarded; the only thread that may be alive is the one the tab refers to;
    the handler the main thread is in is careful, and where it may create a
    thread no thread is alive; once [is_destroyed] is set, a loader that has
    passed its test finds the main thread at the join of [signal_destroy];
    and the log is as [log_entry_ok] says. *)
Definition sys_inv (s : system) : Prop :=
  let w := sys_world s in
  (forall n p, threads w !! n = Some (Started p) -> exists passed, guarded passed p)
  /\ (forall n t, threads w !! n = Some t -> is_alive t = true -> loader_thread w = Some n)
  /\ (forall q, sys_main s = Some q ->
       exists cleared, careful cleared q /\ (cleared = true -> all_dead w))
  /\ (is_destroyed w = true ->
      forall n p, threads w !! n = Some (Started p) -> is_armed p = true ->
      exists q, sys_main s = Some q /\ waits q)
  /\ Forall log_entry_ok (log w).

(** What a loader thread does: no GTK call of its own; the tree view, the
    store and the graphs through [glib_idle_add_wait]; the rest is the RPC
    client, the clock, the configuration and the attributes of the tab. *)
Definition worker_action (a : action) : bool :=
  match a with
  | Gui _ => false
  | GlibIdleAddWait (TreeviewSetSensitive _) | GlibIdleAddWait (ListStoreAppend _ _)
  | GlibIdleAddWait (GraphRefresh _ _) => true
  | GlibIdleAddWait _ => false
  | _ => true
  end.

(** [under_lock held t]: in the actions [t], started with the loader lock held
    or not, the check whether the loader is alive and the creation and the
    start of a thread are all made with the lock held. *)
Fixpoint under_lock (held : bool) (t : list action) : bool :=
  match t with
  | [] => true
  | LockAcquire :: t => under_lock true t
  | LockRelease :: t => under_lock false t
  | (LoaderIsAlive | ThreadCreate _ | ThreadStart) :: t => held && under_lock held t
  | _ :: t => under_lock held t
  end.

(** Where a caller stands with respect to the loader lock: outside of it,
    inside, or inside and having seen that the loader is not alive. *)
Inductive lock_mode :=
| Outside
| Inside
| Cleared.

(** The actions of [load_campaign_information] that touch neither the lock
    nor the threads. *)
Definition lock_plain (a : action) : bool :=
  match a with
  | TimeTime | GetLastLoadTime | GetRefreshFrequency | HasRpc | LoggerLog _ _ => true
  | _ => false
  end.

(** [locked m p]: started in mode [m], [p] checks the loader, creates and
    starts a thread only inside the lock, creates and starts only after a
    check that found no loader alive, and ends outside of the lock. *)
Fixpoint locked {A} (m : lock_mode) (p : prog A) : Prop :=
  match p with
  | Ret _ => m = Outside
  | Do a k =>
      match a return (result a -> prog A) -> Prop with
      | LockAcquire => fun k => m = Outside /\ forall r, locked Inside (k r)
      | LockRelease => fun k => m <> Outside /\ forall r, locked Outside (k r)
      | LoaderIsAlive => fun k => m <> Outside /\ locked m (k true) /\ locked Cleared (k false)
      | ThreadCreate _ => fun k => m = Cleared /\ forall r, locked Cleared (k r)
      | ThreadStart => fun k => m = Cleared /\ forall r, locked Inside (k r)
      | a => fun k => lock_plain a = true /\ forall r, locked m (k r)
      end k
  end.

(** The invariant of callers racing for a reentrant loader lock: each caller
    stands in some mode; a caller inside owns the lock, entered once; the
    owner of the lock is inside; a cleared caller sees no thread alive; and
    the only thread that may be alive is the one the tab refers to. *)
Definition race_inv (callers : list (prog unit)) (w : world) : Prop :=
  exists (modes : list lock_mode) (owner : option (thread_id * nat)),
    loader_thread_lock w = ReentrantLock owner
    /\ length modes = length callers
    /\ (forall i p m, callers !! i = Some p -> modes !! i = Some m ->
          locked m p
          /\ (m <> Outside -> owner = Some (OtherThread i, 1))
          /\ (m = Cleared -> all_dead w))
    /\ (forall th c, owner = Some (th, c) ->
          exists i m, th = OtherThread i /\ modes !! i = Some m /\ m <> Outside)
    /\ (forall n t, threads w !! n = Some t -> is_alive t = true -> loader_thread w = Some n).

(** ** Sample surroundings *)

Definition sample_env : env :=
  {| env_time := 200;
     env_has_rpc := true;
     env_config := fun _ => PInt 1;
     env_remote_table := fun _ _ => [];
     env_remote_table_row := fun _ _ => None;
     env_selected := Some 0;
     env_yes_no := true;
     env_quick_save := None;
     env_graph_refresh := fun _ cache => cache |}.

Definition sample_timedef_to_seconds (s : string) : Z := 300.

Definition sample_format_datetime (x : pyval) : pyval := x.

(** A messages tab as its constructor leaves it. *)
Definition sample_messages_tab : world :=
  generic__init__ sample_timedef_to_seconds ∅
    (CampaignViewMessagesTab.cls sample_format_datetime) false.

(** Two calls of [load_campaign_information(force=True)] on two threads: both
    make the check before either takes the lock. *)
Definition racing_callers : list (prog unit) :=
  [CampaignViewGenericTab.load_campaign_information
     (CampaignViewMessagesTab.cls sample_format_datetime) true;
   CampaignViewGenericTab.load_campaign_information
     (CampaignViewMessagesTab.cls sample_format_datetime) true].

Definition racing_schedule : list nat :=
  [0; 1; 0; 0; 0; 0; 0; 0; 0; 1; 1; 1; 1; 1; 1].

Definition sample_messages_cls : tab_class :=
  CampaignViewMessagesTab.cls sample_format_datetime.

(** The messages tab, loaded at time 100. *)
Definition sample_loaded_tab : world :=
  set_last_load_time (Stamp 100) sample_messages_tab.

(** The messages tab after [signal_destroy], run with no loader alive: the
    flag is set and the handler stands at its return. *)
Definition sample_destroyed : system :=
  {| sys_world := record MainThread IsDestroyedSet (set_is_destroyed true sample_messages_tab);
     sys_main := Some (Ret tt) |}.

(** A credentials tab as its constructor leaves it, the toggle inactive. *)
Definition sample_credentials_tab : world :=
  credentials__init__ sample_timedef_to_seconds ∅ sample_format_datetime false.

Definition sample_credentials_self : tab_object :=
  GenericTab (CampaignViewCredentialsTab.cls sample_format_datetime).

Definition sample_toggle : list (env * operation) :=
  [(sample_env, OpSignal SigButtonToggledShowPasswords)].

Definition sample_reload : list (env * operation) :=
  [(sample_env, OpSignal (SigLoad true))].

(** The credentials tab after the toggle, and after a reload on top. *)
Definition sample_toggled_tab : world :=
  default sample_credentials_tab
    (apply_operations sample_credentials_self sample_toggle sample_credentials_tab).

Definition sample_reloaded_tab : world :=
  default sample_toggled_tab
    (apply_operations sample_credentials_self sample_reload sample_toggled_tab).

(** ** What a load shows *)

(** What a format method returns when the RPC server answers its look-ups as
    [e] says; [None] when the method does anything but look rows up. *)
Fixpoint format_result {A} (e : env) (p : prog A) : option A :=
  match p with
  | Ret x => Some x
  | Do a k =>
      match a return (result a -> prog A) -> option A with
      | RpcRemoteTableRow table row_id =>
          fun k => format_result e (k (env_remote_table_row e table row_id))
      | _ => fun _ => None
      end k
  end.

(** The cells of the store for a row with id [row_id] formatted as [fields]:
    [str(row_id)], then [''] for [None] and [str(x)] for another field. *)
Definition cells (row_id : pyval) (fields : list pyval) : list string :=
  py_str row_id :: map (fun x => if bool_decide (x = PNone) then "" else py_str x) fields.

(** The rows of the table that have a format, with their id and their
    formatted fields, in the order of the table. *)
Fixpoint kept_rows (self : tab_class) (e : env) (rows : list row)
  : list (pyval * list pyval) :=
  match rows with
  | [] => []
  | row_data :: rows =>
      match format_result e (format_row_data self row_data) with
      | Some (Some fields) => (row_data !!! "id", fields) :: kept_rows self e rows
      | _ => kept_rows self e rows
      end
  end.

Definition shown_rows (self : tab_class) (e : env) (rows : list row) : list (list string) :=
  (fun kept => cells kept.1 kept.2) <$> kept_rows self e rows.

(** The rows the server answers for the table of the tab. *)
Definition table_rows (self : tab_class) (e : env) : list row :=
  env_remote_table e ("campaign/" +:+ remote_table_name self) (env_config e "campaign_id").

(** The rows of the model of the tree view. *)
Definition model_rows (w : world) : option (list (list string)) :=
  n ← treeview_model w; s ← stores w !! n; Some (store_rows s).

(** The model of the tree view, if it has one, is a store that exists. *)
Definition model_exists (w : world) : Prop :=
  match treeview_model w with
  | None => True
  | Some store => store < length (stores w)
  end.

(** The rows appended by [t] have [n] cells. *)
Definition appends_width (n : nat) (a : action) : bool :=
  match a with
  | Gui (ListStoreAppend _ row_data) | GlibIdleAddWait (ListStoreAppend _ row_data) =>
      bool_decide (length row_data = n)
  | _ => true
  end.

(** [store.append] of each of [rows] in turn. *)
Definition append_all (store : nat) (rows : list (list string)) (sts : list list_store)
  : list list_store :=
  foldl (fun sts row_data => alter (store_append row_data) store sts) sts rows.

(** Nobody holds the loader lock. *)
Definition lock_unheld (w : world) : Prop :=
  loader_thread_lock w = PlainLock false \/ loader_thread_lock w = ReentrantLock None.

(** [w'] is [w] with entries added to the log. *)
Definition logged_more (w w' : world) : Prop :=
  exists l, w' = set_log (log w ++ l) w.

(** The warning of a dashboard load without RPC client. *)
Definition skipped_load_warning : thread_id * action :=
  (MainThread,
   LoggerLog "warning" "skipping load_campaign_information because rpc is not initialized").

(** What a load requested while the loader is alive adds to the log. *)
Definition skipped_load_log (self : tab_object) (e : env) (force : bool) (w : world)
  : list (thread_id * action) :=
  if negb force && elapsed_lt (env_time e) (last_load_time w) (refresh_frequency w) then []
  else
    match self with
    | GenericTab _ => []
    | DashboardTab _ =>
        if env_has_rpc e then [(MainThread, LockAcquire); (MainThread, LockRelease)]
        else [skipped_load_warning]
    end.

Definition is_export (a : action) : bool :=
  match a with
  | ExportCsv _ => true
  | _ => false
  end.

Definition is_raise (a : action) : bool :=
  match a with
  | Raise _ => true
  | _ => false
  end.

(** ** The dashboard *)

(** [names] are the graphs the configuration names for the dash ports
    [items], port by port. *)
Definition configured (config : gmap string pyval) (items : list (string * option (Z * Z)))
    (names : list string) : Prop :=
  Forall2 (fun item name => config !! ("dashboard." +:+ item.1) = Some (PStr name))
    items names.

(** The warning of line 342. *)
Definition graph_warning (graph_name : string) : thread_id * action :=
  (MainThread, LoggerLog "warning" ("could not get graph: " +:+ graph_name)).

(** Of the ports [items], named [names] by the configuration, the graphs
    whose class [graphs.get_graph] finds, each of the name and with the size
    of its port; and the names it does not find. *)
Definition found_graphs (get_graph : string -> bool)
    (items : list (string * option (Z * Z))) (names : list string) : list graph :=
  (fun port => {| graph_name := port.2; graph_size := port.1.2 |})
    <$> List.filter (fun port => get_graph port.2) (zip items names).

Definition missing_graphs (get_graph : string -> bool) (names : list string)
  : list string :=
  List.filter (fun name => negb (get_graph name)) names.

(** The calls of [graph.refresh] of one load: each graph with the cache it
    is given, the first the empty dict, the next what the one before
    returned. *)
Fixpoint refresh_calls (e : env) (graphs : list graph) (cache : info_cache)
  : list (graph * info_cache) :=
  match graphs with
  | [] => []
  | g :: graphs => (g, cache) :: refresh_calls e graphs (env_graph_refresh e g cache)
  end.

(** What [glib_idle_add_wait(graph.refresh, info_cache)] of thread [th] adds
    to the log. *)
Definition refresh_entries (th : thread_id) (call : graph * info_cache)
  : list (thread_id * action) :=
  [(th, GlibIdleAddWait (GraphRefresh call.1 call.2));
   (MainThread, Gui (GraphRefresh call.1 call.2))].

(** ** [signal_destroy] and a waiting loader *)

(** [destroying p]: [p] is [signal_destroy], from its start or from a later
    point: it sets the flag, asks whether the loader is alive, and joins it
    if so. *)
Definition destroying {A} (p : prog A) : Prop :=
  match p with
  | Ret _ => False
  | Do a k =>
      match a return (result a -> prog A) -> Prop with
      | IsDestroyedSet => fun k => forall r, waits (k r)
      | a => fun k => waits (Do a k)
      end k
  end.

(** Thread [n], the loader the tab refers to and the only thread alive, has
    handed the call [c] to [glib_idle_add_wait], and the main thread is in
    [signal_destroy]. *)
Definition destroy_waits (n : nat) (c : gui_call) (s : system) : Prop :=
  loader_thread (sys_world s) = Some n
  /\ (exists k, threads (sys_world s) !! n = Some (Started (Do (GlibIdleAddWait c) k)))
  /\ (forall m t, threads (sys_world s) !! m = Some t -> is_alive t = true -> m = n)
  /\ exists q, sys_main s = Some q /\ destroying q.

(** ** Events on the tree view *)

(** The events that neither load nor delete: a button press, a key press
    other than F5 and Delete, an event on the key handler that is no key
    press, the copy item of the menu. *)
Definition is_inert (s : signal) : bool :=
  match s with
  | SigTreeviewButtonPressed _ _ | SigPopupMenuCopy _ => true
  | SigTreeviewKeyPressed is_key_press keyval =>
      negb is_key_press || match keyval with KEY_other => true | _ => false end
  | _ => false
  end.

(** The calls such an event makes: on the selection, the menu, the model and
    the clipboard. *)
Definition inert_action (a : action) : bool :=
  match a with
  | Gui SelectionGetSelected | Gui PopupMenuPopup | Gui (ModelGetValue _ _)
  | Gui (ClipboardSetText _) => true
  | _ => false
  end.

(** ** The lock, with every call made by the main thread *)

(** [holds held p]: started with the lock held by the caller or not, [p]
    acquires it only when it does not hold it, releases it only when it holds
    it, and ends without it. *)
Fixpoint holds {A} (held : bool) (p : prog A) : Prop :=
  match p with
  | Ret _ => held = false
  | Do a k =>
      match a return (result a -> prog A) -> Prop with
      | LockAcquire => fun k => held = false /\ forall r, holds true (k r)
      | LockRelease => fun k => held = true /\ forall r, holds false (k r)
      | _ => fun k => forall r, holds held (k r)
      end k
  end.

Definition not_lock_action (a : action) : bool :=
  match a with
  | LockAcquire | LockRelease => false
  | _ => true
  end.

(** The main thread holds the lock, entered once. *)
Definition lock_held_by_main (w : world) : Prop :=
  loader_thread_lock w = PlainLock true
  \/ loader_thread_lock w = ReentrantLock (Some (MainThread, 1)).

(** The loader threads leave the lock alone, and the main thread holds it
    exactly inside the critical section of the handler it is in. *)
Definition lock_inv (s : system) : Prop :=
  threads_only not_lock_action (sys_world s)
  /\ match sys_main s with
     | None => lock_unheld (sys_world s)
     | Some q =>
         exists held, holds held q
           /\ if held : bool then lock_held_by_main (sys_world s)
              else lock_unheld (sys_world s)
     end.

(** ** What the loop does, row by row *)

(** [loop_trace self store rows t completed]: the trace [t] of the loop of
    [row_loader_thread_routine] over [rows].  A loop that ran to its end has
    dealt with every row, in order, each as [row_outcome] says and going on
    after it.  A loop that returned early has dealt so with the rows before
    some row, and at that row, after formatting it, found [is_destroyed] set:
    the rows behind it are not looked at. *)
Definition loop_trace (self : tab_class) (store : nat) (rows : list row)
    (t : list event) (completed : bool) : Prop :=
  if completed then
    exists chunks : list (list event),
      t = concat chunks
      /\ Forall2 (fun row_data chunk => row_outcome self store row_data chunk true) rows chunks
  else
    exists (chunks : list (list event)) (row_data : row) (last : list event),
      t = concat chunks ++ last
      /\ Forall2 (fun row_data chunk => row_outcome self store row_data chunk true)
           (take (length chunks) rows) chunks
      /\ rows !! length chunks = Some row_data
      /\ row_outcome self store row_data last false.

(** The rows fetched by an event of a trace. *)
Definition fetched_rows (ev : event) : list row :=
  match ev with
  | Ev a r =>
      match a return result a -> list row with
      | RpcRemoteTable _ _ => fun r => r
      | _ => fun _ => []
      end r
  end.

(** The time assigned by an event of a trace. *)
Definition set_time (ev : event) : Z :=
  match ev_action ev with
  | SetLastLoadTime now => now
  | _ => 0
  end.

(** ** What a load logs *)

(** What [glib_idle_add_wait] of the call [c] by thread [th] adds to the
    log: the hand-over by the thread, then the call, made by the main
    thread. *)
Definition marshaled (th : thread_id) (c : gui_call) : list (thread_id * action) :=
  [(th, GlibIdleAddWait c); (MainThread, Gui c)].

(** The look-ups of a format method, as thread [th] logs them. *)
Fixpoint format_log {A} (e : env) (th : thread_id) (p : prog A)
  : list (thread_id * action) :=
  match p with
  | Ret _ => []
  | Do a k =>
      match a return (result a -> prog A) -> list (thread_id * action) with
      | RpcRemoteTableRow table row_id =>
          fun k => (th, RpcRemoteTableRow table row_id)
                   :: format_log e th (k (env_remote_table_row e table row_id))
      | _ => fun _ => []
      end k
  end.

(** What the loop over [rows] logs on a tab that is not destroyed: for each
    row its look-ups, then the append of its cells handed to the main
    thread, or the delete RPC when it has no format. *)
Fixpoint loop_log (self : tab_class) (e : env) (th : thread_id) (store : nat)
    (rows : list row) : list (thread_id * action) :=
  match rows with
  | [] => []
  | row_data :: rows =>
      format_log e th (format_row_data self row_data)
      ++ match format_result e (format_row_data self row_data) with
         | Some (Some fields) =>
             marshaled th (ListStoreAppend store (cells (row_data !!! "id") fields))
         | Some None =>
             [(th, RpcCall (remote_table_name self +:+ "/delete") (row_data !!! "id"))]
         | None => []
         end
      ++ loop_log self e th store rows
  end.

(** What a run of [row_loader_thread_routine] by thread [th] logs on a tab
    that is not destroyed. *)
Definition load_log (self : tab_class) (e : env) (th : thread_id) (store : nat)
  : list (thread_id * action) :=
  marshaled th (TreeviewSetSensitive false)
  ++ [(th, RpcRemoteTable ("campaign/" +:+ remote_table_name self)
             (env_config e "campaign_id"))]
  ++ loop_log self e th store (table_rows self e)
  ++ marshaled th (TreeviewSetSensitive true)
  ++ [(th, SetLastLoadTime (env_time e))].

(** ** Runs given step by step *)

(** The next step of a run: a signal taken up by the main thread, a step of
    the handler it is in, the return of the handler, a step of loader thread
    [n]; with the surroundings that answer the step. *)
Inductive choice :=
| TakeSignal (s : signal)
| MainStep (e : env)
| HandlerReturn
| LoaderStep (e : env) (n : nat).

Definition sched_step (self : tab_object) (c : choice) (s : system) : option system :=
  let w := sys_world s in
  match c, sys_main s with
  | TakeSignal sg, None =>
      p ← handler self sg;
      Some {| sys_world := emit sg w; sys_main := Some p |}
  | MainStep e, Some (Do a k) =>
      '(r, w') ← perform self e false MainThread a w;
      Some {| sys_world := w'; sys_main := Some (k r) |}
  | HandlerReturn, Some (Ret _) => Some {| sys_world := w; sys_main := None |}
  | LoaderStep e n, main =>
      match threads w !! n with
      | Some (Started (Do a k)) =>
          '(r, w') ← perform self e (main_idle main) (LoaderThread n) a w;
          Some {| sys_world := set_thread n (k r) w'; sys_main := main |}
      | _ => None
      end
  | _, _ => None
  end.

Fixpoint sched_run (self : tab_object) (cs : list choice) (s : system) : option system :=
  match cs with
  | [] => Some s
  | c :: cs => s' ← sched_step self c s; sched_run self cs s'
  end.

(** A step that leaves the main thread inside its handler. *)
Definition step_within (self : tab_object) (s s' : system) : Prop :=
  step self s s' /\ sys_main s' <> None.

(** [sched_run], with the main thread inside a handler after every step. *)
Fixpoint sched_run_within (self : tab_object) (cs : list choice) (s : system) : option system :=
  match cs with
  | [] => Some s
  | c :: cs =>
      s' ← sched_step self c s;
      match sys_main s' with
      | Some _ => sched_run_within self cs s'
      | None => None
      end
  end.

(** ** Where the main thread stands in [signal_destroy] *)

Definition returns {A} (p : prog A) : Prop :=
  match p with
  | Ret _ => True
  | Do _ _ => False
  end.

(** At [self.row_loader_thread.join()], the last statement. *)
Definition at_join {A} (p : prog A) : Prop :=
  match p with
  | Ret _ => False
  | Do a k =>
      match a return (result a -> prog A) -> Prop with
      | ThreadJoin => fun k => forall r, returns (k r)
      | _ => fun _ => False
      end k
  end.

(** At the test whether the loader is alive. *)
Definition at_check {A} (p : prog A) : Prop :=
  match p with
  | Ret _ => False
  | Do a k =>
      match a return (result a -> prog A) -> Prop with
      | LoaderIsAlive => fun k => at_join (k true) /\ returns (k false)
      | _ => fun _ => False
      end k
  end.

(** At [self.is_destroyed.set()], the first statement. *)
Definition at_set {A} (p : prog A) : Prop :=
  match p with
  | Ret _ => False
  | Do a k =>
      match a return (result a -> prog A) -> Prop with
      | IsDestroyedSet => fun k => forall r, at_check (k r)
      | _ => fun _ => False
      end k
  end.

(** The main thread is in [signal_destroy]: before the flag is set, or with
    the flag set at the test, at the join, or past both with no loader
    alive. *)
Definition destroy_inv (s : system) : Prop :=
  exists q, sys_main s = Some q
    /\ (at_set q
        \/ (is_destroyed (sys_world s) = true
            /\ (at_check q \/ at_join q
                \/ (returns q /\ loader_is_alive (sys_world s) = false)))).

(** ** More sample surroundings *)

(** Two rows of the messages table. *)
Definition sample_message_rows : list row :=
  [list_to_map [("id", PInt 7); ("target_email", PStr "alice@example.org");
                ("sent", PStr "2014-03-01"); ("opened", PNone); ("trained", PInt 1)];
   list_to_map [("id", PInt 8); ("target_email", PStr "bob@example.org");
                ("sent", PStr "2014-03-02"); ("opened", PStr "2014-03-03");
                ("trained", PInt 0)]].

(** A server that answers with these rows. *)
Definition sample_table_env : env :=
  {| env_time := 200;
     env_has_rpc := true;
     env_config := fun _ => PInt 1;
     env_remote_table := fun _ _ => sample_message_rows;
     env_remote_table_row := fun _ _ => None;
     env_selected := Some 0;
     env_yes_no := true;
     env_quick_save := None;
     env_graph_refresh := fun _ cache => cache |}.

(** A client without RPC connection. *)
Definition sample_env_no_rpc : env :=
  {| env_time := 200;
     env_has_rpc := false;
     env_config := fun _ => PInt 1;
     env_remote_table := fun _ _ => [];
     env_remote_table_row := fun _ _ => None;
     env_selected := None;
     env_yes_no := false;
     env_quick_save := None;
     env_graph_refresh := fun _ cache => cache |}.

(** The messages tab after a forced load: its loader is started and has not
    run yet. *)
Definition sample_loading_tab : world :=
  default sample_messages_tab
    (apply_operations (GenericTab sample_messages_cls) sample_reload sample_messages_tab).

(** The main thread takes up [signal_destroy] on that tab. *)
Definition sample_destroy_while_loading : system :=
  {| sys_world := sample_loading_tab;
     sys_main := Some CampaignViewGenericTab.signal_destroy |}.

(** A configuration that names a graph for each dash port, and a charting
    component that has two of the three. *)
Definition sample_config : gmap string pyval :=
  list_to_map [("dashboard.top_left", PStr "Overview");
               ("dashboard.top_right", PStr "VisitorInfo");
               ("dashboard.bottom", PStr "VisitsTimeline")].

Definition sample_get_graph (graph_name : string) : bool :=
  negb (String.eqb graph_name "VisitorInfo").

(** The dashboard as its constructor leaves it. *)
Definition sample_dashboard : list graph * world :=
  default ([], sample_messages_tab)
    (dashboard__init__ sample_timedef_to_seconds sample_config sample_get_graph dash_ports).

(** The top-level tab as its constructor leaves it, with matplotlib. *)
Definition sample_view_tab : CampaignViewTab.state :=
  default {| CampaignViewTab.tabs := ∅; CampaignViewTab.notebook_pages := [];
             CampaignViewTab.last_page_id := (-1)%Z |}
    (CampaignViewTab.__init__ sample_timedef_to_seconds sample_format_datetime
       sample_get_graph true dash_ports false sample_config).

(** A run of [_prompt_to_delete_row] on the messages tab: the first row is
    selected, the user confirms, the tree view has no model yet. *)
Definition sample_delete_trace : list event :=
  [Ev LoaderIsAlive false;
   Ev (Gui SelectionGetSelected) (Some 0);
   Ev (Gui (ModelGetValue 0 0)) "7";
   Ev (Gui (ShowDialogYesNo "Delete This Row?" "This information will be lost.")) true;
   Ev (RpcCall "messages/delete" (PStr "7")) tt;
   Ev LoaderIsAlive false;
   Ev LockAcquire tt;
   Ev (Gui TreeviewGetModel) None;
   Ev (Gui (ListStoreNew 5)) 0;
   Ev (Gui (TreeviewSetModel 0)) tt;
   Ev (ThreadCreate (RowLoaderRoutine 0)) tt;
   Ev ThreadStart tt;
   Ev LockRelease tt].

(** A run of [signal_button_clicked_export] in which the user chooses a
    path. *)
Definition sample_export_trace : list event :=
  [Ev LoaderIsAlive false;
   Ev (ConfigGet "campaign_name") (PStr "spring");
   Ev (Gui (FileChooserQuickSave "spring.csv")) (Some "/tmp/spring.csv");
   Ev (ExportCsv "/tmp/spring.csv") tt].

(** One step later: the flag is set, the handler is about to ask whether the
    loader is alive. *)
Definition sample_destroy_joining : system :=
  {| sys_world := record MainThread IsDestroyedSet (set_is_destroyed true sample_loading_tab);
     sys_main := Some (alive <- LoaderIsAlive;
                       if alive then ThreadJoin;; Ret tt else Ret tt) |}.

(** A run of the loader routine of the messages tab on a table of one row,
    the first of the sample rows. *)
Definition sample_loader_trace_row : list event :=
  [Ev (GlibIdleAddWait (TreeviewSetSensitive false)) tt;
   Ev (ConfigGet "campaign_id") (PInt 1);
   Ev (RpcRemoteTable "campaign/messages" (PInt 1)) (take 1 sample_message_rows);
   Ev IsDestroyedIsSet false;
   Ev (GlibIdleAddWait
         (ListStoreAppend 0 ["7"; "alice@example.org"; "2014-03-01"; ""; "Yes"])) tt;
   Ev (GlibIdleAddWait (TreeviewSetSensitive true)) tt;
   Ev TimeTime 200%Z;
   Ev (SetLastLoadTime 200) tt].

(** The actions that wait for nothing but, through [glib_idle_add_wait], the
    main loop: all but the acquire of the lock and the join of a thread. *)
Definition waits_for_main_loop_only (a : action) : bool :=
  match a with
  | LockAcquire | ThreadJoin => false
  | _ => true
  end.

(** ** Sample runs *)

Definition sample_init : system :=
  {| sys_world := sample_messages_tab; sys_main := None |}.

(** The state the messages tab is in after the steps [cs] from its
    construction. *)
Definition sample_run (cs : list choice) : system :=
  default sample_init (sched_run (GenericTab sample_messages_cls) cs sample_init).

(** A forced load, handled from start to end: the check, the lock, the new
    store set as the model, the thread created and started, the lock
    released. *)
Definition sample_load_steps : list choice :=
  TakeSignal (SigLoad true) :: replicate 8 (MainStep sample_table_env) ++ [HandlerReturn].

(** The loader on the two sample rows, up to its test of the flag for the
    second row: the tree view insensitive, the campaign id read, the rows
    fetched, the flag tested and the first row appended. *)
Definition sample_loader_steps : list choice :=
  replicate 5 (LoaderStep sample_table_env 0).

Definition sample_mid_load : system :=
  sample_run (sample_load_steps ++ sample_loader_steps).

(** The main thread takes up [signal_destroy] there, and sets the flag. *)
Definition sample_destroy_taken : system :=
  sample_run (sample_load_steps ++ sample_loader_steps ++ [TakeSignal SigDestroy]).

Definition sample_destroy_flagged : system :=
  sample_run (sample_load_steps ++ sample_loader_steps
              ++ [TakeSignal SigDestroy; MainStep sample_table_env]).

(** The handler finds the loader alive and joins it; the loader tests the
    flag and returns; the join lets the handler through. *)
Definition sample_join_steps : list choice :=
  [MainStep sample_table_env; LoaderStep sample_table_env 0; MainStep sample_table_env].

Definition sample_destroy_joined : system :=
  sample_run (sample_load_steps ++ sample_loader_steps
              ++ [TakeSignal SigDestroy; MainStep sample_table_env] ++ sample_join_steps).

(** A second forced load while the loader is at work, handled to its end. *)
Definition sample_second_load : system :=
  sample_run (sample_load_steps ++ sample_loader_steps
              ++ [TakeSignal (SigLoad true); MainStep sample_table_env]).

(** A forced load on an empty table with the whole run of its loader, then a
    second forced load up to the acquire of the lock. *)
Definition sample_reload_steps : list choice :=
  TakeSignal (SigLoad true) :: replicate 8 (MainStep sample_env) ++ [HandlerReturn]
  ++ replicate 6 (LoaderStep sample_env 0)
  ++ [TakeSignal (SigLoad true); MainStep sample_env].

Definition sample_at_acquire : system := sample_run sample_reload_steps.

(** The forced load handled, its loader started and not yet run. *)
Definition sample_started : system := sample_run sample_load_steps.

(** The load with the whole run of its loader: both rows are shown. *)
Definition sample_shown : system :=
  sample_run (sample_load_steps ++ replicate 10 (LoaderStep sample_table_env 0)).

(** Runs of the loader routine of the messages tab over the two sample rows:
    to its end, and ended by the flag at the second row. *)
Definition sample_loader_trace_full : list event :=
  [Ev (GlibIdleAddWait (TreeviewSetSensitive false)) tt;
   Ev (ConfigGet "campaign_id") (PInt 1);
   Ev (RpcRemoteTable "campaign/messages" (PInt 1)) sample_message_rows;
   Ev IsDestroyedIsSet false;
   Ev (GlibIdleAddWait
         (ListStoreAppend 0 ["7"; "alice@example.org"; "2014-03-01"; ""; "Yes"])) tt;
   Ev IsDestroyedIsSet false;
   Ev (GlibIdleAddWait
         (ListStoreAppend 0 ["8"; "bob@example.org"; "2014-03-02"; "2014-03-03"; ""])) tt;
   Ev (GlibIdleAddWait (TreeviewSetSensitive true)) tt;
   Ev TimeTime 200%Z;
   Ev (SetLastLoadTime 200) tt].

Definition sample_loader_trace_early : list event :=
  [Ev (GlibIdleAddWait (TreeviewSetSensitive false)) tt;
   Ev (ConfigGet "campaign_id") (PInt 1);
   Ev (RpcRemoteTable "campaign/messages" (PInt 1)) sample_message_rows;
   Ev IsDestroyedIsSet false;
   Ev (GlibIdleAddWait
         (ListStoreAppend 0 ["7"; "alice@example.org"; "2014-03-01"; ""; "Yes"])) tt;
   Ev IsDestroyedIsSet true].

(** Two rows of the credentials table, and the message the second refers
    to; the message of the first is gone from the server. *)
Definition sample_credentials_cls : tab_class :=
  CampaignViewCredentialsTab.cls sample_format_datetime.

Definition sample_credential_rows : list row :=
  [list_to_map [("id", PInt 11); ("visit_id", PStr "v3"); ("message_id", PStr "m3");
                ("campaign_id", PInt 1); ("username", PStr "alice");
                ("password", PStr "secret"); ("submitted", PStr "2014-03-04")];
   list_to_map [("id", PInt 12); ("visit_id", PStr "v4"); ("message_id", PStr "m4");
                ("campaign_id", PInt 1); ("username", PStr "bob");
                ("password", PStr "hunter2"); ("submitted", PStr "2014-03-05")]].

Definition sample_message : row :=
  list_to_map [("id", PStr "m4"); ("campaign_id", PInt 1);
               ("target_email", PStr "bob@example.org"); ("sent", PStr "2014-03-02");
               ("opened", PStr "2014-03-03"); ("trained", PInt 0)].

(** The loop of the credentials tab over these rows: the first is deleted on
    the server, the second appended. *)
Definition sample_credentials_trace : list event :=
  [Ev (RpcRemoteTableRow "messages" (PStr "m3")) None;
   Ev (RpcCall "credentials/delete" (PInt 11)) tt;
   Ev (RpcRemoteTableRow "messages" (PStr "m4")) (Some sample_message);
   Ev IsDestroyedIsSet false;
   Ev (GlibIdleAddWait
         (ListStoreAppend 0 ["12"; "bob@example.org"; "bob"; "hunter2"; "2014-03-05"])) tt].

(** The sample dashboard after a forced load: its loader is started. *)
Definition sample_dashboard_loading : world :=
  default sample_dashboard.2
    (snd <$> run_main (DashboardTab sample_dashboard.1) sample_env
               (CampaignViewDashboardTab.load_campaign_information true)
               sample_dashboard.2).

(** The names the sample configuration gives to the dash ports. *)
Definition sample_graph_names : list string :=
  ["Overview"; "VisitorInfo"; "VisitsTimeline"].

(** A run of [signal_button_clicked_export] with a configuration whose
    campaign name is [None]. *)
Definition sample_export_raise_trace : list event :=
  [Ev LoaderIsAlive false;
   Ev (ConfigGet "campaign_name") PNone;
   Ev (Raise "TypeError") tt].

(** * Properties *)

(** ** Atomic runs *)

Lemma run_bind {A B} self e idle th (p : prog A) (f : A -> prog B) w :
  run self e idle th (x <~ p; f x) w
  = match run self e idle th p w with
    | Some (x, w') => run self e idle th (f x) w'
    | None => None
    end.
Proof.
  revert w. induction p as [x|a k IH]; intros w; simpl; [reflexivity|].
  destruct (perform self e idle th a w) as [[r w']|]; [apply IH|reflexivity].
Qed.

Lemma started_alive self target :
  spawnable self target -> is_alive (Started (thread_code self target)) = true.
Proof.
  destruct self as [cls|graphs], target as [store|]; try contradiction; intros _; simpl; auto.
  destruct graphs; reflexivity.
Qed.

Lemma lookup_created (ts : list thread_state) t : (ts ++ [t]) !! length ts = Some t.
Proof. rewrite lookup_app_r by lia. by rewrite Nat.sub_diag. Qed.

Lemma loader_is_alive_frame w w' :
  loader_thread w' = loader_thread w -> threads w' = threads w ->
  loader_is_alive w' = loader_is_alive w.
Proof. unfold loader_is_alive. by intros -> ->. Qed.

Lemma loader_is_alive_record th a w : loader_is_alive (record th a w) = loader_is_alive w.
Proof. reflexivity. Qed.

Lemma loader_is_alive_set_lock l w :
  loader_is_alive (set_loader_thread_lock l w) = loader_is_alive w.
Proof. reflexivity. Qed.

Lemma loader_is_alive_started self th a target w :
  spawnable self target ->
  loader_is_alive (thread_start self (record th a (thread_create target w))) = true.
Proof.
  intros Hs. unfold loader_is_alive, thread_start. simpl.
  rewrite lookup_created. simpl.
  rewrite list_lookup_insert_eq by (rewrite length_app; simpl; lia).
  by apply started_alive.
Qed.

(** A forced load on a tab whose loader is not alive starts the loader,
    whatever the clock and [last_load_time] say. *)
Lemma forced_load_starts self e w :
  loader_is_alive w = false -> lock_free w ->
  (needs_rpc self = true -> env_has_rpc e = true) ->
  exists w',
    run_main self e (CampaignViewTab.load_campaign_information self true) w = Some (tt, w')
    /\ loader_is_alive w' = true
    /\ last_load_time w' = last_load_time w.
Proof.
  intros Ha [l Hl] Hrpc. destruct self as [cls|graphs]; unfold run_main; simpl.
  - rewrite Ha. simpl. rewrite Hl. simpl.
    destruct (treeview_model w) as [store|] eqn:Hm; simpl.
    + eexists; split; [reflexivity|]. split; [|reflexivity].
      rewrite loader_is_alive_record, loader_is_alive_set_lock, loader_is_alive_record.
      by apply loader_is_alive_started.
    + eexists; split; [reflexivity|]. split; [|reflexivity].
      rewrite loader_is_alive_record, loader_is_alive_set_lock, loader_is_alive_record.
      by apply loader_is_alive_started.
  - rewrite Hrpc by reflexivity. simpl. rewrite Hl. simpl.
    rewrite loader_is_alive_record, loader_is_alive_set_lock, Ha. simpl.
    eexists; split; [reflexivity|]. split; [|reflexivity].
    rewrite loader_is_alive_record, loader_is_alive_set_lock, loader_is_alive_record.
    by apply loader_is_alive_started.
Qed.

(** C1. A call of [load_campaign_information] without [force], made less
    than [refresh_frequency] after [last_load_time], returns with the state
    of the tab as it was: no thread is created or started, no store is
    created or cleared, [last_load_time] keeps its value and nothing is
    logged.  With [force] the clock is not read: on the same state, data
    fresh or not, the call starts the loader thread when none is alive. *)
Theorem load_campaign_information_staleness (self : tab_object) (e : env) (w : world) :
  elapsed_lt (env_time e) (last_load_time w) (refresh_frequency w) = true ->
  run_main self e (CampaignViewTab.load_campaign_information self false) w = Some (tt, w)
  /\ (loader_is_alive w = false -> lock_free w ->
      (needs_rpc self = true -> env_has_rpc e = true) ->
      exists w',
        run_main self e (CampaignViewTab.load_campaign_information self true) w
          = Some (tt, w')
        /\ loader_is_alive w' = true
        /\ last_load_time w' = last_load_time w).
Proof.
  intros H. split.
  - destruct self; unfold run_main; simpl; rewrite H; reflexivity.
  - apply forced_load_starts.
Qed.

(** ** Traces *)

Lemma runs_bind {A B} (p : prog A) (f : A -> prog B) t y :
  runs (x <~ p; f x) t y <->
  exists t1 x t2, t = t1 ++ t2 /\ runs p t1 x /\ runs (f x) t2 y.
Proof.
  revert t. induction p as [x|a k IH]; intros t; simpl.
  - split.
    + intros H. exists [], x, t. auto.
    + intros (t1 & x' & t2 & -> & [-> ->] & H). exact H.
  - split.
    + intros (r & t' & -> & H). apply IH in H as (t1 & x & t2 & -> & H1 & H2).
      exists (Ev a r :: t1), x, t2. split; [reflexivity|]. split; [|exact H2].
      exists r, t1. auto.
    + intros (t1 & x & t2 & -> & (r & t' & -> & H1) & H2).
      exists r, (t' ++ t2). split; [reflexivity|]. apply IH. eauto 6.
Qed.

(** One turn of the loop of the loader. *)
Lemma row_loader_loop_cons self store row_data rows t completed :
  runs (CampaignViewGenericTab.row_loader_loop self store (row_data :: rows)) t completed <->
  exists t1 continue t2,
    t = t1 ++ t2 /\ row_outcome self store row_data t1 continue /\
    if continue then runs (CampaignViewGenericTab.row_loader_loop self store rows) t2 completed
    else t2 = [] /\ completed = false.
Proof.
  simpl. rewrite runs_bind. split.
  - intros (tf & formatted & t2 & -> & Hf & H). destruct formatted as [fields|]; simpl in H.
    + destruct H as (destroyed & t' & -> & H). destruct destroyed; simpl in H.
      * destruct H as [-> ->].
        exists (tf ++ [Ev IsDestroyedIsSet true]), false, [].
        split; [by rewrite <- app_assoc|]. split; [|done].
        exists tf, (Some fields), [Ev IsDestroyedIsSet true]. simpl. auto.
      * destruct H as ([] & t3 & -> & H).
        eexists (tf ++ [Ev IsDestroyedIsSet false; _]), true, t3.
        split; [by rewrite <- app_assoc|]. split; [|exact H].
        eexists tf, (Some fields), _. simpl. eauto.
    + destruct H as ([] & t3 & -> & H).
      eexists (tf ++ [_]), true, t3.
      split; [by rewrite <- app_assoc|]. split; [|exact H].
      eexists tf, None, _. simpl. eauto.
  - intros (t1 & continue & t2 & -> & (tf & formatted & ts & -> & Hf & Hts) & H).
    exists tf, formatted, (ts ++ t2). split; [by rewrite <- app_assoc|]. split; [exact Hf|].
    destruct formatted as [fields|]; simpl.
    + destruct Hts as [[-> ->]|[-> ->]]; simpl.
      * destruct H as [-> ->]. exists true, []. simpl. auto.
      * exists false. eexists. split; [reflexivity|]. simpl. exists tt, t2. auto.
    + destruct Hts as [-> ->]. simpl. exists tt, t2. auto.
Qed.

Lemma only_runs {A} ok (p : prog A) t x :
  only ok p -> runs p t x -> Forall (fun ev => ok (ev_action ev) = true) t.
Proof.
  revert t. induction p as [y|a k IH]; simpl; intros t Ho Hr.
  - destruct Hr as [-> _]. constructor.
  - destruct Ho as [Ha Hk]. destruct Hr as (r & t' & -> & Hr).
    constructor; [exact Ha|]. by eapply IH.
Qed.

Lemma tested_true_not_append ev :
  tested_destroyed true ev = true -> is_append (ev_action ev) = false.
Proof. destruct ev as [a r]. destruct a; simpl; try discriminate; reflexivity. Qed.

Lemma tested_false_not_append ev :
  tested_destroyed false ev = true -> is_append (ev_action ev) = false.
Proof. destruct ev as [a r]. destruct a; simpl; try discriminate; reflexivity. Qed.

Lemma tested_cons ev t :
  tested (ev :: t) = true ->
  (tested_destroyed true ev = true /\ t = []) \/
  (tested_destroyed false ev = true /\
   ((exists ev' t', t = ev' :: t' /\ is_append (ev_action ev') = true /\ tested t' = true)
    \/ tested t = true)) \/
  (tested_destroyed true ev = false /\ is_append (ev_action ev) = false /\ tested t = true).
Proof.
  cbn [tested]. destruct (tested_destroyed true ev).
  { destruct t; [auto|discriminate]. }
  destruct (tested_destroyed false ev).
  - intros H. right. left. split; [reflexivity|]. destruct t as [|ev' t']; [by right|].
    destruct (is_append (ev_action ev')) eqn:E; [left; eauto|by right].
  - intros [H1 H2]%andb_prop. right. right. split; [reflexivity|]. split; [|exact H2].
    by destruct (is_append (ev_action ev)).
Qed.

(** The position reading of [tested]. *)
Lemma tested_spec t :
  tested t = true ->
  forall t1 ev t2, t = t1 ++ ev :: t2 ->
    (tested_destroyed true ev = true -> t2 = []) /\
    (is_append (ev_action ev) = true ->
     exists t0 ev0, t1 = t0 ++ [ev0] /\ tested_destroyed false ev0 = true).
Proof.
  intros Ht t1. revert t Ht. remember (length t1) as n eqn:Hn. revert t1 Hn.
  induction n as [n IH] using lt_wf_ind. intros t1 Hn t Ht ev t2 ->.
  destruct t1 as [|ev1 t1]; simpl in Ht, Hn.
  - (* [ev] is the head *)
    apply tested_cons in Ht as [[H1 ->]|[[H1 _]|[H0 [H1 _]]]].
    + split; [done|]. intros Hev. by rewrite (tested_true_not_append _ H1) in Hev.
    + split; [|intros Hev; by rewrite (tested_false_not_append _ H1) in Hev].
      intros Hev. destruct ev as [a r]; destruct a; simpl in *; try discriminate.
      apply bool_decide_eq_true in H1, Hev. congruence.
    + split; intros Hev; congruence.
  - apply tested_cons in Ht as [[_ H]|[[H1 [(ev' & t' & H & Ha & Ht)|Ht]]|[_ [_ Ht]]]].
    + by destruct t1.
    + destruct t1 as [|ev2 t1]; simpl in H; injection H as <- <-.
      * (* [ev] comes right after the test *)
        split.
        -- intros Hev. by rewrite (tested_true_not_append _ Hev) in Ha.
        -- intros _. exists [], ev1. auto.
      * destruct (IH (length t1) ltac:(simpl in *; lia) t1 eq_refl _ Ht ev t2 eq_refl)
          as [H2 H3].
        split; [exact H2|]. intros Hev. destruct (H3 Hev) as (t0 & ev0 & -> & Hev0).
        exists (ev1 :: ev2 :: t0), ev0. auto.
    + destruct (IH (length t1) ltac:(simpl in *; lia) t1 eq_refl _ Ht ev t2 eq_refl)
        as [H2 H3].
      split; [exact H2|]. intros Hev. destruct (H3 Hev) as (t0 & ev0 & -> & Hev0).
      exists (ev1 :: t0), ev0. auto.
    + destruct (IH (length t1) ltac:(simpl in *; lia) t1 eq_refl _ Ht ev t2 eq_refl)
        as [H2 H3].
      split; [exact H2|]. intros Hev. destruct (H3 Hev) as (t0 & ev0 & -> & Hev0).
      exists (ev1 :: t0), ev0. auto.
Qed.

Lemma only_mono {A} (ok ok' : action -> bool) (p : prog A) :
  (forall a, ok a = true -> ok' a = true) -> only ok p -> only ok' p.
Proof.
  intros Hm. induction p as [x|a k IH]; simpl; [done|].
  intros [Ha Hk]. split; [by apply Hm|]. intros r. by apply IH.
Qed.

Lemma only_bind {A B} ok (p : prog A) (f : A -> prog B) :
  only ok p -> (forall x, only ok (f x)) -> only ok (x <~ p; f x).
Proof.
  intros Hp Hf. induction p as [x|a k IH]; simpl; [apply Hf|].
  destruct Hp as [Ha Hk]. split; [exact Ha|]. intros r. by apply IH.
Qed.

Lemma row_loader_loop_only self store rows :
  (forall row_data, only is_row_lookup (format_row_data self row_data)) ->
  only loop_action (CampaignViewGenericTab.row_loader_loop self store rows).
Proof.
  intros Hf. induction rows as [|row_data rows IH]; simpl; [done|].
  apply only_bind.
  - eapply only_mono; [|apply Hf]. by intros [].
  - intros [fields|]; simpl.
    + split; [reflexivity|]. intros []; simpl; [done|]. split; [reflexivity|]. by intros _.
    + split; [reflexivity|]. by intros _.
Qed.

(** Events that are neither a test of [is_destroyed] nor an append. *)
Lemma tested_skip t1 t2 :
  Forall (fun ev => is_append (ev_action ev) = false /\ ev_action ev <> IsDestroyedIsSet) t1 ->
  tested (t1 ++ t2) = tested t2.
Proof.
  induction 1 as [|ev t1 [Ha Hn] _ IH]; [reflexivity|].
  cbn [app tested]. rewrite Ha, IH.
  destruct ev as [a r]. destruct a; simpl in *; try reflexivity. contradiction.
Qed.

Lemma lookups_skip {A} (p : prog A) tf x t :
  only is_row_lookup p -> runs p tf x -> tested (tf ++ t) = tested t.
Proof.
  intros Ho Hr. apply tested_skip.
  eapply Forall_impl; [exact (only_runs _ _ _ _ Ho Hr)|].
  intros [a r] Ha. destruct a; try discriminate. simpl. split; [reflexivity|discriminate].
Qed.

Lemma lookups_no_test {A} (p : prog A) tf x b :
  only is_row_lookup p -> runs p tf x -> existsb (tested_destroyed b) tf = false.
Proof.
  intros Ho Hr. pose proof (only_runs _ _ _ _ Ho Hr) as H. clear Ho Hr.
  induction tf as [|[a r] tf IH]; [reflexivity|].
  apply Forall_cons in H as [Ha H]. simpl in *. rewrite (IH H). by destruct a.
Qed.

(** The loop appends after a passed test only, stops at a test that finds the
    flag set, and completes exactly when no test finds it set. *)
Lemma row_loader_loop_tested self store rows t completed suffix :
  (forall row_data, only is_row_lookup (format_row_data self row_data)) ->
  runs (CampaignViewGenericTab.row_loader_loop self store rows) t completed ->
  completed = negb (existsb (tested_destroyed true) t) /\
  (tested suffix = true -> tested (t ++ (if completed then suffix else [])) = true).
Proof.
  intros Hf. revert t. induction rows as [|row_data rows IH]; intros t Hr.
  - destruct Hr as [-> ->]. auto.
  - apply row_loader_loop_cons in Hr
      as (t1 & continue & t2 & -> & (tf & formatted & ts & -> & Hfr & Hts) & Hrest).
    rewrite !existsb_app, (lookups_no_test _ _ _ _ (Hf row_data) Hfr). simpl.
    rewrite <- !app_assoc, (lookups_skip _ _ _ _ (Hf row_data) Hfr).
    destruct formatted as [fields|].
    + destruct Hts as [[-> ->]|[-> ->]].
      * destruct Hrest as [-> ->]. simpl. auto.
      * destruct (IH _ Hrest) as [Hc Ht]. simpl. split; [exact Hc|exact Ht].
    + destruct Hts as [-> ->]. destruct (IH _ Hrest) as [Hc Ht]. simpl. split; [exact Hc|exact Ht].
Qed.

(** The trace of [row_loader_thread_routine]. *)
Lemma row_loader_thread_routine_trace self store t :
  runs (CampaignViewGenericTab.row_loader_thread_routine self store) t tt ->
  exists campaign_id rows tl completed now,
    runs (CampaignViewGenericTab.row_loader_loop self store rows) tl completed /\
    t = [Ev (GlibIdleAddWait (TreeviewSetSensitive false)) tt;
         Ev (ConfigGet "campaign_id") campaign_id;
         Ev (RpcRemoteTable ("campaign/" +:+ remote_table_name self) campaign_id) rows]
        ++ tl ++
        (if completed then
           [Ev (GlibIdleAddWait (TreeviewSetSensitive true)) tt;
            Ev TimeTime now; Ev (SetLastLoadTime now) tt]
         else []).
Proof.
  unfold CampaignViewGenericTab.row_loader_thread_routine. cbn [runs].
  intros ([] & t1 & -> & campaign_id & t2 & -> & rows & t3 & -> & H).
  apply runs_bind in H as (tl & completed & t4 & -> & Hl & H).
  destruct completed; simpl in H.
  - destruct H as ([] & t5 & -> & now & t6 & -> & [] & t7 & -> & -> & _).
    by exists campaign_id, rows, tl, true, now.
  - destruct H as [-> _]. by exists campaign_id, rows, tl, false, 0%Z.
Qed.

Lemma refresh_graphs_trace graphs cache t cache' :
  runs (CampaignViewDashboardTab.refresh_graphs graphs cache) t cache' ->
  Forall2 is_refresh_of graphs (actions t).
Proof.
  revert cache t. induction graphs as [|g graphs IH]; intros cache t; simpl.
  - intros [-> _]. constructor.
  - intros (r & t' & -> & H). constructor; [by exists cache|]. by eapply IH.
Qed.

Lemma row_loader_thread_routine_tested self store t :
  (forall row_data, only is_row_lookup (format_row_data self row_data)) ->
  runs (CampaignViewGenericTab.row_loader_thread_routine self store) t tt ->
  tested t = true.
Proof.
  intros Hf (campaign_id & rows & tl & completed & now & Hl & ->)%row_loader_thread_routine_trace.
  cbn [app tested tested_destroyed ev_action is_append negb andb].
  by apply (row_loader_loop_tested _ _ _ _ _ _ Hf Hl).
Qed.

Lemma not_set_in_loop self store rows t completed :
  (forall row_data, only is_row_lookup (format_row_data self row_data)) ->
  runs (CampaignViewGenericTab.row_loader_loop self store rows) t completed ->
  Forall (fun ev => is_set_last_load_time (ev_action ev) = false) t.
Proof.
  intros Hf Hr.
  eapply Forall_impl; [exact (only_runs _ _ _ _ (row_loader_loop_only _ store rows Hf) Hr)|].
  intros [a r]. simpl. by destruct a.
Qed.

(** The four classes look one row up, or none. *)
Lemma formats_lookups format_datetime row_data :
  only is_row_lookup (CampaignViewDeaddropTab.format_row_data format_datetime row_data)
  /\ only is_row_lookup (CampaignViewCredentialsTab.format_row_data format_datetime row_data)
  /\ only is_row_lookup (CampaignViewVisitsTab.format_row_data format_datetime row_data)
  /\ only is_row_lookup (CampaignViewMessagesTab.format_row_data format_datetime row_data).
Proof.
  repeat split; intros r; simpl; by destruct (row_truthy r).
Qed.

Lemma load_never_loaded self e w :
  last_load_time w = NegInf ->
  run_main self e (CampaignViewTab.load_campaign_information self false) w
  = run_main self e (CampaignViewTab.load_campaign_information self true) w.
Proof. intros H. destruct self; unfold run_main; simpl; by rewrite H. Qed.

Lemma perform_last_load_time self e idle th a w r w' :
  perform self e idle th a w = Some (r, w') ->
  last_load_time w' = match a with
                      | SetLastLoadTime t => Stamp t
                      | _ => last_load_time w
                      end.
Proof.
  destruct a; simpl; try (intros [= <- <-]; reflexivity).
  - destruct (lock_acquire th (loader_thread_lock w)); simpl; [|discriminate].
    by intros [= <- <-].
  - destruct (loader_is_alive w); [discriminate|]. by intros [= <- <-].
  - destruct c; simpl; by intros [= <- <-].
  - destruct (idle && negb (bool_decide (th = MainThread))); [|discriminate].
    destruct c; simpl; by intros [= <- <-].
Qed.

Lemma dashboard_add_graphs_log config get_graph items graphs w graphs' w' :
  dashboard_add_graphs config get_graph items graphs w = Some (graphs', w') ->
  exists l, w' = set_log l w.
Proof.
  revert graphs w. induction items as [|[dash_port details] items IH]; intros graphs w; simpl.
  - intros [= _ <-]. exists (log w). by destruct w.
  - destruct (config !! ("dashboard." +:+ dash_port)) as [[| graph_name |]|]; try discriminate.
    destruct (get_graph graph_name); simpl; [apply IH|].
    intros H. destruct (IH _ _ H) as [l ->]. by exists l.
Qed.

(** The state [CampaignViewDashboardTab.__init__] leaves when it returns. *)
Lemma dashboard__init__world timedef_to_seconds config get_graph items d0 :
  dashboard__init__ timedef_to_seconds config get_graph items = Some d0 ->
  exists l,
    d0.2
    = {| last_load_time := NegInf;
         refresh_frequency := configured_refresh_frequency timedef_to_seconds config;
         loader_thread := None;
         loader_thread_lock := ReentrantLock None;
         is_destroyed := false;
         threads := [];
         treeview_sensitive := true;
         treeview_model := None;
         stores := [];
         view_column_visible := ∅;
         show_passwords_active := false;
         timeouts := [(configured_refresh_frequency timedef_to_seconds config,
                       LoaderIdleRoutine)];
         log := l |}.
Proof.
  unfold dashboard__init__.
  match goal with |- context [dashboard_add_graphs ?c ?g ?i ?gs ?w] =>
    destruct (dashboard_add_graphs c g i gs w) as [[graphs w']|] eqn:Hadd end;
    [|discriminate].
  destruct (dashboard_add_graphs_log _ _ _ _ _ _ _ Hadd) as [l ->].
  simpl. intros [= <-]. by exists l.
Qed.

(** The trace of the loop, row by row. *)
Lemma row_loader_loop_trace self store rows t completed :
  runs (CampaignViewGenericTab.row_loader_loop self store rows) t completed ->
  loop_trace self store rows t completed.
Proof.
  revert t. induction rows as [|row_data rows IH]; intros t Hr.
  - destruct Hr as [-> ->]. exists (@nil (list event)). split; [reflexivity|constructor].
  - apply row_loader_loop_cons in Hr as (t1 & continue & t2 & -> & Ho & Hrest).
    destruct continue.
    + specialize (IH _ Hrest). unfold loop_trace in *. destruct completed.
      * destruct IH as (chunks & -> & Hall). exists (t1 :: chunks).
        split; [reflexivity|]. by constructor.
      * destruct IH as (chunks & row' & last & -> & Hall & Hrow & Hlast).
        exists (t1 :: chunks), row', last.
        split; [simpl; by rewrite app_assoc|].
        split; [cbn -[row_outcome]; by constructor|]. by split.
    + destruct Hrest as [-> ->]. exists (@nil (list event)), row_data, t1.
      split; [by rewrite app_nil_r|]. split; [constructor|]. by split.
Qed.

(** C4. [last_load_time] starts as [float('-inf')] in both constructors, so
    that a first load made without [force] does what a forced load does and
    starts the loader (on the dashboard once the RPC client is there).  A
    run of the loader routine of a tab makes the tree view insensitive,
    fetches the rows and goes through them as [loop_trace] says.  When it has
    dealt with every row it makes the tree view sensitive, reads the clock
    and assigns [last_load_time], once and as its last action; the loop
    assigns nothing.  When a row finds [is_destroyed] set, the routine ends
    there: [last_load_time] is not assigned at all.  A run of the loader
    routine of the dashboard refreshes the graphs one by one and then
    assigns the time read just before.  No other action changes
    [last_load_time]. *)
Theorem last_load_time_set_once_per_load (timedef_to_seconds : string -> Z)
    (config : gmap string pyval) (get_graph : string -> bool)
    (items : list (string * option (Z * Z))) (toggle_active : bool)
    (self : tab_class) (store : nat) (e : env) (t : list event) :
  (forall row_data, only is_row_lookup (format_row_data self row_data)) ->
  runs (CampaignViewGenericTab.row_loader_thread_routine self store) t tt ->
  let w0 := generic__init__ timedef_to_seconds config self toggle_active in
  (last_load_time w0 = NegInf
   /\ forall d0, dashboard__init__ timedef_to_seconds config get_graph items = Some d0 ->
                 last_load_time d0.2 = NegInf)
  /\ (forall w, last_load_time w = NegInf ->
        forall tab force,
          run_main tab e (CampaignViewTab.load_campaign_information tab force) w
          = run_main tab e (CampaignViewTab.load_campaign_information tab true) w)
  /\ (exists w', run_main (GenericTab self) e
                   (CampaignViewGenericTab.load_campaign_information self false) w0
                 = Some (tt, w') /\ loader_is_alive w' = true)
  /\ (env_has_rpc e = true ->
      forall d0, dashboard__init__ timedef_to_seconds config get_graph items = Some d0 ->
      exists w', run_main (DashboardTab d0.1) e
                   (CampaignViewDashboardTab.load_campaign_information false) d0.2
                 = Some (tt, w') /\ loader_is_alive w' = true)
  /\ (exists campaign_id rows tl (completed : bool) now,
        t = [Ev (GlibIdleAddWait (TreeviewSetSensitive false)) tt;
             Ev (ConfigGet "campaign_id") campaign_id;
             Ev (RpcRemoteTable ("campaign/" +:+ remote_table_name self) campaign_id) rows]
            ++ tl ++
            (if completed then
               [Ev (GlibIdleAddWait (TreeviewSetSensitive true)) tt;
                Ev TimeTime now; Ev (SetLastLoadTime now) tt]
             else [])
        /\ loop_trace self store rows tl completed
        /\ Forall (fun ev => is_set_last_load_time (ev_action ev) = false) tl)
  /\ (forall graphs td,
        runs (CampaignViewDashboardTab.loader_thread_routine graphs) td tt ->
        exists t0 now,
          td = t0 ++ [Ev TimeTime now; Ev (SetLastLoadTime now) tt] /\
          Forall2 is_refresh_of graphs (actions t0))
  /\ (forall tab idle th a w r w',
        perform tab e idle th a w = Some (r, w') ->
        last_load_time w' = match a with
                            | SetLastLoadTime now => Stamp now
                            | _ => last_load_time w
                            end).
Proof.
  intros Hf Hr w0.
  assert (Hd0 : forall d0,
             dashboard__init__ timedef_to_seconds config get_graph items = Some d0 ->
             last_load_time d0.2 = NegInf
             /\ loader_is_alive d0.2 = false /\ lock_free d0.2).
  { intros d0 Hd. destruct (dashboard__init__world _ _ _ _ _ Hd) as [l Hl].
    rewrite Hl. repeat split. by eexists. }
  split; [split; [reflexivity|intros d0 Hd; by destruct (Hd0 d0 Hd)]|]. split.
  { intros w Hw tab []; [reflexivity|by apply load_never_loaded]. }
  split.
  { destruct (forced_load_starts (GenericTab self) e w0) as (w' & H1 & H2 & _);
      [reflexivity|by eexists|discriminate|].
    exists w'. split; [|exact H2].
    change (CampaignViewGenericTab.load_campaign_information self)
      with (CampaignViewTab.load_campaign_information (GenericTab self)).
    by rewrite load_never_loaded. }
  split.
  { intros Hrpc d0 Hd. destruct (Hd0 d0 Hd) as (Hd1 & Hd2 & Hd3).
    destruct (forced_load_starts (DashboardTab d0.1) e d0.2) as (w' & H1 & H2 & _);
      [exact Hd2|exact Hd3|by intros _|].
    exists w'. split; [|exact H2].
    change CampaignViewDashboardTab.load_campaign_information
      with (CampaignViewTab.load_campaign_information (DashboardTab d0.1)).
    by rewrite load_never_loaded. }
  split.
  { apply row_loader_thread_routine_trace in Hr
      as (campaign_id & rows & tl & completed & now & Hl & ->).
    exists campaign_id, rows, tl, completed, now. split; [reflexivity|].
    split; [by apply row_loader_loop_trace|]. by eapply not_set_in_loop. }
  split.
  { intros graphs td Hd. unfold CampaignViewDashboardTab.loader_thread_routine in Hd.
    apply runs_bind in Hd as (t0 & cache & t2 & -> & H0 & H2).
    destruct H2 as (now & t3 & -> & [] & t4 & -> & -> & _).
    exists t0, now. split; [reflexivity|]. by eapply refresh_graphs_trace. }
  intros tab idle th a w r w'. apply perform_last_load_time.
Qed.

(** C9. The loop of the loader goes through the rows in order, as
    [loop_trace] says: it runs to its end over all of them, or ends at the
    first row with a format that finds [is_destroyed] set.  What it does with
    a row: the row is formatted; when [format_row_data] returns [None] the
    RPC [<remote_table_name>/delete] on the id of the row follows and
    nothing else, so the row is not appended; when it returns fields, the
    test of [is_destroyed] follows and, unless the test ends the loop, the
    append of the cells, and no delete.  For the dead-drop, credentials and
    visits tabs the format is [None] exactly when the look-up of the
    deployment or message row answers [None] or an empty row; the messages
    tab looks nothing up and always has a format. *)
Theorem loader_deletes_rows_without_format (self : tab_class) (store : nat)
    (rows : list row) (t : list event) (completed : bool) :
  runs (CampaignViewGenericTab.row_loader_loop self store rows) t completed ->
  loop_trace self store rows t completed
  /\ (forall row_data chunk continue,
        row_outcome self store row_data chunk continue ->
        exists tf formatted,
          runs (format_row_data self row_data) tf formatted /\
          match formatted with
          | None =>
              chunk = tf ++ [Ev (RpcCall (remote_table_name self +:+ "/delete")
                                   (row_data !!! "id")) tt]
              /\ continue = true
          | Some fields =>
              (chunk = tf ++ [Ev IsDestroyedIsSet true] /\ continue = false)
              \/ (chunk = tf ++ [Ev IsDestroyedIsSet false;
                                 Ev (GlibIdleAddWait
                                       (ListStoreAppend store
                                          (cells (row_data !!! "id") fields))) tt]
                  /\ continue = true)
          end)
  /\ (forall format_datetime row_data tf formatted,
        (runs (CampaignViewDeaddropTab.format_row_data format_datetime row_data) tf formatted ->
         exists answer,
           tf = [Ev (RpcRemoteTableRow "deaddrop_deployments" (row_data !!! "deployment_id"))
                    answer]
           /\ (formatted = None <-> row_truthy answer = false))
        /\ (runs (CampaignViewCredentialsTab.format_row_data format_datetime row_data)
              tf formatted ->
            exists answer,
              tf = [Ev (RpcRemoteTableRow "messages" (row_data !!! "message_id")) answer]
              /\ (formatted = None <-> row_truthy answer = false))
        /\ (runs (CampaignViewVisitsTab.format_row_data format_datetime row_data)
              tf formatted ->
            exists answer,
              tf = [Ev (RpcRemoteTableRow "messages" (row_data !!! "message_id")) answer]
              /\ (formatted = None <-> row_truthy answer = false))
        /\ (runs (CampaignViewMessagesTab.format_row_data format_datetime row_data)
              tf formatted ->
            tf = [] /\ formatted <> None)).
Proof.
  intros Hr. split; [by apply row_loader_loop_trace|]. split.
  - intros row_data chunk continue (tf & formatted & ts & -> & Hf & Hts).
    exists tf, formatted. split; [exact Hf|].
    destruct formatted as [fields|].
    + destruct Hts as [[-> ->]|[-> ->]]; [by left|by right].
    + by destruct Hts as [-> ->].
  - intros format_datetime row_data tf formatted.
    split; [|split; [|split]].
    + simpl. intros (answer & t' & -> & H). exists answer.
      destruct (row_truthy answer); simpl in H; destruct H as [-> ->]; by split.
    + simpl. intros (answer & t' & -> & H). exists answer.
      destruct (row_truthy answer); simpl in H; destruct H as [-> ->]; by split.
    + simpl. intros (answer & t' & -> & H). exists answer.
      destruct (row_truthy answer); simpl in H; destruct H as [-> ->]; by split.
    + by intros [-> ->].
Qed.

(** C6. While the loader thread is alive, the delete prompt and the export
    button show their warning and do nothing else: the log gains the dialog
    only, and the state of the tab is otherwise as it was.  With no loader
    alive, a selected row and a confirmed dialog, the prompt issues
    [<remote_table_name>/delete] on the id in column 0 of the selected row
    and goes on as [load_campaign_information(force=True)] does, which starts
    the loader. *)
Theorem busy_loader_blocks_delete_and_export (self : tab_class) (e : env) (w : world) :
  if loader_is_alive w then
    run_main (GenericTab self) e (CampaignViewGenericTab._prompt_to_delete_row self) w
    = Some (tt, record MainThread (Gui (ShowDialogWarning "Can Not Delete Rows While Loading")) w)
    /\ run_main (GenericTab self) e
         (CampaignViewGenericTab.signal_button_clicked_export self) w
       = Some (tt, record MainThread
                     (Gui (ShowDialogWarning "Can Not Export Rows While Loading")) w)
  else
    forall tree_iter,
      env_selected e = Some tree_iter -> env_yes_no e = true ->
      let row_id := model_get_value w tree_iter 0 in
      let w1 :=
        record MainThread (RpcCall (remote_table_name self +:+ "/delete") (PStr row_id))
          (record MainThread
             (Gui (ShowDialogYesNo "Delete This Row?" "This information will be lost."))
             (record MainThread (Gui (ModelGetValue tree_iter 0))
                (record MainThread (Gui SelectionGetSelected) w))) in
      run_main (GenericTab self) e (CampaignViewGenericTab._prompt_to_delete_row self) w
      = run_main (GenericTab self) e
          (CampaignViewGenericTab.load_campaign_information self true) w1
      /\ (lock_free w ->
          exists w',
            run_main (GenericTab self) e
              (CampaignViewGenericTab.load_campaign_information self true) w1 = Some (tt, w')
            /\ loader_is_alive w' = true).
Proof.
  destruct (loader_is_alive w) eqn:Ha.
  - unfold run_main. simpl. rewrite Ha. simpl. by split.
  - intros tree_iter Hs Hy row_id w1. split.
    + unfold run_main at 1. simpl. rewrite Ha. simpl. rewrite Hs. simpl. rewrite Hy. reflexivity.
    + intros Hl.
      destruct (forced_load_starts (GenericTab self) e w1) as (w' & H1 & H2 & _);
        [exact Ha|exact Hl|discriminate|].
      by exists w'.
Qed.

(** ** The timeout of the dashboard *)

Lemma perform_timeouts self e idle th a w r w' :
  perform self e idle th a w = Some (r, w') -> timeouts w' = timeouts w.
Proof.
  destruct a; simpl; try (intros [= <- <-]; reflexivity).
  - destruct (lock_acquire th (loader_thread_lock w)); simpl; [|discriminate].
    by intros [= <- <-].
  - destruct (loader_is_alive w); [discriminate|]. by intros [= <- <-].
  - destruct c; simpl; by intros [= <- <-].
  - destruct (idle && negb (bool_decide (th = MainThread))); [|discriminate].
    destruct c; simpl; by intros [= <- <-].
Qed.

Lemma run_timeouts {A} self e idle th (p : prog A) w x w' :
  run self e idle th p w = Some (x, w') -> timeouts w' = timeouts w.
Proof.
  revert w. induction p as [y|a k IH]; intros w; simpl.
  - by intros [= <- <-].
  - destruct (perform self e idle th a w) as [[r w1]|] eqn:Hp; [|discriminate].
    intros H. rewrite (IH _ _ H). by eapply perform_timeouts.
Qed.

Lemma dashboard_load_total graphs e force w :
  lock_free w ->
  is_Some (run_main (DashboardTab graphs) e
             (CampaignViewDashboardTab.load_campaign_information force) w).
Proof.
  intros [l Hl]. unfold run_main, CampaignViewDashboardTab.load_campaign_information.
  rewrite run_bind.
  assert (Hs : exists fresh, run (DashboardTab graphs) e false MainThread (not_stale force) w
                             = Some (fresh, w)).
  { destruct force; simpl; eauto. }
  destruct Hs as [fresh ->]. destruct fresh; simpl; [by eexists|].
  destruct (env_has_rpc e); simpl; [|by eexists].
  rewrite Hl. simpl. destruct (loader_is_alive _); simpl; by eexists.
Qed.

Lemma loader_idle_routine_run self e w :
  run_main self e CampaignViewDashboardTab.loader_idle_routine w
  = match run_main self e (CampaignViewDashboardTab.load_campaign_information true)
            (record MainThread (LoggerLog "debug" "idle loader routine called") w) with
    | Some (_, w') => Some (true, w')
    | None => None
    end.
Proof.
  unfold run_main, CampaignViewDashboardTab.loader_idle_routine.
  cbn [run perform]. rewrite run_bind.
  by destruct (run _ _ _ _ (CampaignViewDashboardTab.load_campaign_information true) _)
    as [[[] w']|].
Qed.

(** C5. The dashboard leaves its constructor with one timeout, of interval
    [refresh_frequency] and callback [loader_idle_routine].  The callback logs
    and goes on as [load_campaign_information(force=True)] does, so that it
    starts the loader whatever [last_load_time] is, and returns [True]; GLib
    therefore keeps the timeout at every round, on the dashboard just built
    as on any later state of it. *)
Theorem dashboard_timeout_repeats (timedef_to_seconds : string -> Z)
    (config : gmap string pyval) (get_graph : string -> bool)
    (items : list (string * option (Z * Z))) (e : env) (d0 : list graph * world) :
  dashboard__init__ timedef_to_seconds config get_graph items = Some d0 ->
  timeouts d0.2 = [(refresh_frequency d0.2, LoaderIdleRoutine)]
  /\ refresh_frequency d0.2 = configured_refresh_frequency timedef_to_seconds config
  /\ callback_code LoaderIdleRoutine = CampaignViewDashboardTab.loader_idle_routine
  /\ (forall self w,
        run_main self e CampaignViewDashboardTab.loader_idle_routine w
        = match run_main self e (CampaignViewDashboardTab.load_campaign_information true)
                  (record MainThread (LoggerLog "debug" "idle loader routine called") w) with
          | Some (_, w') => Some (true, w')
          | None => None
          end)
  /\ (forall graphs w,
        loader_is_alive w = false -> lock_free w -> env_has_rpc e = true ->
        exists w',
          run_main (DashboardTab graphs) e
            (CampaignViewDashboardTab.load_campaign_information true) w = Some (tt, w')
          /\ loader_is_alive w' = true)
  /\ (forall graphs i w,
        i < length (timeouts w) -> lock_free w ->
        exists w', fire_timeout (DashboardTab graphs) e i w = Some w'
                   /\ timeouts w' = timeouts w)
  /\ (exists w', fire_timeout (DashboardTab d0.1) e 0 d0.2 = Some w'
                 /\ timeouts w' = timeouts d0.2
                 /\ (env_has_rpc e = true -> loader_is_alive w' = true)).
Proof.
  intros Hd.
  destruct (dashboard__init__world timedef_to_seconds config get_graph items d0 Hd)
    as [l Hl].
  assert (Hfire : forall graphs i w,
             i < length (timeouts w) -> lock_free w ->
             exists w', fire_timeout (DashboardTab graphs) e i w = Some w'
                        /\ timeouts w' = timeouts w
                        /\ (loader_is_alive w = false -> env_has_rpc e = true ->
                            loader_is_alive w' = true)).
  { intros graphs i w Hi Hf. unfold fire_timeout.
    destruct (lookup_lt_is_Some_2 _ _ Hi) as [[interval []] ->]. simpl.
    rewrite loader_idle_routine_run.
    destruct (dashboard_load_total graphs e true
                (record MainThread (LoggerLog "debug" "idle loader routine called") w))
      as [[[] w'] Hw']; [exact Hf|].
    rewrite Hw'. simpl. exists w'. split; [reflexivity|].
    split; [by rewrite (run_timeouts _ _ _ _ _ _ _ _ Hw')|].
    intros Ha Hrpc.
    destruct (forced_load_starts (DashboardTab graphs) e
                (record MainThread (LoggerLog "debug" "idle loader routine called") w))
      as (w'' & H1 & H2 & _); [exact Ha|exact Hf|by intros _|].
    change (CampaignViewTab.load_campaign_information (DashboardTab graphs) true)
      with (CampaignViewDashboardTab.load_campaign_information true) in H1.
    rewrite Hw' in H1. by injection H1 as <-. }
  rewrite Hl. cbn [timeouts refresh_frequency].
  split; [reflexivity|]. split; [reflexivity|]. split; [reflexivity|].
  split; [intros; apply loader_idle_routine_run|]. split.
  - intros graphs w Ha Hf Hrpc.
    destruct (forced_load_starts (DashboardTab graphs) e w) as (w' & H1 & H2 & _); auto.
    by exists w'.
  - split.
    + intros graphs i w Hi Hf. destruct (Hfire graphs i w Hi Hf) as (w' & H1 & H2 & _).
      by exists w'.
    + rewrite <- Hl.
      destruct (Hfire d0.1 0 d0.2) as (w' & H1 & H2 & H3).
      * rewrite Hl. simpl. lia.
      * rewrite Hl. by eexists.
      * exists w'. split; [exact H1|]. split; [by rewrite H2, Hl|].
        intros Hrpc. apply H3; [|exact Hrpc]. by rewrite Hl.
Qed.

(** ** The sub-tabs *)

(** C7. [CampaignViewTab.__init__] returns whenever matplotlib is missing
    or the constructor of the dashboard returns (every dash port has its
    graph in the configuration).  It then has registered the messages,
    visits, credentials and dead-drop tabs under these keys, each an instance
    of the class whose [remote_table_name] is its key, and the dashboard
    exactly when matplotlib is there; [self.tabs] has no other key, and the
    notebook has the pages in this order. *)
Theorem campaign_view_tab_sub_tabs (timedef_to_seconds : string -> Z)
    (format_datetime : pyval -> pyval) (get_graph : string -> bool)
    (has_matplotlib : bool) (items : list (string * option (Z * Z)))
    (toggle_active : bool) (config : gmap string pyval) (s : CampaignViewTab.state) :
  CampaignViewTab.__init__ timedef_to_seconds format_datetime get_graph
    has_matplotlib items toggle_active config = Some s ->
  let bound name cls :=
    remote_table_name cls = name /\
    exists tab, CampaignViewTab.tabs s !! name = Some tab
                /\ CampaignViewTab.tab_self tab = GenericTab cls in
  bound "messages" (CampaignViewMessagesTab.cls format_datetime)
  /\ bound "visits" (CampaignViewVisitsTab.cls format_datetime)
  /\ bound "credentials" (CampaignViewCredentialsTab.cls format_datetime)
  /\ bound "deaddrop_connections" (CampaignViewDeaddropTab.cls format_datetime)
  /\ (if has_matplotlib
      then exists tab d0,
             dashboard__init__ timedef_to_seconds config get_graph items = Some d0
             /\ CampaignViewTab.tabs s !! "dashboard" = Some tab
             /\ CampaignViewTab.tab_self tab = DashboardTab d0.1
             /\ CampaignViewTab.tab_world tab = d0.2
      else CampaignViewTab.tabs s !! "dashboard" = None)
  /\ dom (CampaignViewTab.tabs s)
     = (if has_matplotlib then {["dashboard"]} else ∅)
       ∪ {["messages"; "visits"; "credentials"; "deaddrop_connections"]}
  /\ CampaignViewTab.notebook_pages s
     = (if has_matplotlib then ["dashboard"] else [])
       ++ ["messages"; "visits"; "credentials"; "deaddrop_connections"]
  /\ (forall config',
        is_Some (CampaignViewTab.__init__ timedef_to_seconds format_datetime get_graph
                   has_matplotlib items toggle_active config')
        <-> has_matplotlib = false
            \/ is_Some (dashboard__init__ timedef_to_seconds config' get_graph items)).
Proof.
  intros Hs bound. subst bound. revert Hs.
  unfold CampaignViewTab.__init__, CampaignViewTab.add_tab.
  assert (Hret : forall config',
    is_Some (CampaignViewTab.__init__ timedef_to_seconds format_datetime get_graph
               has_matplotlib items toggle_active config')
    <-> has_matplotlib = false
        \/ is_Some (dashboard__init__ timedef_to_seconds config' get_graph items)).
  { intros config'. unfold CampaignViewTab.__init__.
    destruct has_matplotlib; simpl.
    - destruct (dashboard__init__ timedef_to_seconds config' get_graph items) as [[graphs w]|];
        simpl; split.
      + intros _. right. by eexists.
      + intros _. by eexists.
      + by intros [? ?].
      + intros [?|[? ?]]; discriminate.
    - split; [by left|]. intros _. by eexists. }
  destruct has_matplotlib; simpl.
  - destruct (dashboard__init__ timedef_to_seconds config get_graph items) as [[graphs w]|];
      simpl; [|discriminate].
    intros [= <-]. cbn [CampaignViewTab.tabs CampaignViewTab.notebook_pages].
    (split; [|split; [|split; [|split; [|split; [|split; [|split]]]]]]);
      try (split; [reflexivity|eexists; split; [by simplify_map_eq|reflexivity]]);
      try reflexivity;
      try (rewrite !dom_insert_L; set_solver);
      try exact Hret.
    eexists _, (graphs, w). split; [reflexivity|]. split; [by simplify_map_eq|by split].
  - intros [= <-]. cbn [CampaignViewTab.tabs CampaignViewTab.notebook_pages].
    (split; [|split; [|split; [|split; [|split; [|split; [|split]]]]]]);
      try (split; [reflexivity|eexists; split; [by simplify_map_eq|reflexivity]]);
      try reflexivity;
      try (rewrite !dom_insert_L; set_solver);
      try exact Hret.
Qed.

(** ** The password column *)

Ltac only_tac :=
  simpl;
  repeat match goal with
         | |- True => exact I
         | |- _ /\ _ => split
         | |- _ = _ => reflexivity
         | |- forall _, _ => intro; simpl
         | |- only _ (match ?x with _ => _ end) => destruct x; simpl
         | |- only _ (bind _ _) => apply only_bind
         end.

Lemma load_campaign_information_only ok self force :
  (forall a, match a with
             | TimeTime | GetLastLoadTime | GetRefreshFrequency | LoaderIsAlive | LockAcquire
             | LockRelease | ThreadCreate _ | ThreadStart | HasRpc | LoggerLog _ _
             | Gui TreeviewGetModel | Gui (ListStoreNew _) | Gui (TreeviewSetModel _)
             | Gui (ListStoreClear _) => ok a = true
             | _ => True
             end) ->
  only ok (CampaignViewTab.load_campaign_information self force).
Proof.
  intros Hok.
  destruct self as [cls|graphs]; simpl;
    [unfold CampaignViewGenericTab.load_campaign_information
    |unfold CampaignViewDashboardTab.load_campaign_information];
    unfold not_stale; destruct force; only_tac;
    match goal with |- ok ?a = true => exact (Hok a) end.
Qed.

Lemma handler_keeps_columns self s p :
  handler self s = Some p -> is_toggle s = false -> only not_column_set p.
Proof.
  intros Hh Ht.
  assert (Hl : forall tab force,
             only not_column_set (CampaignViewTab.load_campaign_information tab force)).
  { intros. apply load_campaign_information_only. by intros []; try destruct c. }
  destruct self as [cls|graphs], s as [force| | | |b z|b k|column_id| | |[]];
    try discriminate; injection Hh as <-;
    try apply (Hl (GenericTab cls)); try apply (Hl (DashboardTab graphs)).
  - unfold CampaignViewGenericTab.signal_button_clicked_export. only_tac.
  - unfold CampaignViewGenericTab.signal_destroy. only_tac.
  - unfold ignore, CampaignViewGenericTab.signal_treeview_button_pressed.
    destruct (negb _); only_tac.
  - unfold CampaignViewGenericTab.signal_treeview_key_pressed.
    destruct (negb _); [exact I|]. destruct k; [apply (Hl (GenericTab cls))| |exact I].
    unfold CampaignViewGenericTab._prompt_to_delete_row. only_tac.
  - unfold CampaignViewGenericTab.signal_activate_popup_menu_copy. only_tac.
  - unfold CampaignViewGenericTab._prompt_to_delete_row. only_tac.
  - unfold ignore, callback_code, CampaignViewDashboardTab.loader_idle_routine. only_tac.
Qed.

Lemma refresh_graphs_only ok graphs cache :
  (forall g c, ok (GlibIdleAddWait (GraphRefresh g c)) = true) ->
  only ok (CampaignViewDashboardTab.refresh_graphs graphs cache).
Proof.
  intros Hok. revert cache. induction graphs as [|g graphs IH]; intros cache; simpl; auto.
Qed.

(** The code of a loader thread takes the actions of the loader only. *)
Lemma thread_code_only ok self target :
  formats_plainly self ->
  (forall a, loop_action a = true -> ok a = true) ->
  (forall a, match a with
             | GlibIdleAddWait (TreeviewSetSensitive _) | GlibIdleAddWait (GraphRefresh _ _)
             | ConfigGet _ | RpcRemoteTable _ _ | TimeTime | SetLastLoadTime _ => ok a = true
             | _ => True
             end) ->
  only ok (thread_code self target).
Proof.
  intros Hf Hloop Hok. destruct self as [cls|graphs], target as [store|]; simpl; try exact I.
  - unfold CampaignViewGenericTab.row_loader_thread_routine.
    split; [exact (Hok (GlibIdleAddWait (TreeviewSetSensitive false)))|]. intros _.
    split; [exact (Hok (ConfigGet _))|]. intros campaign_id.
    split; [exact (Hok (RpcRemoteTable _ _))|]. intros rows.
    apply only_bind.
    + eapply only_mono; [exact Hloop|]. by apply row_loader_loop_only.
    + intros []; simpl; [|exact I].
      split; [exact (Hok (GlibIdleAddWait (TreeviewSetSensitive true)))|]. intros _.
      split; [exact (Hok TimeTime)|]. intros now.
      split; [exact (Hok (SetLastLoadTime now))|]. by intros _.
  - unfold CampaignViewDashboardTab.loader_thread_routine. apply only_bind.
    + apply refresh_graphs_only. intros g c. exact (Hok (GlibIdleAddWait (GraphRefresh g c))).
    + intros _. simpl. split; [exact (Hok TimeTime)|]. intros now.
      split; [exact (Hok (SetLastLoadTime now))|]. by intros _.
Qed.

Lemma thread_code_keeps_columns self target :
  formats_plainly self -> only not_column_set (thread_code self target).
Proof.
  intros Hf. apply thread_code_only; [exact Hf| |].
  - intros a. destruct a; try discriminate; try reflexivity. by destruct c.
  - intros a. destruct a; try exact I; try reflexivity. by destruct c.
Qed.

Lemma perform_columns self e idle th a w r w' :
  perform self e idle th a w = Some (r, w') ->
  show_passwords_active w' = show_passwords_active w
  /\ (not_column_set a = true -> view_column_visible w' = view_column_visible w).
Proof.
  destruct a; simpl; try (intros [= <- <-]; by split).
  - destruct (lock_acquire th (loader_thread_lock w)); simpl; [|discriminate].
    intros [= <- <-]. by split.
  - destruct (loader_is_alive w); [discriminate|]. intros [= <- <-]. by split.
  - destruct c; simpl; intros [= <- <-]; by split.
  - destruct (idle && negb (bool_decide (th = MainThread))); [|discriminate].
    destruct c; simpl; intros [= <- <-]; by split.
Qed.

Lemma perform_threads_only ok self e idle th a w r w' :
  (forall target, only ok (thread_code self target)) ->
  threads_only ok w ->
  perform self e idle th a w = Some (r, w') ->
  threads_only ok w'.
Proof.
  intros Hc Hw.
  destruct a; simpl; try (intros [= <- <-]; exact Hw).
  - destruct (lock_acquire th (loader_thread_lock w)); simpl; [|discriminate].
    intros [= <- <-]. exact Hw.
  - intros [= <- <-]. intros n p. unfold thread_create. simpl.
    intros [H|[_ H]]%lookup_app_Some; [by eapply Hw|].
    by destruct (n - length (threads w)) as [|[|?]].
  - intros [= <- <-]. intros n p. unfold thread_start. simpl.
    destruct (loader_thread w) as [m|]; [|apply Hw].
    destruct (threads w !! m) as [[target'|code]|] eqn:Hm; try apply Hw.
    destruct (decide (n = m)) as [->|Hne].
    + rewrite list_lookup_insert_eq by (by eapply lookup_lt_Some). intros [= <-]. apply Hc.
    + rewrite list_lookup_insert_ne by done. apply Hw.
  - destruct (loader_is_alive w); [discriminate|]. intros [= <- <-]. exact Hw.
  - destruct c; simpl; intros [= <- <-]; exact Hw.
  - destruct (idle && negb (bool_decide (th = MainThread))); [|discriminate].
    destruct c; simpl; intros [= <- <-]; exact Hw.
Qed.

Lemma run_keeps_columns {A} self e idle th (p : prog A) w x w' :
  (forall target, only not_column_set (thread_code self target)) ->
  only not_column_set p -> threads_only not_column_set w ->
  run self e idle th p w = Some (x, w') ->
  threads_only not_column_set w'
  /\ show_passwords_active w' = show_passwords_active w
  /\ view_column_visible w' = view_column_visible w.
Proof.
  intros Hc. revert w. induction p as [y|a k IH]; intros w Hp Hw; simpl.
  - intros [= <- <-]. auto.
  - destruct Hp as [Ha Hk].
    destruct (perform self e idle th a w) as [[r w1]|] eqn:Hp; [|discriminate].
    intros H. destruct (perform_columns _ _ _ _ _ _ _ _ Hp) as [H1 H2].
    destruct (IH r w1 (Hk r) (perform_threads_only _ _ _ _ _ _ _ _ _ Hc Hw Hp) H)
      as (H3 & H4 & H5).
    split; [exact H3|]. split; [congruence|]. rewrite H5. by apply H2.
Qed.

Lemma threads_only_set_thread ok n (p : prog unit) w :
  only ok p -> threads_only ok w -> threads_only ok (set_thread n p w).
Proof.
  intros Hp Hw m q. unfold set_thread. simpl.
  destruct (decide (m = n)) as [->|Hne].
  - intros H. pose proof (lookup_lt_Some _ _ _ H) as Hlt. rewrite length_insert in Hlt.
    rewrite list_lookup_insert_eq in H by done. by injection H as <-.
  - rewrite list_lookup_insert_ne by done. apply Hw.
Qed.

(** An operation other than the toggle keeps the columns and the button. *)
Lemma operation_keeps_columns self e op w w' :
  formats_plainly self ->
  match op with OpSignal s => is_toggle s = false | OpLoaderRun _ => True end ->
  threads_only not_column_set w ->
  apply_operation self e op w = Some w' ->
  threads_only not_column_set w'
  /\ show_passwords_active w' = show_passwords_active w
  /\ view_column_visible w' = view_column_visible w.
Proof.
  intros Hf Hop Hw. pose proof (fun target => thread_code_keeps_columns self target Hf) as Hc.
  destruct op as [s|n]; simpl.
  - destruct (handler self s) as [p|] eqn:Hh; simpl; [|discriminate].
    destruct (run_main self e p (emit s w)) as [[[] w1]|] eqn:Hr; simpl; [|discriminate].
    intros [= <-]. unfold run_main in Hr.
    eapply run_keeps_columns in Hr; [|exact Hc|by eapply handler_keeps_columns|].
    + by destruct s.
    + by destruct s.
  - destruct (threads w !! n) as [[target|p]|] eqn:Hn; simpl; try discriminate.
    destruct (run_loader self e n p w) as [[[] w1]|] eqn:Hr; simpl; [|discriminate].
    intros [= <-]. unfold run_loader in Hr.
    eapply run_keeps_columns in Hr; [|exact Hc|by eapply Hw|exact Hw].
    destruct Hr as (H1 & H2 & H3). split; [|by split].
    by apply threads_only_set_thread.
Qed.

(** The toggle makes the password column as visible as the button is active. *)
Lemma toggle_sets_column cls e w w' :
  apply_operation (GenericTab cls) e (OpSignal SigButtonToggledShowPasswords) w = Some w' ->
  threads w' = threads w
  /\ show_passwords_active w' = negb (show_passwords_active w)
  /\ view_column_visible w'
     = alter (fun _ => negb (show_passwords_active w)) 3 (view_column_visible w).
Proof. simpl. unfold run_main. simpl. by intros [= <-]. Qed.

Lemma operations_columns format_datetime ops w0 w b :
  let self := GenericTab (CampaignViewCredentialsTab.cls format_datetime) in
  threads_only not_column_set w0 ->
  view_column_visible w0 !! 3 = Some b ->
  apply_operations self ops w0 = Some w ->
  threads_only not_column_set w
  /\ view_column_visible w !! 3 = Some (if toggled ops then show_passwords_active w else b)
  /\ (toggled ops = false ->
      show_passwords_active w = show_passwords_active w0
      /\ view_column_visible w = view_column_visible w0).
Proof.
  intros self. revert w0 b.
  induction ops as [|[e op] ops IH]; intros w0 b Hw Hb; simpl.
  - intros [= <-]. auto.
  - destruct (apply_operation self e op w0) as [w1|] eqn:H1; simpl; [|discriminate].
    intros H.
    destruct (match op with OpSignal s => is_toggle s | OpLoaderRun _ => false end) eqn:Hop.
    + destruct op as [[]|]; try discriminate.
      apply toggle_sets_column in H1 as (Ht & Ha & Hv).
      assert (Hw1 : threads_only not_column_set w1).
      { intros n p. rewrite Ht. apply Hw. }
      assert (Hb1 : view_column_visible w1 !! 3 = Some (show_passwords_active w1)).
      { rewrite Hv, lookup_alter_eq, Hb, Ha. reflexivity. }
      destruct (IH _ _ Hw1 Hb1 H) as (H2 & H3 & H4).
      split; [exact H2|]. split; [|discriminate].
      rewrite H3. destruct (toggled ops); [reflexivity|].
      by destruct H4 as [-> _].
    + apply operation_keeps_columns in H1 as (Hw1 & Ha & Hv).
      * assert (Hb1 : view_column_visible w1 !! 3 = Some b) by (by rewrite Hv).
        destruct (IH _ _ Hw1 Hb1 H) as (H2 & H3 & H4).
        split; [exact H2|]. split; [exact H3|].
        intros Ht. destruct (H4 Ht) as [H5 H6]. split; congruence.
      * intros row_data. apply formats_lookups.
      * destruct op; [exact Hop|exact I].
      * exact Hw.
Qed.

(** C10. The password column of the credentials tab is invisible when the
    constructor returns.  After any operations on the tab (signals handled by
    the main thread, runs of the loader), the column is as visible as the
    toggle button is active if the button was toggled at all, and invisible
    otherwise; so it always is as visible as the button is active when the
    button starts inactive.  Operations other than the toggle change neither
    the visibility of the columns nor the button. *)
Theorem password_column_follows_toggle (timedef_to_seconds : string -> Z)
    (config : gmap string pyval) (format_datetime : pyval -> pyval)
    (toggle_active : bool) (ops more : list (env * operation)) (w w' : world) :
  let self := GenericTab (CampaignViewCredentialsTab.cls format_datetime) in
  let w0 := credentials__init__ timedef_to_seconds config format_datetime toggle_active in
  apply_operations self ops w0 = Some w ->
  apply_operations self more w = Some w' ->
  view_column_visible w0 !! 3 = Some false
  /\ view_column_visible w !! 3 = Some (if toggled ops then show_passwords_active w else false)
  /\ (toggle_active = false ->
      view_column_visible w !! 3 = Some (show_passwords_active w))
  /\ (toggled more = false ->
      view_column_visible w' = view_column_visible w
      /\ show_passwords_active w' = show_passwords_active w).
Proof.
  intros self w0 Hops Hmore.
  assert (H0 : view_column_visible w0 !! 3 = Some false).
  { subst w0. unfold credentials__init__. cbn [view_column_visible set_view_column_visible].
    rewrite lookup_alter_eq. reflexivity. }
  assert (Hw0 : threads_only not_column_set w0) by (by intros n p).
  destruct (operations_columns format_datetime ops w0 w false Hw0 H0 Hops) as (H1 & H2 & H3).
  split; [exact H0|]. split; [exact H2|]. split.
  - intros ->. rewrite H2. destruct (toggled ops); [reflexivity|].
    by destruct H3 as [-> _].
  - intros Ht.
    destruct (view_column_visible w !! 3) as [b|] eqn:Hb; [|discriminate].
    destruct (operations_columns format_datetime more w w' b H1 Hb Hmore) as (_ & _ & H4).
    destruct (H4 Ht) as [H5 H6]. by split.
Qed.

(** ** The runs of the loader, with what they log *)

Lemma set_log_set_log l l' w : set_log l (set_log l' w) = set_log l w.
Proof. reflexivity. Qed.

(** A format method that only looks rows up returns what [format_result]
    says and adds its look-ups to the log. *)
Lemma run_format_log {A} self e idle th (p : prog A) :
  only is_row_lookup p ->
  exists x, format_result e p = Some x
    /\ forall w, run self e idle th p w = Some (x, set_log (log w ++ format_log e th p) w).
Proof.
  induction p as [x|a k IH]; intros Ho.
  - exists x. split; [reflexivity|]. intros w. simpl. rewrite app_nil_r. by destruct w.
  - destruct Ho as [Ha Hk]. destruct a; try discriminate Ha.
    destruct (IH _ (Hk (env_remote_table_row e table row_id))) as (x & Hx & Hrun).
    exists x. split; [exact Hx|].
    intros w. simpl. rewrite Hrun. unfold record. rewrite set_log_set_log.
    cbn [log set_log]. by rewrite <- app_assoc.
Qed.

Lemma run_format {A} self e idle th (p : prog A) :
  only is_row_lookup p ->
  exists x l, format_result e p = Some x
    /\ forall w, run self e idle th p w = Some (x, set_log (log w ++ l) w).
Proof.
  intros Ho. destruct (run_format_log self e idle th p Ho) as (x & Hx & Hrun).
  by exists x, (format_log e th p).
Qed.

Lemma kept_rows_cons self e row_data rows x :
  format_result e (format_row_data self row_data) = Some x ->
  kept_rows self e (row_data :: rows)
  = match x with
    | Some fields => (row_data !!! "id", fields) :: kept_rows self e rows
    | None => kept_rows self e rows
    end.
Proof. intros H. simpl. rewrite H. by destruct x. Qed.

(** The loop on a tab that is not destroyed: every row with a format is
    appended, in the order of the table, every other row deleted on the
    server. *)
Lemma run_row_loader_loop_log self e n store rows :
  (forall row_data, only is_row_lookup (format_row_data self row_data)) ->
  forall w, is_destroyed w = false ->
  run_loader (GenericTab self) e n
    (CampaignViewGenericTab.row_loader_loop self store rows) w
  = Some (true, set_log (log w ++ loop_log self e (LoaderThread n) store rows)
                  (set_stores (append_all store (shown_rows self e rows) (stores w)) w)).
Proof.
  intros Hf. induction rows as [|row_data rows IH]; intros w Hd.
  - unfold run_loader. simpl. rewrite app_nil_r. by destruct w.
  - destruct (run_format_log (GenericTab self) e true (LoaderThread n) _ (Hf row_data))
      as (x & Hx & Hrun).
    unfold shown_rows. rewrite (kept_rows_cons _ _ _ _ _ Hx).
    cbn [loop_log]. rewrite Hx.
    unfold run_loader.
    change (CampaignViewGenericTab.row_loader_loop self store (row_data :: rows))
      with (bind (format_row_data self row_data) (fun formatted =>
              match formatted with
              | None =>
                  RpcCall (remote_table_name self +:+ "/delete") (row_data !!! "id");;
                  CampaignViewGenericTab.row_loader_loop self store rows
              | Some fields =>
                  destroyed <- IsDestroyedIsSet;
                  if destroyed then Ret false else
                  GlibIdleAddWait (ListStoreAppend store (cells (row_data !!! "id") fields));;
                  CampaignViewGenericTab.row_loader_loop self store rows
              end)).
    rewrite run_bind, Hrun. destruct x as [fields|].
    + cbn [run perform]. change (is_destroyed (set_log _ w)) with (is_destroyed w).
      rewrite Hd. cbn [run perform andb gui].
      rewrite bool_decide_eq_false_2 by discriminate. cbn [negb].
      match goal with
      | |- context [run _ _ _ _ (CampaignViewGenericTab.row_loader_loop _ _ _) ?w1] =>
          pose proof (IH w1 Hd) as Hl'
      end.
      unfold run_loader in Hl'. etransitivity; [exact Hl'|]. f_equal. f_equal.
      unfold record, marshaled.
      cbn [log set_log set_stores stores fmap list_fmap append_all foldl fst snd].
      rewrite <- !app_assoc. reflexivity.
    + cbn [run perform].
      match goal with
      | |- context [run _ _ _ _ (CampaignViewGenericTab.row_loader_loop _ _ _) ?w1] =>
          pose proof (IH w1 Hd) as Hl'
      end.
      unfold run_loader in Hl'. etransitivity; [exact Hl'|]. f_equal. f_equal.
      unfold record. cbn [log set_log set_stores stores].
      rewrite <- !app_assoc. reflexivity.
Qed.

Lemma run_row_loader_loop self e n store rows :
  (forall row_data, only is_row_lookup (format_row_data self row_data)) ->
  forall w, is_destroyed w = false ->
  exists l,
    run_loader (GenericTab self) e n
      (CampaignViewGenericTab.row_loader_loop self store rows) w
    = Some (true, set_log (log w ++ l)
                    (set_stores (append_all store (shown_rows self e rows) (stores w)) w)).
Proof.
  intros Hf w Hd. eexists. by apply run_row_loader_loop_log.
Qed.

(** The loop on a destroyed tab: the rows without a format are deleted on
    the server up to the first row that has one, where the loop ends. *)
Lemma run_row_loader_loop_destroyed self e n store rows :
  (forall row_data, only is_row_lookup (format_row_data self row_data)) ->
  forall w, is_destroyed w = true ->
  exists l,
    run_loader (GenericTab self) e n
      (CampaignViewGenericTab.row_loader_loop self store rows) w
    = Some (match kept_rows self e rows with [] => true | _ => false end,
            set_log (log w ++ l) w).
Proof.
  intros Hf. induction rows as [|row_data rows IH]; intros w Hd.
  - exists []. unfold run_loader. simpl. rewrite app_nil_r. by destruct w.
  - destruct (run_format (GenericTab self) e true (LoaderThread n) _ (Hf row_data))
      as (x & l & Hx & Hrun).
    rewrite (kept_rows_cons _ _ _ _ _ Hx).
    unfold run_loader.
    change (CampaignViewGenericTab.row_loader_loop self store (row_data :: rows))
      with (bind (format_row_data self row_data) (fun formatted =>
              match formatted with
              | None =>
                  RpcCall (remote_table_name self +:+ "/delete") (row_data !!! "id");;
                  CampaignViewGenericTab.row_loader_loop self store rows
              | Some fields =>
                  destroyed <- IsDestroyedIsSet;
                  if destroyed then Ret false else
                  GlibIdleAddWait (ListStoreAppend store (cells (row_data !!! "id") fields));;
                  CampaignViewGenericTab.row_loader_loop self store rows
              end)).
    rewrite run_bind, Hrun. destruct x as [fields|].
    + cbn [run perform]. change (is_destroyed (set_log _ w)) with (is_destroyed w).
      rewrite Hd. cbn [run]. by exists l.
    + cbn [run perform].
      match goal with
      | |- context [run _ _ _ _ (CampaignViewGenericTab.row_loader_loop _ _ _) ?w1] =>
          destruct (IH w1 Hd) as [l' Hl']
      end.
      unfold run_loader in Hl'.
      exists (l ++ (LoaderThread n, RpcCall (remote_table_name self +:+ "/delete")
                                     (row_data !!! "id")) :: l').
      etransitivity; [exact Hl'|]. f_equal. f_equal.
      unfold record. cbn [log set_log]. rewrite <- !app_assoc. reflexivity.
Qed.

(** The routine on a tab that is not destroyed, from start to end. *)
Lemma run_row_loader_thread_routine_log self e n store w :
  (forall row_data, only is_row_lookup (format_row_data self row_data)) ->
  is_destroyed w = false ->
  run_loader (GenericTab self) e n
    (CampaignViewGenericTab.row_loader_thread_routine self store) w
  = Some (tt, set_log (log w ++ load_log self e (LoaderThread n) store)
                (set_last_load_time (Stamp (env_time e))
                   (set_treeview_sensitive true
                      (set_stores
                         (append_all store (shown_rows self e (table_rows self e)) (stores w))
                         w)))).
Proof.
  intros Hf Hd. unfold run_loader, CampaignViewGenericTab.row_loader_thread_routine.
  cbn [run perform andb gui]. rewrite bool_decide_eq_false_2 by discriminate. cbn [negb].
  rewrite run_bind.
  match goal with
  | |- context [run _ _ _ _ (CampaignViewGenericTab.row_loader_loop _ _ ?rows) ?w1] =>
      pose proof (run_row_loader_loop_log self e n store rows Hf w1 Hd) as Hl
  end.
  unfold run_loader in Hl. fold (table_rows self e). fold (table_rows self e) in Hl.
  rewrite Hl. cbn [run perform andb gui]. rewrite bool_decide_eq_false_2 by discriminate.
  cbn [negb].
  f_equal. f_equal. unfold record, load_log, marshaled.
  cbn [log set_log set_stores stores set_treeview_sensitive set_last_load_time].
  rewrite <- !app_assoc. reflexivity.
Qed.

Lemma run_row_loader_thread_routine self e n store w :
  (forall row_data, only is_row_lookup (format_row_data self row_data)) ->
  is_destroyed w = false ->
  exists l,
    run_loader (GenericTab self) e n
      (CampaignViewGenericTab.row_loader_thread_routine self store) w
    = Some (tt, set_log (log w ++ l)
                  (set_last_load_time (Stamp (env_time e))
                     (set_treeview_sensitive true
                        (set_stores
                           (append_all store (shown_rows self e (table_rows self e)) (stores w))
                           w)))).
Proof.
  intros Hf Hd. eexists. by apply run_row_loader_thread_routine_log.
Qed.

Lemma run_row_loader_thread_routine_destroyed self e n store w :
  (forall row_data, only is_row_lookup (format_row_data self row_data)) ->
  is_destroyed w = true ->
  exists l,
    run_loader (GenericTab self) e n
      (CampaignViewGenericTab.row_loader_thread_routine self store) w
    = Some (tt, set_log (log w ++ l)
                  (match kept_rows self e (table_rows self e) with
                   | [] => set_last_load_time (Stamp (env_time e))
                             (set_treeview_sensitive true w)
                   | _ => set_treeview_sensitive false w
                   end)).
Proof.
  intros Hf Hd. unfold run_loader, CampaignViewGenericTab.row_loader_thread_routine.
  cbn [run perform andb gui]. rewrite bool_decide_eq_false_2 by discriminate. cbn [negb].
  rewrite run_bind.
  match goal with
  | |- context [run _ _ _ _ (CampaignViewGenericTab.row_loader_loop _ _ ?rows) ?w1] =>
      destruct (run_row_loader_loop_destroyed self e n store rows Hf w1 Hd) as [l Hl]
  end.
  unfold run_loader in Hl. fold (table_rows self e). fold (table_rows self e) in Hl.
  rewrite Hl. destruct (kept_rows self e (table_rows self e)) as [|kept rest].
  - cbn [run perform andb gui]. rewrite bool_decide_eq_false_2 by discriminate.
    cbn [negb].
    eexists. f_equal. f_equal. unfold record.
    cbn [log set_log set_treeview_sensitive set_last_load_time].
    rewrite <- !app_assoc. reflexivity.
  - cbn [run]. eexists. f_equal. f_equal. unfold record.
    cbn [log set_log set_treeview_sensitive].
    rewrite <- !app_assoc. reflexivity.
Qed.

Lemma run_refresh_graphs graphs e n :
  forall cache w,
    run_loader (DashboardTab graphs) e n
      (CampaignViewDashboardTab.refresh_graphs graphs cache) w
    = Some (foldl (fun cache g => env_graph_refresh e g cache) cache graphs,
            set_log (log w ++ refresh_calls e graphs cache ≫= refresh_entries (LoaderThread n))
              w).
Proof.
  generalize graphs at 1. intros self.
  induction graphs as [|g graphs IH]; intros cache w; unfold run_loader in *.
  - simpl. rewrite app_nil_r. by destruct w.
  - cbn [CampaignViewDashboardTab.refresh_graphs run perform andb gui].
    rewrite bool_decide_eq_false_2 by discriminate. cbn [negb].
    rewrite IH. f_equal. f_equal. unfold record. rewrite !set_log_set_log.
    cbn [log set_log refresh_calls mbind list_bind refresh_entries fst snd app].
    f_equal. by rewrite <- !app_assoc.
Qed.


Lemma run_loader_thread_routine graphs e n w :
  run_loader (DashboardTab graphs) e n
    (CampaignViewDashboardTab.loader_thread_routine graphs) w
  = Some (tt,
          set_log (log w
                   ++ (refresh_calls e graphs ∅ ≫= refresh_entries (LoaderThread n))
                   ++ [(LoaderThread n, SetLastLoadTime (env_time e))])
            (set_last_load_time (Stamp (env_time e)) w)).
Proof.
  unfold CampaignViewDashboardTab.loader_thread_routine, run_loader.
  rewrite run_bind. pose proof (run_refresh_graphs graphs e n ∅ w) as Hr.
  unfold run_loader in Hr. rewrite Hr. cbn [run perform]. f_equal. f_equal.
  unfold record. cbn [log set_log set_last_load_time]. by rewrite <- !app_assoc.
Qed.

(** ** Runs given step by step *)

Lemma sched_step_step self c s s' : sched_step self c s = Some s' -> step self s s'.
Proof.
  destruct s as [w main]. unfold sched_step. cbn [sys_world sys_main].
  destruct c as [sg|e| |e n].
  - destruct main; [discriminate|].
    destruct (handler self sg) as [p|] eqn:Hh; [|discriminate].
    intros [= <-]. by constructor.
  - destruct main as [[x|a k]|]; try discriminate.
    destruct (perform self e false MainThread a w) as [[r w']|] eqn:Hp; [|discriminate].
    intros [= <-]. by econstructor.
  - destruct main as [[[]|a k]|]; try discriminate.
    intros [= <-]. constructor.
  - destruct (threads w !! n) as [[target|[x|a k]]|] eqn:Hn; try discriminate.
    destruct (perform self e (main_idle main) (LoaderThread n) a w) as [[r w']|] eqn:Hp;
      [|discriminate].
    intros [= <-]. by econstructor.
Qed.

Lemma sched_run_rtc self cs s s' : sched_run self cs s = Some s' -> rtc (step self) s s'.
Proof.
  revert s. induction cs as [|c cs IH]; intros s; simpl.
  - intros [= <-]. apply rtc_refl.
  - destruct (sched_step self c s) as [s1|] eqn:Hc; [|discriminate]. simpl.
    intros H. eapply rtc_l; [by eapply sched_step_step|by apply IH].
Qed.

Lemma sched_run_within_rtc self cs s s' :
  sched_run_within self cs s = Some s' -> rtc (step_within self) s s'.
Proof.
  revert s. induction cs as [|c cs IH]; intros s; simpl.
  - intros [= <-]. apply rtc_refl.
  - destruct (sched_step self c s) as [s1|] eqn:Hc; [|discriminate]. simpl.
    destruct (sys_main s1) as [q|] eqn:Hq; [|discriminate].
    intros H. eapply rtc_l; [|by apply IH].
    split; [by eapply sched_step_step|by rewrite Hq].
Qed.

Lemma reachable_rtc self w0 s s' :
  reachable self w0 s -> rtc (step self) s s' -> reachable self w0 s'.
Proof.
  intros Hr Hs. induction Hs as [s|s s1 s2 Hstep _ IH]; [exact Hr|].
  apply IH. by eapply reachable_step.
Qed.

Lemma sched_run_reachable self cs w0 s :
  sched_run self cs {| sys_world := w0; sys_main := None |} = Some s -> reachable self w0 s.
Proof.
  intros H. eapply reachable_rtc; [apply reachable_init|by eapply sched_run_rtc].
Qed.

(** ** The main thread and the loader threads, interleaved *)

Lemma guarded_armed {A} passed (p : prog A) : guarded passed p -> is_armed p = passed.
Proof.
  destruct p as [x|a k]; simpl.
  - by intros ->.
  - destruct passed; [by intros [-> _]|].
    destruct a; simpl; try (by intros [? _]); try reflexivity.
    destruct c; simpl; try reflexivity. by intros [? _].
Qed.

Lemma guarded_bind_lookups {A B C} (p : prog A) (g : A -> prog B) (f : B -> prog C) :
  only is_row_lookup p ->
  (forall x, guarded false (y <~ g x; f y)) ->
  guarded false (y <~ (x <~ p; g x); f y).
Proof.
  intros Hp Hf. induction p as [x|a k IH]; simpl; [apply Hf|].
  destruct Hp as [Ha Hk]. destruct a; try discriminate. simpl.
  split; [reflexivity|]. intros r. by apply IH.
Qed.

Lemma row_loader_loop_guarded {B} self store rows (f : bool -> prog B) :
  (forall row_data, only is_row_lookup (format_row_data self row_data)) ->
  (forall completed, guarded false (f completed)) ->
  guarded false (completed <~ CampaignViewGenericTab.row_loader_loop self store rows; f completed).
Proof.
  intros Hl Hf. induction rows as [|row_data rows IH]; simpl; [apply Hf|].
  apply guarded_bind_lookups; [apply Hl|].
  intros [fields|]; simpl.
  - split; [apply Hf|]. split; [reflexivity|]. intros _. exact IH.
  - split; [reflexivity|]. intros _. exact IH.
Qed.

Lemma refresh_graphs_guarded {B} graphs cache (f : info_cache -> prog B) :
  (forall x, guarded false (f x)) ->
  guarded false (x <~ CampaignViewDashboardTab.refresh_graphs graphs cache; f x).
Proof.
  intros Hf. revert cache. induction graphs as [|g graphs IH]; intros cache; simpl; [apply Hf|].
  split; [reflexivity|]. intros r. apply IH.
Qed.

(** The code of a loader thread is guarded from its start. *)
Lemma thread_code_guarded self target :
  formats_plainly self -> guarded false (thread_code self target).
Proof.
  intros Hf. destruct self as [cls|graphs], target as [store|]; simpl; try reflexivity.
  - split; [reflexivity|]. intros _. split; [reflexivity|]. intros campaign_id.
    split; [reflexivity|]. intros rows.
    apply row_loader_loop_guarded; [exact Hf|]. intros []; simpl; [|reflexivity].
    repeat (split; [reflexivity|]; intros ?). reflexivity.
  - unfold CampaignViewDashboardTab.loader_thread_routine.
    apply refresh_graphs_guarded. intros _. simpl.
    repeat (split; [reflexivity|]; intros ?). reflexivity.
Qed.

(** *** The handlers are careful *)

Lemma waits_ignore {A} (p : prog A) : waits p -> waits (ignore p).
Proof.
  unfold ignore. induction p as [x|a k IH]; simpl; [done|].
  destruct a; simpl; try done. apply IH.
Qed.

Lemma careful_ignore {A} cleared (p : prog A) : careful cleared p -> careful cleared (ignore p).
Proof.
  unfold ignore. revert cleared. induction p as [x|a k IH]; intros cleared; simpl; [done|].
  destruct a; simpl;
    try (intros [Ha Hk]; split; [exact Ha|intros r; by apply IH]).
  - intros [H1 H2]. split; by apply IH.
  - intros H r. by apply IH.
  - intros H r. destruct (H r) as [H1 H2]. split; [by apply waits_ignore|by apply IH].
Qed.

Ltac careful_tac :=
  simpl;
  repeat match goal with
         | |- True => exact I
         | |- _ /\ _ => split
         | |- _ = _ => reflexivity
         | |- forall _, _ => intro; simpl
         | |- careful _ (match ?x with _ => _ end) => destruct x; simpl
         | |- careful _ (bind (match ?x with _ => _ end) _) => destruct x; simpl
         | |- waits (match ?x with _ => _ end) => destruct x; simpl
         end.

Lemma load_campaign_information_careful cleared self force :
  careful cleared (CampaignViewTab.load_campaign_information self force).
Proof.
  destruct self as [cls|graphs]; simpl;
    [unfold CampaignViewGenericTab.load_campaign_information
    |unfold CampaignViewDashboardTab.load_campaign_information];
    unfold not_stale; destruct force; careful_tac.
Qed.

Lemma handler_careful self s p : handler self s = Some p -> careful false p.
Proof.
  intros Hh.
  destruct self as [cls|graphs], s as [force| | | |b z|b k|column_id| | |[]];
    try discriminate; injection Hh as <-;
    try apply (load_campaign_information_careful false (GenericTab cls));
    try apply (load_campaign_information_careful false (DashboardTab graphs)).
  - unfold CampaignViewGenericTab.signal_button_clicked_export. careful_tac.
  - unfold CampaignViewGenericTab.signal_destroy. careful_tac.
  - apply careful_ignore. unfold CampaignViewGenericTab.signal_treeview_button_pressed.
    destruct (negb _); careful_tac.
  - unfold CampaignViewGenericTab.signal_treeview_key_pressed.
    destruct (negb _); [exact I|].
    destruct k; [apply (load_campaign_information_careful false (GenericTab cls))| |exact I].
    unfold CampaignViewGenericTab._prompt_to_delete_row. careful_tac.
  - unfold CampaignViewGenericTab.signal_activate_popup_menu_copy. careful_tac.
  - unfold CampaignViewGenericTab._prompt_to_delete_row. careful_tac.
  - unfold CampaignViewCredentialsTab.signal_button_toggled_show_passwords. careful_tac.
  - apply careful_ignore. simpl. unfold CampaignViewDashboardTab.loader_idle_routine.
    careful_tac.
Qed.

(** *** What one action changes *)

Lemma perform_frame self e idle th a w r w' :
  perform self e idle th a w = Some (r, w') ->
  (match a with ThreadCreate _ | ThreadStart => True | _ => threads w' = threads w end)
  /\ (match a with ThreadCreate _ => True | _ => loader_thread w' = loader_thread w end)
  /\ is_destroyed w' = (match a with IsDestroyedSet => true | _ => is_destroyed w end)
  /\ log w' = log w ++ log_of th a.
Proof.
  destruct a; simpl; try (intros [= <- <-]; simpl; by rewrite ?app_nil_r).
  - destruct (lock_acquire th (loader_thread_lock w)); simpl; [|discriminate].
    by intros [= <- <-].
  - destruct (loader_is_alive w); [discriminate|]. by intros [= <- <-].
  - destruct c; simpl; by intros [= <- <-].
  - destruct (idle && negb (bool_decide (th = MainThread))); [|discriminate].
    destruct c; simpl; intros [= <- <-]; simpl; by rewrite <- ?app_assoc.
Qed.

Lemma appended_app w w' l :
  log w' = log w ++ l ->
  Forall (fun entry => is_append entry.2 = false) l ->
  appended w' = appended w.
Proof.
  unfold appended. intros -> Hl. rewrite List.filter_app.
  replace (List.filter _ l) with (@nil (thread_id * action)); [by rewrite app_nil_r|].
  induction Hl as [|[th a] l Ha _ IH]; [reflexivity|]. simpl in *. by rewrite Ha.
Qed.

Lemma is_alive_inv t : is_alive t = true -> exists a k, t = Started (Do a k).
Proof. destruct t as [target|[x|a k]]; try discriminate. eauto. Qed.

Lemma armed_alive (p : prog unit) : is_armed p = true -> is_alive (Started p) = true.
Proof. by destruct p. Qed.

Lemma loader_alive_of w n t :
  threads w !! n = Some t -> is_alive t = true -> loader_thread w = Some n ->
  loader_is_alive w = true.
Proof. unfold loader_is_alive. intros Ht Ha ->. by rewrite Ht. Qed.

Lemma careful_plain_inv {A} cleared a (k : result a -> prog A) :
  handler_plain a = true -> careful cleared (Do a k) -> forall r, careful cleared (k r).
Proof. destruct a; try discriminate; by intros _ [_ H]. Qed.

Lemma waits_not_plain {A} a (k : result a -> prog A) :
  waits (Do a k) -> handler_plain a = false /\ in_dialog a = false.
Proof. by destruct a. Qed.

Lemma guarded_plain_inv {A} a (k : result a -> prog A) :
  loader_plain a = true -> guarded false (Do a k) -> forall r, guarded false (k r).
Proof. destruct a; try discriminate; by intros _ [_ H]. Qed.

Lemma handler_plain_log th a :
  handler_plain a = true ->
  Forall (fun entry => is_append entry.2 = false) (log_of th a)
  /\ Forall log_entry_ok (log_of MainThread a).
Proof.
  destruct a; try discriminate; intros Ha; simpl; split; repeat constructor; try done.
  - by destruct c.
Qed.

Lemma loader_plain_log n a :
  loader_plain a = true ->
  Forall (fun entry => is_append entry.2 = false) (log_of (LoaderThread n) a)
  /\ Forall log_entry_ok (log_of (LoaderThread n) a).
Proof.
  destruct a; try discriminate; intros Ha; simpl; split; repeat constructor; try done;
    try (by destruct c); eauto.
Qed.

Lemma all_dead_of w :
  (forall n t, threads w !! n = Some t -> is_alive t = true -> loader_thread w = Some n) ->
  loader_is_alive w = false -> all_dead w.
Proof.
  intros U Ha n t Hn. destruct (is_alive t) eqn:Ht; [|reflexivity].
  rewrite (loader_alive_of w n t Hn Ht (U n t Hn Ht)) in Ha. discriminate.
Qed.

(** *** The invariant is kept *)

Lemma main_step_inv self e a k r w w' :
  formats_plainly self ->
  sys_inv {| sys_world := w; sys_main := Some (Do a k) |} ->
  perform self e false MainThread a w = Some (r, w') ->
  sys_inv {| sys_world := w'; sys_main := Some (k r) |} /\ appended w' = appended w.
Proof.
  intros Hf (L & U & M & D & G) Hp. cbn [sys_world sys_main] in *.
  destruct (M _ eq_refl) as (c & Hc & Hdead). clear M.
  destruct (perform_frame _ _ _ _ _ _ _ _ Hp) as (Ft & Fl & Fd & Flog).
  destruct (handler_plain a) eqn:Hplain.
  - (* an action that leaves the threads and the flag alone *)
    destruct (handler_plain_log MainThread a Hplain) as [Hna Hok].
    assert (Et : threads w' = threads w) by (destruct a; try discriminate; exact Ft).
    assert (El : loader_thread w' = loader_thread w) by (destruct a; try discriminate; exact Fl).
    assert (Ed : is_destroyed w' = is_destroyed w) by (destruct a; try discriminate; exact Fd).
    split; [|by eapply appended_app].
    unfold sys_inv, all_dead. cbn [sys_world sys_main]. rewrite Et, El, Ed, Flog.
    split; [exact L|]. split; [exact U|]. split.
    { intros q [= <-]. exists c. split; [by eapply careful_plain_inv|exact Hdead]. }
    split.
    { intros Hdes n p Hn Harm. destruct (D Hdes n p Hn Harm) as (q & [= <-] & Hw).
      apply waits_not_plain in Hw as [Hw _]. congruence. }
    apply Forall_app. by split.
  - destruct a; try discriminate Hplain; cbn [careful] in Hc;
      try (destruct Hc as [Hc _]; congruence);
      (split; [|eapply appended_app; [exact Flog|simpl; try apply Forall_nil;
                                      by repeat constructor]]).
    + (* LoaderIsAlive *)
      simpl in Hp. injection Hp as <- <-. destruct Hc as [Hc1 Hc2].
      unfold sys_inv. cbn [sys_world sys_main].
      split; [exact L|]. split; [exact U|]. split.
      { intros q [= <-]. destruct (loader_is_alive w) eqn:Ha.
        - exists c. by split.
        - exists true. split; [exact Hc2|]. intros _. by apply all_dead_of. }
      split; [|exact G].
      intros Hdes n p Hn Harm. destruct (D Hdes n p Hn Harm) as (q & [= <-] & Hw).
      pose proof (armed_alive p Harm) as Hal.
      rewrite (loader_alive_of w n _ Hn Hal (U n _ Hn Hal)).
      eexists. split; [reflexivity|exact Hw].
    + (* ThreadCreate *)
      simpl in Hp. injection Hp as <- <-. destruct Hc as [-> Hc].
      specialize (Hdead eq_refl).
      assert (Hnew : forall n t,
        (threads w ++ [Unstarted target]) !! n = Some t -> is_alive t = false).
      { intros n t [H|[_ H]]%lookup_app_Some; [by eapply Hdead|].
        destruct (n - length (threads w)) as [|[|?]]; try discriminate.
        by injection H as <-. }
      unfold sys_inv, all_dead. cbn.
      split.
      { intros n p Hn. apply Hnew in Hn as Hd.
        apply lookup_app_Some in Hn as [Hn|[_ Hn]]; [by eapply L|].
        by destruct (n - length (threads w)) as [|[|?]]. }
      split.
      { intros n t Hn Ha. rewrite (Hnew n t Hn) in Ha. discriminate. }
      split.
      { intros q [= <-]. exists true. split; [apply Hc|]. intros _. exact Hnew. }
      split.
      { intros _ n p Hn Harm. pose proof (armed_alive p Harm) as Hal.
        rewrite (Hnew n _ Hn) in Hal. discriminate. }
      apply Forall_app. split; [exact G|]. repeat constructor; try done.
    + (* ThreadStart *)
      simpl in Hp. injection Hp as <- <-. destruct Hc as [-> Hc].
      specialize (Hdead eq_refl).
      assert (Hnew : forall n t,
        threads (thread_start self w) !! n = Some t ->
        is_alive t = true ->
        loader_thread w = Some n /\ exists target, t = Started (thread_code self target)).
      { unfold thread_start. cbn. intros n t.
        destruct (loader_thread w) as [m|] eqn:Hm;
          [|intros Hn Ha; by rewrite (Hdead n t Hn) in Ha].
        destruct (threads w !! m) as [[target|code]|] eqn:Htm;
          try (intros Hn Ha; by rewrite (Hdead n t Hn) in Ha).
        destruct (decide (n = m)) as [->|Hne].
        - rewrite list_lookup_insert_eq by (by eapply lookup_lt_Some).
          intros [= <-] _. eauto.
        - rewrite list_lookup_insert_ne by done.
          intros Hn Ha. by rewrite (Hdead n t Hn) in Ha. }
      unfold sys_inv. cbn [sys_world sys_main].
      change (threads (record _ _ ?x)) with (threads x).
      change (loader_thread (record _ _ ?x)) with (loader_thread w).
      change (is_destroyed (record _ _ ?x)) with (is_destroyed w).
      split.
      { intros n p Hn. destruct (is_alive (Started p)) eqn:Ha.
        - destruct (Hnew n _ Hn Ha) as (_ & target & [= ->]).
          exists false. by apply thread_code_guarded.
        - destruct p as [[]|a' k']; [|discriminate]. by exists false. }
      split.
      { intros n t Hn Ha. by destruct (Hnew n t Hn Ha). }
      split.
      { intros q [= <-]. exists false. split; [apply Hc|discriminate]. }
      split.
      { intros _ n p Hn Harm.
        destruct (Hnew n _ Hn (armed_alive p Harm)) as (_ & target & [= ->]).
        rewrite (guarded_armed _ _ (thread_code_guarded self target Hf)) in Harm.
        discriminate. }
      cbn. apply Forall_app. split; [exact G|]. repeat constructor; try done.
    + (* ThreadJoin *)
      simpl in Hp. destruct (loader_is_alive w) eqn:Ha; [discriminate|].
      injection Hp as <- <-.
      unfold sys_inv, all_dead. cbn.
      split; [exact L|]. split; [exact U|]. split.
      { intros q [= <-]. exists c. split; [apply Hc|exact Hdead]. }
      split.
      { intros Hdes n p Hn Harm. pose proof (armed_alive p Harm) as Hal.
        rewrite (loader_alive_of w n _ Hn Hal (U n _ Hn Hal)) in Ha. discriminate. }
      apply Forall_app. split; [exact G|]. repeat constructor; try done.
    + (* IsDestroyedSet *)
      simpl in Hp. injection Hp as <- <-.
      unfold sys_inv, all_dead. cbn.
      split; [exact L|]. split; [exact U|]. split.
      { intros q [= <-]. exists c. split; [apply Hc|exact Hdead]. }
      split.
      { intros _ n p Hn Harm. eexists. split; [reflexivity|apply Hc]. }
      apply Forall_app. split; [exact G|]. repeat constructor; try done.
Qed.

Lemma waits_busy (q : prog unit) : waits q -> main_idle (Some q) = false.
Proof. destruct q as [x|a k]; [done|]. simpl. by intros [_ H]%waits_not_plain. Qed.

Lemma loader_step_inv self e n a k r w w' main :
  formats_plainly self ->
  sys_inv {| sys_world := w; sys_main := main |} ->
  threads w !! n = Some (Started (Do a k)) ->
  perform self e (main_idle main) (LoaderThread n) a w = Some (r, w') ->
  sys_inv {| sys_world := set_thread n (k r) w'; sys_main := main |}
  /\ (is_destroyed w = true -> appended (set_thread n (k r) w') = appended w).
Proof.
  intros Hf (L & U & M & D & G) Hn Hp. cbn [sys_world sys_main] in *.
  destruct (L _ _ Hn) as [passed Hg].
  pose proof (U _ _ Hn eq_refl) as Hln.
  destruct (perform_frame _ _ _ _ _ _ _ _ Hp) as (Ft & Fl & Fd & Flog).
  (* what is needed of the action taken *)
  assert (Hkey :
    threads w' = threads w /\ loader_thread w' = loader_thread w
    /\ is_destroyed w' = is_destroyed w
    /\ Forall log_entry_ok (log_of (LoaderThread n) a)
    /\ (exists passed', guarded passed' (k r)
                        /\ (passed' = true -> is_destroyed w = false))
    /\ (is_destroyed w = true ->
        Forall (fun entry => is_append entry.2 = false) (log_of (LoaderThread n) a))).
  { destruct passed.
    - (* the append, after a passed test *)
      destruct Hg as [Ha Hk]. destruct a; try discriminate. destruct c; try discriminate.
      simpl in Hp. destruct (main_idle main) eqn:Hidle; [|discriminate].
      split; [exact Ft|]. split; [exact Fl|]. split; [exact Fd|].
      split; [repeat constructor; done|]. split.
      + exists false. split; [apply Hk|discriminate].
      + intros Hdes. destruct (D Hdes _ _ Hn eq_refl) as (q & -> & Hw).
        by rewrite (waits_busy q Hw) in Hidle.
    - destruct (loader_plain a) eqn:Hplain.
      + destruct (loader_plain_log n a Hplain) as [Hna Hok].
        split; [destruct a; try discriminate; assumption|].
        split; [destruct a; try discriminate; assumption|].
        split; [destruct a; try discriminate; assumption|].
        split; [exact Hok|]. split; [|intros _; exact Hna].
        exists false. split; [by eapply guarded_plain_inv|discriminate].
      + destruct a; try discriminate Hplain; cbn [guarded] in Hg;
          try (destruct Hg as [Hg _]; congruence).
        simpl in Hp. injection Hp as <- <-. destruct Hg as [Hg1 Hg2].
        split; [reflexivity|]. split; [reflexivity|]. split; [reflexivity|].
        split; [constructor|]. split; [|intros _; constructor].
        destruct (is_destroyed w).
        * exists false. split; [exact Hg1|discriminate].
        * exists true. by split. }
  destruct Hkey as (Et & El & Ed & Hok & (passed' & Hg' & Hpassed) & Happ).
  split.
  - unfold sys_inv, all_dead, set_thread. cbn. rewrite Et, El, Ed, Flog.
    split.
    { intros m p. destruct (decide (m = n)) as [->|Hne].
      - rewrite list_lookup_insert_eq by (by eapply lookup_lt_Some).
        intros [= <-]. eauto.
      - rewrite list_lookup_insert_ne by done. apply L. }
    split.
    { intros m t. destruct (decide (m = n)) as [->|Hne].
      - intros _ _. exact Hln.
      - rewrite list_lookup_insert_ne by done. apply U. }
    split.
    { intros q Hq. destruct (M q Hq) as (c & Hc & Hdead). exists c. split; [exact Hc|].
      intros Hct. pose proof (Hdead Hct n _ Hn) as Hd. discriminate. }
    split.
    { intros Hdes m p. destruct (decide (m = n)) as [->|Hne].
      - rewrite list_lookup_insert_eq by (by eapply lookup_lt_Some).
        intros [= <-] Harm. rewrite (guarded_armed _ _ Hg') in Harm.
        rewrite (Hpassed Harm) in Hdes. discriminate.
      - rewrite list_lookup_insert_ne by done. by apply D. }
    apply Forall_app. by split.
  - intros Hdes. unfold appended, set_thread. cbn. eapply appended_app; [exact Flog|by apply Happ].
Qed.

Lemma emit_frame s w :
  threads (emit s w) = threads w /\ loader_thread (emit s w) = loader_thread w
  /\ is_destroyed (emit s w) = is_destroyed w /\ log (emit s w) = log w.
Proof. by destruct s. Qed.

Lemma step_inv self s s' :
  formats_plainly self -> sys_inv s -> step self s s' ->
  sys_inv s'
  /\ (is_destroyed (sys_world s) = true ->
      appended (sys_world s') = appended (sys_world s)).
Proof.
  intros Hf Hinv Hstep. destruct Hstep as [sg p w Hh|e a k r w w' Hp|w|e n a k r w w' main Hn Hp].
  - destruct Hinv as (L & U & M & D & G). cbn [sys_world sys_main] in *.
    destruct (emit_frame sg w) as (Et & El & Ed & Elog).
    split; [|intros _; unfold appended; by rewrite Elog].
    unfold sys_inv, all_dead. cbn [sys_world sys_main]. rewrite Et, El, Ed, Elog.
    split; [exact L|]. split; [exact U|]. split.
    { intros q [= <-]. exists false. split; [by eapply handler_careful|discriminate]. }
    split; [|exact G].
    intros Hdes n q Hn Harm. by destruct (D Hdes n q Hn Harm) as (? & [=] & _).
  - destruct (main_step_inv self e a k r w w' Hf Hinv Hp) as [H1 H2]. by split.
  - destruct Hinv as (L & U & M & D & G). cbn [sys_world sys_main] in *.
    split; [|reflexivity].
    unfold sys_inv. cbn [sys_world sys_main].
    split; [exact L|]. split; [exact U|]. split; [discriminate|]. split; [|exact G].
    intros Hdes n q Hn Harm. by destruct (D Hdes n q Hn Harm) as (? & [= <-] & []).
  - exact (loader_step_inv self e n a k r w w' main Hf Hinv Hn Hp).
Qed.

Lemma reachable_inv self w0 s :
  formats_plainly self -> threads w0 = [] -> Forall log_entry_ok (log w0) ->
  reachable self w0 s -> sys_inv s.
Proof.
  intros Hf Ht Hlog. induction 1 as [|s s' _ IH Hstep].
  - unfold sys_inv. cbn [sys_world sys_main]. rewrite Ht.
    split; [by intros n p|]. split; [by intros n t|]. split; [discriminate|].
    split; [by intros _ n p|exact Hlog].
  - by destruct (step_inv self s s' Hf IH Hstep).
Qed.

Lemma signal_destroy_run self e w :
  run_main self e CampaignViewGenericTab.signal_destroy w
  = if loader_is_alive w then None
    else Some (tt, record MainThread IsDestroyedSet (set_is_destroyed true w)).
Proof.
  unfold run_main. simpl.
  change (loader_is_alive (record _ _ _)) with (loader_is_alive w).
  destruct (loader_is_alive w) eqn:Ha; simpl; [|reflexivity].
  change (loader_is_alive (record _ _ _)) with (loader_is_alive w). by rewrite Ha.
Qed.

Lemma step_keeps_destroyed self s s' :
  step self s s' -> is_destroyed (sys_world s) = true -> is_destroyed (sys_world s') = true.
Proof.
  intros Hstep Hdes.
  destruct Hstep as [sg p w Hh|e a k r w w' Hp|w|e n a k r w w' main Hn Hp];
    cbn [sys_world] in *.
  - by destruct sg.
  - destruct (perform_frame _ _ _ _ _ _ _ _ Hp) as (_ & _ & -> & _). by destruct a.
  - exact Hdes.
  - destruct (perform_frame _ _ _ _ _ _ _ _ Hp) as (_ & _ & Hd & _).
    unfold set_thread. cbn. rewrite Hd. by destruct a.
Qed.

Lemma steps_after_destroy self s s' :
  formats_plainly self -> sys_inv s -> rtc (step self) s s' ->
  is_destroyed (sys_world s) = true ->
  appended (sys_world s') = appended (sys_world s) /\ is_destroyed (sys_world s') = true.
Proof.
  intros Hf Hinv Hsteps. revert Hinv.
  induction Hsteps as [s|s s1 s' Hstep _ IH]; intros Hinv Hdes; [done|].
  destruct (step_inv self s s1 Hf Hinv Hstep) as [Hinv1 Happ].
  destruct (IH Hinv1 (step_keeps_destroyed _ _ _ Hstep Hdes)) as [H1 H2].
  split; [|exact H2]. rewrite H1. by apply Happ.
Qed.

(** *** [signal_destroy], step by step *)

Lemma destroy_inv_step self s s' :
  sys_inv s -> destroy_inv s -> step_within self s s' -> destroy_inv s'.
Proof.
  intros (_ & U & _) (q & Hq & Hd) [Hstep Hmain].
  destruct Hstep as [sg p w Hh|e a k r w w' Hp|w|e n a k r w w' main Hn Hp];
    cbn [sys_world sys_main] in *; try discriminate; try congruence.
  - injection Hq as <-. exists (k r). split; [reflexivity|].
    destruct Hd as [Hs|(Hdes & [Hc|[Hj|[[] _]]])].
    + destruct a; try contradiction. simpl in Hp. injection Hp as <- <-.
      right. split; [reflexivity|]. left. apply Hs.
    + destruct a; try contradiction. simpl in Hp. injection Hp as <- <-.
      right. split; [exact Hdes|]. destruct Hc as [Hc1 Hc2].
      destruct (loader_is_alive w) eqn:Ha; [right; by left|right; right; by split].
    + destruct a; try contradiction. simpl in Hp.
      destruct (loader_is_alive w) eqn:Ha; [discriminate|]. injection Hp as <- <-.
      right. split; [exact Hdes|]. right. right. split; [apply Hj|exact Ha].
  - exists q. split; [exact Hq|].
    destruct Hd as [Hs|(Hdes & Hd)]; [by left|right].
    destruct (perform_frame _ _ _ _ _ _ _ _ Hp) as (_ & _ & Fd & _).
    split.
    { unfold set_thread. cbn. rewrite Fd, Hdes. by destruct a. }
    destruct Hd as [Hc|[Hj|[_ Ha]]]; [by left|right; by left|].
    rewrite (loader_alive_of w n _ Hn eq_refl (U n _ Hn eq_refl)) in Ha. discriminate.
Qed.

Lemma steps_within_destroy self s s' :
  formats_plainly self -> sys_inv s -> destroy_inv s -> rtc (step_within self) s s' ->
  sys_inv s' /\ destroy_inv s'.
Proof.
  intros Hf Hinv Hd Hsteps. induction Hsteps as [s|s s1 s' Hstep _ IH]; [done|].
  apply IH.
  - by destruct (step_inv self s s1 Hf Hinv (proj1 Hstep)).
  - by eapply destroy_inv_step.
Qed.

(** C3. In every run of the main thread and the loader threads of a tab,
    from the moment [is_destroyed] is set no step appends a row: however the
    run goes on, the rows appended according to the log stay as they are, and
    the flag stays set.  In every run of the loader routine, an append comes
    right after a test of [is_destroyed] that answered false, and a test that
    answers true is the last action of the routine.  And [signal_destroy]
    joins a live loader: when the main thread has taken up the handler and,
    however its steps and those of the loader threads interleave, stands at
    the return of the handler, the flag is set and no thread is alive, the
    loader the tab refers to included. *)
Theorem no_append_after_destroy (self : tab_class) (w0 : world) (s s' : system) :
  (forall row_data, only is_row_lookup (format_row_data self row_data)) ->
  threads w0 = [] -> log w0 = [] ->
  reachable (GenericTab self) w0 s -> rtc (step (GenericTab self)) s s' ->
  (is_destroyed (sys_world s) = true ->
   appended (sys_world s') = appended (sys_world s)
   /\ is_destroyed (sys_world s') = true)
  /\ (forall store t,
        runs (CampaignViewGenericTab.row_loader_thread_routine self store) t tt ->
        forall t1 ev t2, t = t1 ++ ev :: t2 ->
          (tested_destroyed true ev = true -> t2 = []) /\
          (is_append (ev_action ev) = true ->
           exists t0 ev0, t1 = t0 ++ [ev0] /\ tested_destroyed false ev0 = true))
  /\ (forall s1 s2 x,
        reachable (GenericTab self) w0 s1 ->
        sys_main s1 = Some CampaignViewGenericTab.signal_destroy ->
        rtc (step_within (GenericTab self)) s1 s2 ->
        sys_main s2 = Some (Ret x) ->
        is_destroyed (sys_world s2) = true
        /\ loader_is_alive (sys_world s2) = false
        /\ all_dead (sys_world s2)).
Proof.
  intros Hf Ht Hlog Hreach Hsteps.
  assert (Hinv : forall s0, reachable (GenericTab self) w0 s0 -> sys_inv s0).
  { intros s0 H0. eapply (reachable_inv (GenericTab self)); try eassumption.
    rewrite Hlog. constructor. }
  split; [|split].
  - intros Hdes.
    by apply (steps_after_destroy (GenericTab self) s s' Hf (Hinv s Hreach) Hsteps).
  - intros store t Hr. apply tested_spec. by eapply row_loader_thread_routine_tested.
  - intros s1 s2 x H1 Hm Hw Hx.
    assert (Hd1 : destroy_inv s1).
    { exists CampaignViewGenericTab.signal_destroy. split; [exact Hm|]. left.
      unfold CampaignViewGenericTab.signal_destroy. simpl. intros _.
      split; [intros _; exact I|exact I]. }
    destruct (steps_within_destroy (GenericTab self) s1 s2 Hf (Hinv s1 H1) Hd1 Hw)
      as [Hinv2 (q & Hq & Hd2)].
    rewrite Hx in Hq. injection Hq as <-.
    destruct Hd2 as [[]|(Hdes & [[]|[[]|[_ Ha]]])].
    split; [exact Hdes|]. split; [exact Ha|].
    destruct Hinv2 as (_ & U & _). by apply all_dead_of.
Qed.

(** X22. With every call made by the main thread, at most one loader thread is
    alive: the one the tab refers to. *)
Corollary one_loader_alive_on_main_thread (self : tab_object) (w0 : world) (s : system) :
  formats_plainly self -> threads w0 = [] -> log w0 = [] ->
  reachable self w0 s ->
  forall n m t t',
    threads (sys_world s) !! n = Some t -> is_alive t = true ->
    threads (sys_world s) !! m = Some t' -> is_alive t' = true ->
    n = m.
Proof.
  intros Hf Ht Hlog Hreach n m t t' Hn Ha Hm Ha'.
  assert (Hinv : sys_inv s).
  { eapply (reachable_inv self); try eassumption. rewrite Hlog. constructor. }
  destruct Hinv as (_ & U & _).
  pose proof (U n t Hn Ha) as H1. pose proof (U m t' Hm Ha') as H2. congruence.
Qed.

Lemma thread_code_worker self target :
  formats_plainly self -> only worker_action (thread_code self target).
Proof.
  intros Hf. apply thread_code_only; [exact Hf| |].
  - intros a. destruct a; try discriminate; try reflexivity. by destruct c.
  - intros a. destruct a; try exact I; try reflexivity. by destruct c.
Qed.

(** C8. The row fetch is made by the loader thread, and what a load changes
    in the GUI is handed to the main thread through [glib_idle_add_wait].
    Run on a tab that is not destroyed, the loader routine of a tab logs
    exactly [load_log]: the tree view set insensitive, handed over and then
    called by the main thread; the fetch of the table, by the loader; for
    each row its look-ups and the append of its cells, handed over and then
    called by the main thread, or the delete RPC; the tree view set sensitive,
    handed over likewise; the time of the load.  The loader routine of the
    dashboard logs exactly the refresh of each graph, handed over and then
    called by the main thread, and the time of the load.  The code of a loader
    thread makes no GTK call of its own.  And in every run of the main thread
    and the loader threads, however they interleave, every GTK call in the
    log was made by the main thread and every fetch of the rows of a remote
    table by a loader thread. *)
Theorem gui_calls_on_main_thread (self : tab_object) (w0 : world) (s : system) :
  formats_plainly self ->
  threads w0 = [] -> Forall log_entry_ok (log w0) ->
  reachable self w0 s ->
  Forall log_entry_ok (log (sys_world s))
  /\ (forall target, only worker_action (thread_code self target))
  /\ (forall e n w,
        match self with
        | GenericTab cls =>
            forall store, is_destroyed w = false ->
            exists w',
              run_loader self e n (thread_code self (RowLoaderRoutine store)) w = Some (tt, w')
              /\ log w' = log w ++ load_log cls e (LoaderThread n) store
        | DashboardTab graphs =>
            exists w',
              run_loader self e n (thread_code self DashboardLoaderRoutine) w = Some (tt, w')
              /\ log w' = log w
                          ++ (refresh_calls e graphs ∅ ≫= refresh_entries (LoaderThread n))
                          ++ [(LoaderThread n, SetLastLoadTime (env_time e))]
        end).
Proof.
  intros Hf Ht Hlog Hreach. split; [|split].
  - by destruct (reachable_inv self w0 s Hf Ht Hlog Hreach) as (_ & _ & _ & _ & G).
  - intros target. by apply thread_code_worker.
  - intros e n w. destruct self as [cls|graphs].
    + intros store Hd. eexists. split.
      * by apply (run_row_loader_thread_routine_log cls e n store w Hf Hd).
      * reflexivity.
    + eexists. split; [apply run_loader_thread_routine|reflexivity].
Qed.

(** ** Callers racing for the lock of the dashboard *)

Lemma perform_lock_frame self e idle th a w r w' :
  perform self e idle th a w = Some (r, w') ->
  match a with
  | LockAcquire | LockRelease => True
  | _ => loader_thread_lock w' = loader_thread_lock w
  end.
Proof.
  destruct a; simpl; try done; try (by intros [= <- <-]).
  - destruct (loader_is_alive w); [discriminate|]. by intros [= <- <-].
  - destruct c; simpl; by intros [= <- <-].
  - destruct (idle && negb (bool_decide (th = MainThread))); [|discriminate].
    destruct c; simpl; by intros [= <- <-].
Qed.

Lemma dashboard_load_locked force :
  locked Outside (CampaignViewDashboardTab.load_campaign_information force).
Proof.
  unfold CampaignViewDashboardTab.load_campaign_information, not_stale.
  destruct force; simpl;
    repeat match goal with
           | |- _ /\ _ => split
           | |- _ = _ => reflexivity
           | |- _ <> _ => discriminate
           | |- forall _, _ => intro; simpl
           | |- locked _ (match ?x with _ => _ end) => destruct x; simpl
           end.
Qed.

Lemma race_step graphs e i a k r callers w w' :
  race_inv callers w ->
  callers !! i = Some (Do a k) ->
  perform (DashboardTab graphs) e false (OtherThread i) a w = Some (r, w') ->
  race_inv (<[i := k r]> callers) w'.
Proof.
  intros (modes & owner & Hlock & Hlen & Hc & Ho & U) Hi Hp.
  pose proof (lookup_lt_Some _ _ _ Hi) as Hlt.
  destruct (lookup_lt_is_Some_2 modes i ltac:(lia)) as [m Hm].
  destruct (Hc i _ m Hi Hm) as (Hl & Hown & Hcl).
  (* two callers inside the lock are the same caller *)
  assert (Hsame : forall j mj, modes !! j = Some mj -> mj <> Outside -> m <> Outside -> j = i).
  { intros j mj Hj Hmj Hmi.
    destruct (lookup_lt_is_Some_2 callers j) as [pj Hpj];
      [rewrite <- Hlen; by eapply lookup_lt_Some|].
    destruct (Hc j pj mj Hpj Hj) as (_ & Hoj & _).
    pose proof (Hoj Hmj) as H1. pose proof (Hown Hmi) as H2. congruence. }
  (* the state after the step, given the mode the caller is left in and what
     the action changed *)
  assert (Hnext : forall m' owner',
    loader_thread_lock w' = ReentrantLock owner' ->
    locked m' (k r) ->
    (m' <> Outside -> owner' = Some (OtherThread i, 1)) ->
    (m' = Cleared -> all_dead w') ->
    (forall j pj mj, j <> i -> callers !! j = Some pj -> modes !! j = Some mj ->
       (mj <> Outside -> owner' = Some (OtherThread j, 1)) /\ (mj = Cleared -> all_dead w')) ->
    (forall th c, owner' = Some (th, c) ->
       th = OtherThread i /\ m' <> Outside
       \/ exists j mj, j <> i /\ th = OtherThread j /\ modes !! j = Some mj /\ mj <> Outside) ->
    (forall n t, threads w' !! n = Some t -> is_alive t = true -> loader_thread w' = Some n) ->
    race_inv (<[i := k r]> callers) w').
  { intros m' owner' H1 H2 H3 H4 H5 H6 H7.
    exists (<[i := m']> modes), owner'. split; [exact H1|]. split.
    { by rewrite !length_insert. }
    split.
    { intros j pj mj. destruct (decide (j = i)) as [->|Hne].
      - rewrite !list_lookup_insert_eq by lia. intros [= <-] [= <-]. auto.
      - rewrite !list_lookup_insert_ne by done. intros Hpj Hmj.
        destruct (Hc j pj mj Hpj Hmj) as (Hlj & _ & _).
        destruct (H5 j pj mj Hne Hpj Hmj) as [H8 H9]. auto. }
    split; [|exact H7].
    intros th c Hth. destruct (H6 th c Hth) as [[-> Hm']|(j & mj & Hne & -> & Hj & Hmj)].
    - exists i, m'. rewrite list_lookup_insert_eq by lia. auto.
    - exists j, mj. rewrite list_lookup_insert_ne by done. auto. }
  pose proof (perform_frame _ _ _ _ _ _ _ _ Hp) as (Ft & Fl & _ & _).
  pose proof (perform_lock_frame _ _ _ _ _ _ _ _ Hp) as Fk.
  destruct (lock_plain a) eqn:Hplain.
  - (* neither the lock nor the threads *)
    assert (Hk : forall r, locked m (k r)) by (destruct a; try discriminate; apply Hl).
    assert (Et : threads w' = threads w) by (destruct a; try discriminate; exact Ft).
    assert (El : loader_thread w' = loader_thread w) by (destruct a; try discriminate; exact Fl).
    assert (Ek : loader_thread_lock w' = loader_thread_lock w)
      by (destruct a; try discriminate; exact Fk).
    apply (Hnext m owner); unfold all_dead; rewrite ?Et, ?El, ?Ek; try done.
    + intros j pj mj Hne Hpj Hmj. destruct (Hc j pj mj Hpj Hmj) as (_ & H1 & H2). auto.
    + intros th c Hth. destruct (Ho th c Hth) as (j & mj & -> & Hj & Hmj).
      destruct (decide (j = i)) as [->|Hne]; [left; split; congruence|right; eauto 6].
  - destruct a; try discriminate Hplain; cbn [locked] in Hl;
      try (destruct Hl as [Hl _]; congruence).
    + (* LoaderIsAlive *)
      simpl in Hp. injection Hp as <- <-. destruct Hl as (Hmo & Hl1 & Hl2).
      destruct (loader_is_alive w) eqn:Ha.
      * apply (Hnext m owner); try done.
        -- intros j pj mj Hne Hpj Hmj. destruct (Hc j pj mj Hpj Hmj) as (_ & H1 & H2). auto.
        -- intros th c Hth. left. destruct (Ho th c Hth) as (j & mj & -> & Hj & Hmj).
           by rewrite (Hsame j mj Hj Hmj Hmo).
      * apply (Hnext Cleared owner); try done.
        -- intros _. by apply Hown.
        -- intros _. by apply all_dead_of.
        -- intros j pj mj Hne Hpj Hmj. destruct (Hc j pj mj Hpj Hmj) as (_ & H1 & H2). auto.
        -- intros th c Hth. left. destruct (Ho th c Hth) as (j & mj & -> & Hj & Hmj).
           by rewrite (Hsame j mj Hj Hmj Hmo).
    + (* LockAcquire *)
      destruct Hl as [-> Hl]. simpl in Hp. rewrite Hlock in Hp.
      destruct owner as [[o c]|]; simpl in Hp.
      * destruct (decide (o = OtherThread i)) as [->|Hne]; [|discriminate].
        destruct (Ho _ _ eq_refl) as (j & mj & [= <-] & Hj & Hmj). congruence.
      * injection Hp as <- <-. apply (Hnext Inside (Some (OtherThread i, 1))); try done.
        -- intros j pj mj Hne Hpj Hmj. destruct (Hc j pj mj Hpj Hmj) as (_ & H1 & H2).
           split; [|exact H2]. intros Hmj'. by specialize (H1 Hmj').
        -- intros th c [= <- <-]. by left.
    + (* LockRelease *)
      destruct Hl as [Hmo Hl]. simpl in Hp. rewrite Hlock, (Hown Hmo) in Hp. simpl in Hp.
      rewrite decide_True in Hp by done. injection Hp as <- <-.
      apply (Hnext Outside None); try done.
      intros j pj mj Hne Hpj Hmj. destruct (Hc j pj mj Hpj Hmj) as (_ & H1 & H2).
      split.
      * intros Hmj'. by destruct (Hne (Hsame j mj Hmj Hmj' Hmo)).
      * exact H2.
    + (* ThreadCreate *)
      destruct Hl as [-> Hl]. simpl in Hp. injection Hp as <- <-.
      specialize (Hcl eq_refl).
      assert (Hnew : all_dead (record (OtherThread i) (ThreadCreate target)
                                 (thread_create target w))).
      { intros n t. cbn. intros [H|[_ H]]%lookup_app_Some; [by eapply Hcl|].
        destruct (n - length (threads w)) as [|[|?]]; try discriminate.
        by injection H as <-. }
      apply (Hnext Cleared owner); try done.
      * intros j pj mj Hne Hpj Hmj. destruct (Hc j pj mj Hpj Hmj) as (_ & H1 & H2). auto.
      * intros th c Hth. left. destruct (Ho th c Hth) as (j & mj & -> & Hj & Hmj).
        by rewrite (Hsame j mj Hj Hmj ltac:(discriminate)).
      * intros n t Hn Ha. by rewrite (Hnew n t Hn) in Ha.
    + (* ThreadStart *)
      destruct Hl as [-> Hl]. simpl in Hp. injection Hp as <- <-.
      specialize (Hcl eq_refl).
      apply (Hnext Inside owner); try done.
      * intros _. by apply Hown.
      * intros j pj mj Hne Hpj Hmj. destruct (Hc j pj mj Hpj Hmj) as (_ & H1 & H2).
        split; [exact H1|]. intros ->.
        by destruct (Hne (Hsame j Cleared Hmj ltac:(discriminate) ltac:(discriminate))).
      * intros th c Hth. left. destruct (Ho th c Hth) as (j & mj & -> & Hj & Hmj).
        by rewrite (Hsame j mj Hj Hmj ltac:(discriminate)).
      * unfold thread_start. cbn. intros n t.
        destruct (loader_thread w) as [l|] eqn:Hlt';
          [|intros Hn Ha; by rewrite (Hcl n t Hn) in Ha].
        destruct (threads w !! l) as [[target|code]|] eqn:Htl;
          try (intros Hn Ha; by rewrite (Hcl n t Hn) in Ha).
        destruct (decide (n = l)) as [->|Hne]; [done|].
        rewrite list_lookup_insert_ne by done.
        intros Hn Ha. by rewrite (Hcl n t Hn) in Ha.
Qed.

Lemma interleave_race_inv graphs e schedule callers w :
  race_inv callers w ->
  race_inv (interleave (DashboardTab graphs) e schedule callers w).1
           (interleave (DashboardTab graphs) e schedule callers w).2.
Proof.
  revert callers w. induction schedule as [|i schedule IH]; intros callers w Hinv; [done|].
  simpl. destruct (callers !! i) as [[x|a k]|] eqn:Hi; try by apply IH.
  destruct (perform (DashboardTab graphs) e false (OtherThread i) a w) as [[r w']|] eqn:Hp;
    [|by apply IH].
  apply IH. by eapply race_step.
Qed.

Lemma alive_threads_le w m :
  (forall n t, threads w !! n = Some t -> is_alive t = true -> m = Some n) ->
  alive_threads w <= 1.
Proof.
  unfold alive_threads. generalize (threads w). intros ts H.
  assert (Hall : forall ts' n0,
    (forall n t, ts' !! n = Some t -> is_alive t = true -> m = Some (n0 + n)) ->
    length (List.filter is_alive ts') <= 1).
  { clear. induction ts' as [|t ts' IH]; intros n0 H; simpl; [lia|].
    destruct (is_alive t) eqn:Ht.
    - simpl. pose proof (H 0 t eq_refl Ht) as Hm.
      assert (Hnone : List.filter is_alive ts' = []).
      { clear IH. revert H. generalize 0. intros _ H.
        assert (Hd : forall n t', ts' !! n = Some t' -> is_alive t' = false).
        { intros n t' Hn. destruct (is_alive t') eqn:Ht'; [|done].
          pose proof (H (S n) t' Hn Ht') as Hm'. rewrite Hm in Hm'. injection Hm'. lia. }
        clear -Hd. induction ts' as [|t' ts' IH]; [done|]. simpl.
        rewrite (Hd 0 t' eq_refl). apply IH. intros n t''. apply (Hd (S n) t''). }
      rewrite Hnone. simpl. lia.
    - apply (IH (S n0)). intros n t' Hn Ht'.
      replace (S n0 + n) with (n0 + S n) by lia. by apply (H (S n) t'). }
  by apply (Hall ts 0).
Qed.

(** X23. With the check inside the lock, callers of the dashboard's
    [load_campaign_information] on any number of threads, interleaved in any
    way, leave one loader thread alive at most. *)
Lemma dashboard_one_loader_alive graphs e schedule forces w0 :
  threads w0 = [] -> loader_thread_lock w0 = ReentrantLock None ->
  alive_threads
    (interleave (DashboardTab graphs) e schedule
       (CampaignViewDashboardTab.load_campaign_information <$> forces) w0).2 <= 1.
Proof.
  intros Ht Hl.
  assert (Hinv : race_inv (CampaignViewDashboardTab.load_campaign_information <$> forces) w0).
  { exists (replicate (length forces) Outside), None. split; [exact Hl|]. split.
    { by rewrite length_replicate, length_fmap. }
    split.
    { intros i p m Hp [-> _]%lookup_replicate.
      rewrite list_lookup_fmap in Hp.
      destruct (forces !! i) as [force|]; [|discriminate]. injection Hp as <-.
      split; [apply dashboard_load_locked|]. split; [done|discriminate]. }
    split; [discriminate|]. rewrite Ht. by intros n t. }
  apply (interleave_race_inv graphs e schedule) in Hinv
    as (_ & _ & _ & _ & _ & _ & U).
  by eapply alive_threads_le.
Qed.

(** ** The loader lock *)

Lemma not_stale_under_lock {A} force (f : bool -> prog A) t x held :
  runs (fresh <~ not_stale force; f fresh) t x ->
  exists fresh t', runs (f fresh) t' x /\ under_lock held (actions t) = under_lock held (actions t').
Proof.
  destruct force; simpl.
  - intros H. by exists false, t.
  - intros (now & t1 & -> & last & t2 & -> & freq & t3 & -> & H). simpl in H.
    by exists (elapsed_lt now last freq), t3.
Qed.

(** C2, on the code.  Every run of the forced [load_campaign_information] of
    [CampaignViewGenericTab] checks whether the loader is alive before it
    takes the lock, while every run of the one of [CampaignViewDashboardTab]
    makes the check, the creation and the start with the lock held.  Two
    forced calls on a fresh messages tab from two threads, the second making
    its check before the first takes the lock, leave two loader threads
    alive. *)
Theorem generic_alive_check_outside_lock :
  (forall self t,
     runs (CampaignViewGenericTab.load_campaign_information self true) t tt ->
     under_lock false (actions t) = false)
  /\ (forall force t,
        runs (CampaignViewDashboardTab.load_campaign_information force) t tt ->
        under_lock false (actions t) = true)
  /\ alive_threads
       (interleave (GenericTab (CampaignViewMessagesTab.cls sample_format_datetime))
          sample_env racing_schedule racing_callers sample_messages_tab).2 = 2.
Proof.
  split; [|split].
  - intros self t. simpl. by intros (alive & t' & -> & _).
  - intros force t Hr.
    apply (not_stale_under_lock _ _ _ _ false) in Hr as (fresh & t' & Hr & ->).
    destruct fresh; simpl in Hr.
    { by destruct Hr as [-> _]. }
    destruct Hr as (has_rpc & t1 & -> & Hr). destruct has_rpc; simpl in Hr.
    + destruct Hr as ([] & t2 & -> & alive & t3 & -> & Hr). destruct alive; simpl in Hr.
      * by destruct Hr as ([] & t4 & -> & -> & _).
      * by destruct Hr as ([] & t4 & -> & [] & t5 & -> & [] & t6 & -> & -> & _).
    + by destruct Hr as ([] & t2 & -> & -> & _).
  - vm_compute. reflexivity.
Qed.

(** ** The theorems at sample inputs *)

(** C1 on the messages tab, loaded at time 100 and asked again at time 200
    with a refresh frequency of 300. *)
Lemma load_campaign_information_staleness_witness :
  elapsed_lt (env_time sample_env) (last_load_time sample_loaded_tab)
    (refresh_frequency sample_loaded_tab) = true
  /\ run_main (GenericTab sample_messages_cls) sample_env
       (CampaignViewTab.load_campaign_information (GenericTab sample_messages_cls) false)
       sample_loaded_tab
     = Some (tt, sample_loaded_tab)
  /\ exists w',
       run_main (GenericTab sample_messages_cls) sample_env
         (CampaignViewTab.load_campaign_information (GenericTab sample_messages_cls) true)
         sample_loaded_tab
       = Some (tt, w')
       /\ loader_is_alive w' = true
       /\ last_load_time w' = last_load_time sample_loaded_tab.
Proof.
  assert (H : elapsed_lt (env_time sample_env) (last_load_time sample_loaded_tab)
                (refresh_frequency sample_loaded_tab) = true) by reflexivity.
  destruct (load_campaign_information_staleness (GenericTab sample_messages_cls)
              sample_env sample_loaded_tab H) as [H1 H2].
  split; [exact H|]. split; [exact H1|].
  apply H2; [reflexivity|exists (PlainLock true); reflexivity|discriminate].
Defined.

(** C3 on the messages tab: the loader has appended the first of two rows
    when the main thread takes up [signal_destroy]; the handler sets the flag,
    finds the loader alive and joins it; the loader tests the flag and
    returns without the second row; the join lets the handler through. *)
Lemma no_append_after_destroy_witness :
  reachable (GenericTab sample_messages_cls) sample_messages_tab sample_destroy_flagged
  /\ rtc (step (GenericTab sample_messages_cls)) sample_destroy_flagged sample_destroy_joined
  /\ is_destroyed (sys_world sample_destroy_flagged) = true
  /\ loader_is_alive (sys_world sample_destroy_flagged) = true
  /\ length (appended (sys_world sample_destroy_flagged)) = 2
  /\ appended (sys_world sample_destroy_joined) = appended (sys_world sample_destroy_flagged)
  /\ sys_main sample_destroy_taken = Some CampaignViewGenericTab.signal_destroy
  /\ loader_is_alive (sys_world sample_destroy_taken) = true
  /\ rtc (step_within (GenericTab sample_messages_cls)) sample_destroy_taken
       sample_destroy_joined
  /\ sys_main sample_destroy_joined = Some (Ret tt)
  /\ is_destroyed (sys_world sample_destroy_joined) = true
  /\ loader_is_alive (sys_world sample_destroy_joined) = false.
Proof.
  assert (Hf : forall row_data,
             only is_row_lookup (format_row_data sample_messages_cls row_data))
    by (intros row_data; exact I).
  assert (Hr : reachable (GenericTab sample_messages_cls) sample_messages_tab
                 sample_destroy_flagged).
  { apply (sched_run_reachable _
             (sample_load_steps ++ sample_loader_steps
              ++ [TakeSignal SigDestroy; MainStep sample_table_env])).
    vm_compute. reflexivity. }
  assert (Hs : rtc (step (GenericTab sample_messages_cls)) sample_destroy_flagged
                 sample_destroy_joined).
  { apply (sched_run_rtc _ sample_join_steps). vm_compute. reflexivity. }
  assert (Hr1 : reachable (GenericTab sample_messages_cls) sample_messages_tab
                  sample_destroy_taken).
  { apply (sched_run_reachable _
             (sample_load_steps ++ sample_loader_steps ++ [TakeSignal SigDestroy])).
    vm_compute. reflexivity. }
  assert (Hm : sys_main sample_destroy_taken = Some CampaignViewGenericTab.signal_destroy)
    by (vm_compute; reflexivity).
  assert (Hw : rtc (step_within (GenericTab sample_messages_cls)) sample_destroy_taken
                 sample_destroy_joined).
  { apply (sched_run_within_rtc _ (MainStep sample_table_env :: sample_join_steps)).
    vm_compute. reflexivity. }
  assert (Hx : sys_main sample_destroy_joined = Some (Ret tt)) by (vm_compute; reflexivity).
  assert (Hdes : is_destroyed (sys_world sample_destroy_flagged) = true)
    by (vm_compute; reflexivity).
  destruct (no_append_after_destroy sample_messages_cls sample_messages_tab
              sample_destroy_flagged sample_destroy_joined Hf eq_refl eq_refl Hr Hs)
    as (H1 & _ & H3).
  destruct (H1 Hdes) as [H1a H1b].
  destruct (H3 sample_destroy_taken sample_destroy_joined tt Hr1 Hm Hw Hx) as (H3a & H3b & _).
  split; [exact Hr|]. split; [exact Hs|]. split; [exact Hdes|].
  split; [vm_compute; reflexivity|]. split; [vm_compute; reflexivity|].
  split; [exact H1a|]. split; [exact Hm|]. split; [vm_compute; reflexivity|].
  split; [exact Hw|]. split; [exact Hx|]. split; [exact H3a|exact H3b].
Defined.

(** C4 on the messages tab and on the sample dashboard: the run of the
    loader over the two sample rows assigns the time once, at its end; the
    run ended by the flag at the second row assigns nothing. *)
Lemma last_load_time_set_once_per_load_witness :
  runs (CampaignViewGenericTab.row_loader_thread_routine sample_messages_cls 0)
    sample_loader_trace_full tt
  /\ runs (CampaignViewGenericTab.row_loader_thread_routine sample_messages_cls 0)
       sample_loader_trace_early tt
  /\ dashboard__init__ sample_timedef_to_seconds sample_config sample_get_graph dash_ports
     = Some sample_dashboard
  /\ last_load_time sample_messages_tab = NegInf
  /\ last_load_time sample_dashboard.2 = NegInf
  /\ (exists w', run_main (DashboardTab sample_dashboard.1) sample_table_env
                   (CampaignViewDashboardTab.load_campaign_information false)
                   sample_dashboard.2 = Some (tt, w')
                 /\ loader_is_alive w' = true)
  /\ (exists tl,
        sample_loader_trace_full
        = take 3 sample_loader_trace_full ++ tl
          ++ [Ev (GlibIdleAddWait (TreeviewSetSensitive true)) tt;
              Ev TimeTime 200%Z; Ev (SetLastLoadTime 200) tt]
        /\ loop_trace sample_messages_cls 0 sample_message_rows tl true
        /\ Forall (fun ev => is_set_last_load_time (ev_action ev) = false) tl)
  /\ (exists tl,
        sample_loader_trace_early = take 3 sample_loader_trace_early ++ tl
        /\ loop_trace sample_messages_cls 0 sample_message_rows tl false
        /\ Forall (fun ev => is_set_last_load_time (ev_action ev) = false) tl).
Proof.
  assert (Hf : forall row_data,
             only is_row_lookup (format_row_data sample_messages_cls row_data))
    by (intros row_data; exact I).
  assert (Hfull : runs (CampaignViewGenericTab.row_loader_thread_routine
                          sample_messages_cls 0) sample_loader_trace_full tt).
  { unfold sample_loader_trace_full. simpl.
    repeat (eexists; eexists; split; [reflexivity|]). split; reflexivity. }
  assert (Hearly : runs (CampaignViewGenericTab.row_loader_thread_routine
                           sample_messages_cls 0) sample_loader_trace_early tt).
  { unfold sample_loader_trace_early. simpl.
    repeat (eexists; eexists; split; [reflexivity|]). split; reflexivity. }
  assert (Hd : dashboard__init__ sample_timedef_to_seconds sample_config sample_get_graph
                 dash_ports = Some sample_dashboard) by (vm_compute; reflexivity).
  destruct (last_load_time_set_once_per_load sample_timedef_to_seconds sample_config
              sample_get_graph dash_ports false sample_messages_cls 0 sample_table_env
              sample_loader_trace_full Hf Hfull)
    as ([H1 H1d] & _ & _ & H4 & (campaign_id & rows & tl & completed & now & Ht & Hl & Hn) & _).
  destruct (last_load_time_set_once_per_load sample_timedef_to_seconds sample_config
              sample_get_graph dash_ports false sample_messages_cls 0 sample_table_env
              sample_loader_trace_early Hf Hearly)
    as (_ & _ & _ & _ & (campaign_id' & rows' & tl' & completed' & now' & Ht' & Hl' & Hn')
        & _).
  split; [exact Hfull|]. split; [exact Hearly|]. split; [exact Hd|]. split; [exact H1|].
  split; [exact (H1d _ Hd)|]. split; [exact (H4 eq_refl _ Hd)|]. split.
  - assert (Hrows : rows = sample_message_rows).
    { apply (f_equal (fun t => default [] (fetched_rows <$> t !! 2))) in Ht. by simpl in Ht. }
    subst rows. unfold sample_loader_trace_full in Ht. cbn [app] in Ht.
    do 3 (apply (f_equal tail) in Ht; cbn [tail] in Ht).
    exists tl. destruct completed.
    + assert (Hlen : length tl = 4).
      { apply (f_equal length) in Ht. rewrite length_app in Ht. simpl in Ht. lia. }
      do 5 (destruct tl as [|? tl]; try discriminate Hlen).
      cbn [app] in Ht.
      assert (Hnow : now = 200%Z).
      { apply (f_equal (fun t => default 0%Z (set_time <$> t !! 6))) in Ht. by simpl in Ht. }
      subst now. split; [|by split].
      unfold sample_loader_trace_full. cbn [take app]. by rewrite Ht.
    + rewrite app_nil_r in Ht. subst tl.
      pose proof (Forall_lookup_1 _ _ 6 _ Hn eq_refl) as Hbad. discriminate Hbad.
  - assert (Hrows : rows' = sample_message_rows).
    { apply (f_equal (fun t => default [] (fetched_rows <$> t !! 2))) in Ht'.
      by simpl in Ht'. }
    subst rows'. unfold sample_loader_trace_early in Ht'. cbn [app] in Ht'.
    do 3 (apply (f_equal tail) in Ht'; cbn [tail] in Ht').
    exists tl'. destruct completed'.
    + assert (Hlen : length tl' = 0).
      { apply (f_equal length) in Ht'. rewrite length_app in Ht'. simpl in Ht'. lia. }
      destruct tl' as [|? tl']; [|discriminate Hlen].
      cbn [app] in Ht'. discriminate Ht'.
    + rewrite app_nil_r in Ht'. subst tl'. by split.
Defined.

(** C5 on the sample dashboard: the configuration names a graph for each
    dash port, two of them found. *)
Lemma dashboard_timeout_repeats_witness :
  dashboard__init__ sample_timedef_to_seconds sample_config sample_get_graph dash_ports
  = Some sample_dashboard
  /\ length sample_dashboard.1 = 2
  /\ timeouts sample_dashboard.2 = [(300%Z, LoaderIdleRoutine)]
  /\ exists w',
       fire_timeout (DashboardTab sample_dashboard.1) sample_env 0 sample_dashboard.2
       = Some w'
       /\ timeouts w' = [(300%Z, LoaderIdleRoutine)]
       /\ loader_is_alive w' = true.
Proof.
  assert (Hd : dashboard__init__ sample_timedef_to_seconds sample_config sample_get_graph
                 dash_ports = Some sample_dashboard) by (vm_compute; reflexivity).
  destruct (dashboard_timeout_repeats sample_timedef_to_seconds sample_config
              sample_get_graph dash_ports sample_env sample_dashboard Hd)
    as (H1 & H2 & _ & _ & _ & _ & (w' & H7 & H8 & H9)).
  split; [exact Hd|]. split; [vm_compute; reflexivity|].
  split; [rewrite H1, H2; reflexivity|].
  exists w'. split; [exact H7|]. split; [rewrite H8, H1, H2; reflexivity|exact (H9 eq_refl)].
Defined.

(** C6 on the messages tab.  While its loader is at work on the second row,
    the prompt and the export show their warning.  Once both rows are shown
    and the loader has ended, with the first row selected and the dialog
    confirmed, the prompt deletes the row with id 7 and starts the loader. *)
Lemma busy_loader_blocks_delete_and_export_witness :
  loader_is_alive (sys_world sample_mid_load) = true
  /\ run_main (GenericTab sample_messages_cls) sample_table_env
       (CampaignViewGenericTab._prompt_to_delete_row sample_messages_cls)
       (sys_world sample_mid_load)
     = Some (tt, record MainThread (Gui (ShowDialogWarning "Can Not Delete Rows While Loading"))
                   (sys_world sample_mid_load))
  /\ run_main (GenericTab sample_messages_cls) sample_table_env
       (CampaignViewGenericTab.signal_button_clicked_export sample_messages_cls)
       (sys_world sample_mid_load)
     = Some (tt, record MainThread (Gui (ShowDialogWarning "Can Not Export Rows While Loading"))
                   (sys_world sample_mid_load))
  /\ loader_is_alive (sys_world sample_shown) = false
  /\ env_selected sample_table_env = Some 0
  /\ env_yes_no sample_table_env = true
  /\ model_get_value (sys_world sample_shown) 0 0 = "7"
  /\ exists w',
       run_main (GenericTab sample_messages_cls) sample_table_env
         (CampaignViewGenericTab._prompt_to_delete_row sample_messages_cls)
         (sys_world sample_shown) = Some (tt, w')
       /\ loader_is_alive w' = true
       /\ (MainThread, RpcCall "messages/delete" (PStr "7")) ∈ log w'.
Proof.
  assert (Ha : loader_is_alive (sys_world sample_mid_load) = true)
    by (vm_compute; reflexivity).
  assert (Hb : loader_is_alive (sys_world sample_shown) = false)
    by (vm_compute; reflexivity).
  pose proof (busy_loader_blocks_delete_and_export sample_messages_cls sample_table_env
                (sys_world sample_mid_load)) as H.
  rewrite Ha in H. destruct H as [H1 H2].
  pose proof (busy_loader_blocks_delete_and_export sample_messages_cls sample_table_env
                (sys_world sample_shown)) as H.
  rewrite Hb in H. destruct (H 0 eq_refl eq_refl) as [H3 H4].
  destruct H4 as (w' & H5 & H6); [exists (PlainLock true); vm_compute; reflexivity|].
  split; [exact Ha|]. split; [exact H1|]. split; [exact H2|]. split; [exact Hb|].
  split; [reflexivity|]. split; [reflexivity|]. split; [vm_compute; reflexivity|].
  exists w'. split; [by rewrite H3|]. split; [exact H6|].
  revert H5. vm_compute. intros [= <-]. repeat (try (by left); right).
Defined.

(** C7 on the sample configuration, with matplotlib. *)
Lemma campaign_view_tab_sub_tabs_witness :
  CampaignViewTab.__init__ sample_timedef_to_seconds sample_format_datetime sample_get_graph
    true dash_ports false sample_config = Some sample_view_tab
  /\ dom (CampaignViewTab.tabs sample_view_tab)
     = {["dashboard"]} ∪ {["messages"; "visits"; "credentials"; "deaddrop_connections"]}
  /\ CampaignViewTab.notebook_pages sample_view_tab
     = ["dashboard"; "messages"; "visits"; "credentials"; "deaddrop_connections"]
  /\ (exists tab, CampaignViewTab.tabs sample_view_tab !! "dashboard" = Some tab
                  /\ CampaignViewTab.tab_self tab = DashboardTab sample_dashboard.1
                  /\ CampaignViewTab.tab_world tab = sample_dashboard.2)
  /\ (exists tab, CampaignViewTab.tabs sample_view_tab !! "credentials" = Some tab
                  /\ CampaignViewTab.tab_self tab = GenericTab sample_credentials_cls)
  /\ CampaignViewTab.__init__ sample_timedef_to_seconds sample_format_datetime
       sample_get_graph true dash_ports false ∅ = None.
Proof.
  assert (Hs : CampaignViewTab.__init__ sample_timedef_to_seconds sample_format_datetime
                 sample_get_graph true dash_ports false sample_config
               = Some sample_view_tab) by (vm_compute; reflexivity).
  assert (Hd : dashboard__init__ sample_timedef_to_seconds sample_config sample_get_graph
                 dash_ports = Some sample_dashboard) by (vm_compute; reflexivity).
  destruct (campaign_view_tab_sub_tabs sample_timedef_to_seconds sample_format_datetime
              sample_get_graph true dash_ports false sample_config sample_view_tab Hs)
    as (_ & _ & [_ H3] & _ & (tab & d0 & H5 & H5a & H5b & H5c) & H6 & H7 & H8).
  rewrite Hd in H5. injection H5 as <-.
  split; [exact Hs|]. split; [exact H6|]. split; [exact H7|].
  split; [by exists tab|]. split; [exact H3|].
  destruct (CampaignViewTab.__init__ sample_timedef_to_seconds sample_format_datetime
              sample_get_graph true dash_ports false ∅) as [s0|] eqn:H0; [|reflexivity].
  destruct (proj1 (H8 ∅)) as [Hm|[d Hd0]]; [by rewrite H0|discriminate Hm|].
  vm_compute in Hd0. discriminate Hd0.
Defined.

(** C8 on the messages tab: in the run that has the loader at work on the
    second of two rows, and on the whole run of the loader from its start. *)
Lemma gui_calls_on_main_thread_witness :
  reachable (GenericTab sample_messages_cls) sample_messages_tab sample_mid_load
  /\ loader_is_alive (sys_world sample_mid_load) = true
  /\ drop 7 (log (sys_world sample_mid_load))
     = marshaled (LoaderThread 0) (TreeviewSetSensitive false)
       ++ [(LoaderThread 0, RpcRemoteTable "campaign/messages" (PInt 1))]
       ++ marshaled (LoaderThread 0)
            (ListStoreAppend 0 ["7"; "alice@example.org"; "2014-03-01"; ""; "Yes"])
  /\ Forall log_entry_ok (log (sys_world sample_mid_load))
  /\ exists w',
       run_loader (GenericTab sample_messages_cls) sample_table_env 0
         (CampaignViewGenericTab.row_loader_thread_routine sample_messages_cls 0)
         (sys_world sample_started) = Some (tt, w')
       /\ log w'
          = log (sys_world sample_started)
            ++ marshaled (LoaderThread 0) (TreeviewSetSensitive false)
            ++ [(LoaderThread 0, RpcRemoteTable "campaign/messages" (PInt 1))]
            ++ marshaled (LoaderThread 0)
                 (ListStoreAppend 0 ["7"; "alice@example.org"; "2014-03-01"; ""; "Yes"])
            ++ marshaled (LoaderThread 0)
                 (ListStoreAppend 0 ["8"; "bob@example.org"; "2014-03-02"; "2014-03-03"; ""])
            ++ marshaled (LoaderThread 0) (TreeviewSetSensitive true)
            ++ [(LoaderThread 0, SetLastLoadTime 200)].
Proof.
  assert (Hf : formats_plainly (GenericTab sample_messages_cls))
    by (intros row_data; exact I).
  assert (Hl : Forall log_entry_ok (log sample_messages_tab)) by constructor.
  assert (Hr : reachable (GenericTab sample_messages_cls) sample_messages_tab
                 sample_mid_load).
  { apply (sched_run_reachable _ (sample_load_steps ++ sample_loader_steps)).
    vm_compute. reflexivity. }
  destruct (gui_calls_on_main_thread (GenericTab sample_messages_cls) sample_messages_tab
              sample_mid_load Hf eq_refl Hl Hr) as (H1 & _ & H3).
  destruct (H3 sample_table_env 0 (sys_world sample_started) 0) as (w' & H4 & H5);
    [vm_compute; reflexivity|].
  split; [exact Hr|]. split; [vm_compute; reflexivity|]. split; [vm_compute; reflexivity|].
  split; [exact H1|]. exists w'. split; [exact H4|]. rewrite H5. reflexivity.
Defined.

(** C9 on the loop of the credentials tab over two rows: the message of the
    first is gone, and the row is deleted on the server; the second is
    appended. *)
Lemma loader_deletes_rows_without_format_witness :
  runs (CampaignViewGenericTab.row_loader_loop sample_credentials_cls 0
          sample_credential_rows) sample_credentials_trace true
  /\ loop_trace sample_credentials_cls 0 sample_credential_rows sample_credentials_trace true
  /\ (exists chunk1 chunk2,
        sample_credentials_trace = chunk1 ++ chunk2
        /\ chunk1 = [Ev (RpcRemoteTableRow "messages" (PStr "m3")) None;
                     Ev (RpcCall "credentials/delete" (PInt 11)) tt]
        /\ row_outcome sample_credentials_cls 0 (sample_credential_rows !!! 0) chunk1 true
        /\ row_outcome sample_credentials_cls 0 (sample_credential_rows !!! 1) chunk2 true
        /\ Forall (fun ev => is_delete_rpc (ev_action ev) = false) chunk2)
  /\ (forall tf formatted,
        runs (format_row_data sample_credentials_cls (sample_credential_rows !!! 0))
          tf formatted ->
        exists answer,
          tf = [Ev (RpcRemoteTableRow "messages" (PStr "m3")) answer]
          /\ (formatted = None <-> row_truthy answer = false)).
Proof.
  assert (Hr : runs (CampaignViewGenericTab.row_loader_loop sample_credentials_cls 0
                       sample_credential_rows) sample_credentials_trace true).
  { unfold sample_credentials_trace. simpl.
    repeat (eexists; eexists; split; [reflexivity|]). split; reflexivity. }
  destruct (loader_deletes_rows_without_format sample_credentials_cls 0
              sample_credential_rows sample_credentials_trace true Hr) as (H1 & H2 & H3).
  split; [exact Hr|]. split; [exact H1|]. split.
  - pose proof H1 as (chunks & Ht & Hall).
    apply Forall2_cons_inv_l in Hall as (chunk1 & chunks1 & Ho1 & Hall & ->).
    apply Forall2_cons_inv_l in Hall as (chunk2 & chunks2 & Ho2 & Hall & ->).
    apply Forall2_nil_inv_l in Hall as ->.
    cbn [concat] in Ht. rewrite app_nil_r in Ht.
    exists chunk1, chunk2. split; [exact Ht|].
    destruct (H2 _ _ _ Ho1) as (tf1 & formatted1 & Hf1 & Hc1).
    destruct (H2 _ _ _ Ho2) as (tf2 & formatted2 & Hf2 & Hc2).
    match type of Hf1 with
    | runs (format_row_data _ ?r) _ _ =>
        destruct (H3 sample_format_datetime r tf1 formatted1) as (_ & Hcred1 & _)
    end.
    destruct (Hcred1 Hf1) as (answer1 & -> & _).
    match type of Hf2 with
    | runs (format_row_data _ ?r) _ _ =>
        destruct (H3 sample_format_datetime r tf2 formatted2) as (_ & Hcred2 & _)
    end.
    destruct (Hcred2 Hf2) as (answer2 & -> & _).
    clear Hcred1 Hcred2 Hf1 Hf2.
    assert (Hc : chunk1 = [Ev (RpcRemoteTableRow "messages" (PStr "m3")) None;
                           Ev (RpcCall "credentials/delete" (PInt 11)) tt]
                 /\ formatted2 <> None).
    { unfold sample_credentials_trace in Ht.
      destruct formatted1 as [fields1|].
      - destruct Hc1 as [[-> _]|[-> _]]; cbn [app] in Ht;
          apply (f_equal (fun t => ev_action <$> t !! 1)) in Ht; discriminate Ht.
      - destruct Hc1 as [-> _]. cbn [app] in Ht.
        destruct formatted2 as [fields2|].
        + split; [|discriminate].
          apply (f_equal (take 2)) in Ht. symmetry. exact Ht.
        + destruct Hc2 as [-> _]. apply (f_equal length) in Ht. discriminate Ht. }
    destruct Hc as [Hc Hsome].
    split; [exact Hc|]. split; [exact Ho1|]. split; [exact Ho2|].
    destruct formatted2 as [fields2|]; [|done].
    destruct Hc2 as [[-> _]|[-> _]]; by repeat constructor.
  - intros tf formatted Hf.
    destruct (H3 sample_format_datetime (sample_credential_rows !!! 0) tf formatted)
      as (_ & Hcred & _).
    exact (Hcred Hf).
Defined.

(** C10 on the credentials tab: the toggle, then a reload. *)
Lemma password_column_follows_toggle_witness :
  apply_operations sample_credentials_self sample_toggle sample_credentials_tab
  = Some sample_toggled_tab
  /\ apply_operations sample_credentials_self sample_reload sample_toggled_tab
     = Some sample_reloaded_tab
  /\ view_column_visible sample_credentials_tab !! 3 = Some false
  /\ view_column_visible sample_toggled_tab !! 3 = Some (show_passwords_active sample_toggled_tab)
  /\ view_column_visible sample_reloaded_tab = view_column_visible sample_toggled_tab.
Proof.
  assert (H1 : apply_operations sample_credentials_self sample_toggle sample_credentials_tab
               = Some sample_toggled_tab) by (vm_compute; reflexivity).
  assert (H2 : apply_operations sample_credentials_self sample_reload sample_toggled_tab
               = Some sample_reloaded_tab) by (vm_compute; reflexivity).
  destruct (password_column_follows_toggle sample_timedef_to_seconds ∅ sample_format_datetime
              false sample_toggle sample_reload sample_toggled_tab sample_reloaded_tab H1 H2)
    as (H3 & H4 & _ & H6).
  split; [exact H1|]. split; [exact H2|]. split; [exact H3|]. split; [exact H4|].
  by destruct (H6 eq_refl).
Defined.

(** * Further properties *)

(** ** A load from start to end *)

Lemma thread_start_created self th a target w :
  threads (thread_start self (record th a (thread_create target w)))
  = threads w ++ [Started (thread_code self target)].
Proof.
  unfold thread_start.
  cbn [threads set_threads loader_thread record set_log thread_create set_loader_thread].
  rewrite lookup_created. rewrite insert_app_r_alt by lia.
  by rewrite Nat.sub_diag.
Qed.

Lemma threads_record th a w : threads (record th a w) = threads w.
Proof. reflexivity. Qed.

Lemma threads_set_lock l w : threads (set_loader_thread_lock l w) = threads w.
Proof. reflexivity. Qed.

Lemma generic_load_fields (self : tab_class) (e : env) (w : world) :
  loader_is_alive w = false ->
  loader_thread_lock w = PlainLock false ->
  exists w',
    run_main (GenericTab self) e
      (CampaignViewGenericTab.load_campaign_information self true) w = Some (tt, w')
    /\ treeview_model w' = Some (default (length (stores w)) (treeview_model w))
    /\ stores w'
       = match treeview_model w with
         | None => stores w ++ [{| store_ncols := 1 + length (view_columns self);
                                   store_rows := [] |}]
         | Some store => alter store_clear store (stores w)
         end
    /\ threads w'
       = threads w ++ [Started (CampaignViewGenericTab.row_loader_thread_routine self
                                  (default (length (stores w)) (treeview_model w)))]
    /\ loader_thread w' = Some (length (threads w))
    /\ loader_thread_lock w' = PlainLock false
    /\ is_destroyed w' = is_destroyed w
    /\ last_load_time w' = last_load_time w
    /\ treeview_sensitive w' = treeview_sensitive w.
Proof.
  intros Ha Hl. unfold run_main. simpl. rewrite Ha. simpl. rewrite Hl. simpl.
  destruct (treeview_model w) as [store|] eqn:Hm; simpl.
  - eexists. split; [reflexivity|]. split; [exact Hm|]. split; [reflexivity|].
    split; [|by repeat split].
    rewrite threads_record, threads_set_lock, threads_record, thread_start_created.
    reflexivity.
  - eexists. split; [reflexivity|]. split; [reflexivity|]. split; [reflexivity|].
    split; [|by repeat split].
    rewrite threads_record, threads_set_lock, threads_record, thread_start_created.
    reflexivity.
Qed.

(** X1. A call of [CampaignViewGenericTab.load_campaign_information] that
    is forced or finds the data stale, on a tab whose loader is not alive and
    whose lock is free, returns with: the model of the tree view an empty
    store (a new one of [1 + len(view_columns)] columns set as the model when
    there was none, the old one cleared otherwise), one more thread, started
    on [row_loader_thread_routine] with that store and referred to by
    [row_loader_thread], and the lock free again. *)
Theorem generic_load_proceeds (self : tab_class) (e : env) (force : bool) (w : world) :
  loader_is_alive w = false ->
  loader_thread_lock w = PlainLock false ->
  force = true \/ elapsed_lt (env_time e) (last_load_time w) (refresh_frequency w) = false ->
  exists w',
    run_main (GenericTab self) e
      (CampaignViewGenericTab.load_campaign_information self force) w = Some (tt, w')
    /\ treeview_model w' = Some (default (length (stores w)) (treeview_model w))
    /\ stores w'
       = match treeview_model w with
         | None => stores w ++ [{| store_ncols := 1 + length (view_columns self);
                                   store_rows := [] |}]
         | Some store => alter store_clear store (stores w)
         end
    /\ threads w'
       = threads w ++ [Started (CampaignViewGenericTab.row_loader_thread_routine self
                                  (default (length (stores w)) (treeview_model w)))]
    /\ loader_thread w' = Some (length (threads w))
    /\ loader_thread_lock w' = PlainLock false
    /\ is_destroyed w' = is_destroyed w
    /\ last_load_time w' = last_load_time w
    /\ treeview_sensitive w' = treeview_sensitive w.
Proof.
  intros Ha Hl Hstale.
  assert (Hfresh : run_main (GenericTab self) e
                     (CampaignViewGenericTab.load_campaign_information self force) w
                   = run_main (GenericTab self) e
                       (CampaignViewGenericTab.load_campaign_information self true) w).
  { destruct force; [reflexivity|]. destruct Hstale as [|He]; [discriminate|].
    unfold run_main. simpl. by rewrite He. }
  rewrite Hfresh. by apply generic_load_fields.
Qed.

(** X2. A load requested while the loader of the tab is alive, forced or
    not, changes nothing but the log: no store is cleared, no thread is
    created, and the lock is as free as before.  A load that is not due logs
    nothing.  Forced or due, the load of a generic tab logs nothing either:
    it returns at the check, before the lock; the load of the dashboard logs
    the acquire and the release of the lock, the check being made in between,
    or without an RPC client only the warning that the load is skipped. *)
Theorem load_while_loading_keeps_state (self : tab_object) (e : env) (force : bool)
    (w : world) :
  loader_is_alive w = true -> lock_unheld w ->
  run_main self e (CampaignViewTab.load_campaign_information self force) w
  = Some (tt, set_log (log w ++ skipped_load_log self e force w) w).
Proof.
  intros Ha Hl.
  assert (Hw : w = set_log (log w ++ []) w) by (rewrite app_nil_r; by destruct w).
  unfold skipped_load_log, run_main.
  assert (Hrun : forall graphs,
      run (DashboardTab graphs) e false MainThread
        (CampaignViewDashboardTab.load_campaign_information true) w
      = Some (tt, set_log (log w ++ (if env_has_rpc e
                                     then [(MainThread, LockAcquire); (MainThread, LockRelease)]
                                     else [skipped_load_warning])) w)).
  { intros graphs. simpl. destruct (env_has_rpc e); simpl; [|reflexivity].
    destruct Hl as [Hl0|Hl0]; rewrite Hl0; simpl;
      rewrite loader_is_alive_record, loader_is_alive_set_lock, Ha; simpl;
      f_equal; f_equal; unfold record;
      cbn [log set_log set_loader_thread_lock loader_thread_lock lock_release];
      rewrite ?decide_True by done; rewrite <- ?app_assoc;
      destruct w; cbn in *; subst; reflexivity. }
  destruct force; cbn [negb andb].
  - destruct self as [cls|graphs]; [|apply Hrun].
    simpl. rewrite Ha. by rewrite <- Hw.
  - destruct self as [cls|graphs]; simpl;
      destruct (elapsed_lt _ _ _) eqn:He; simpl; rewrite <- ?Hw; try reflexivity.
    + by rewrite Ha.
    + apply (Hrun graphs).
Qed.

(** X3. [load_campaign_information] of either class, called with the lock
    free, returns, and returns with the lock free, on every path: the early
    returns, the return from inside the [with] block of the dashboard, and
    the path that starts a thread. *)
Theorem load_releases_lock (self : tab_object) (e : env) (force : bool) (w : world) :
  lock_unheld w ->
  exists w',
    run_main self e (CampaignViewTab.load_campaign_information self force) w = Some (tt, w')
    /\ loader_thread_lock w' = loader_thread_lock w.
Proof.
  intros Hl. destruct self as [cls|graphs]; unfold run_main.
  - assert (Hrun : exists w',
        run (GenericTab cls) e false MainThread
          (CampaignViewGenericTab.load_campaign_information cls true) w = Some (tt, w')
        /\ loader_thread_lock w' = loader_thread_lock w).
    { simpl. destruct (loader_is_alive w); simpl; [by exists w|].
      destruct Hl as [Hl|Hl]; rewrite Hl; simpl;
        (destruct (treeview_model w); simpl; (eexists; split; [reflexivity|]);
         cbn; rewrite ?decide_True by done; reflexivity). }
    destruct force; [exact Hrun|]. simpl.
    destruct (elapsed_lt _ _ _); simpl; [by exists w|exact Hrun].
  - assert (Hrun : exists w',
        run (DashboardTab graphs) e false MainThread
          (CampaignViewDashboardTab.load_campaign_information true) w = Some (tt, w')
        /\ loader_thread_lock w' = loader_thread_lock w).
    { simpl. destruct (env_has_rpc e); simpl; [|by eexists].
      destruct Hl as [Hl|Hl]; rewrite Hl; simpl;
        rewrite loader_is_alive_record, loader_is_alive_set_lock;
        (destruct (loader_is_alive w); simpl; (eexists; split; [reflexivity|]);
         cbn; rewrite ?decide_True by done; reflexivity). }
    destruct force; [exact Hrun|]. simpl.
    destruct (elapsed_lt _ _ _); simpl; [by exists w|exact Hrun].
Qed.

Lemma append_all_lookup store rows sts :
  store_rows <$> (append_all store rows sts !! store)
  = (fun s => store_rows s ++ rows) <$> (sts !! store).
Proof.
  revert sts. induction rows as [|row_data rows IH]; intros sts.
  - simpl. destruct (sts !! store); simpl; [by rewrite app_nil_r|done].
  - change (append_all store (row_data :: rows) sts)
      with (append_all store rows (alter (store_append row_data) store sts)).
    rewrite IH, list_lookup_alter_eq. destruct (sts !! store) as [s|]; simpl; [|done].
    by rewrite <- app_assoc.
Qed.

Lemma complete_load self e e' w :
  (forall row_data, only is_row_lookup (format_row_data self row_data)) ->
  loader_is_alive w = false -> loader_thread_lock w = PlainLock false ->
  is_destroyed w = false -> model_exists w ->
  exists w1 w2 l,
    run_main (GenericTab self) e
      (CampaignViewGenericTab.load_campaign_information self true) w = Some (tt, w1)
    /\ threads w1 !! length (threads w)
       = Some (Started (CampaignViewGenericTab.row_loader_thread_routine self
                          (default (length (stores w)) (treeview_model w))))
    /\ apply_operation (GenericTab self) e' (OpLoaderRun (length (threads w))) w1 = Some w2
    /\ model_rows w2 = Some (shown_rows self e' (table_rows self e'))
    /\ treeview_sensitive w2 = true
    /\ last_load_time w2 = Stamp (env_time e')
    /\ loader_is_alive w2 = false
    /\ loader_thread_lock w2 = PlainLock false
    /\ is_destroyed w2 = false
    /\ model_exists w2
    /\ log w2 = log w1 ++ l.
Proof.
  intros Hf Ha Hl Hd Hm.
  destruct (generic_load_fields self e w Ha Hl)
    as (w1 & Hrun & Hmodel & Hstores & Hthreads & Hloader & Hlock & Hdes & _ & _).
  set (store := default (length (stores w)) (treeview_model w)) in *.
  assert (Hd1 : is_destroyed w1 = false) by congruence.
  destruct (run_row_loader_thread_routine self e' (length (threads w)) store w1 Hf Hd1)
    as [l Hl1].
  assert (Hn : threads w1 !! length (threads w)
               = Some (Started (CampaignViewGenericTab.row_loader_thread_routine self store))).
  { rewrite Hthreads. apply lookup_created. }
  assert (Hs : store_rows <$> (stores w1 !! store) = Some []).
  { rewrite Hstores. unfold store, model_exists in *.
    destruct (treeview_model w) as [st|]; simpl.
    - rewrite list_lookup_alter_eq.
      destruct (lookup_lt_is_Some_2 (stores w) st Hm) as [s ->]. reflexivity.
    - rewrite lookup_app_r by lia. by rewrite Nat.sub_diag. }
  eexists w1, _, l. split; [exact Hrun|]. split; [exact Hn|]. split.
  { unfold apply_operation. rewrite Hn. simpl. rewrite Hl1. reflexivity. }
  split.
  { unfold model_rows.
    change (treeview_model (set_thread _ _ _)) with (treeview_model w1).
    rewrite Hmodel. simpl.
    change (stores (set_thread _ _ _))
      with (append_all store (shown_rows self e' (table_rows self e')) (stores w1)).
    pose proof (append_all_lookup store (shown_rows self e' (table_rows self e')) (stores w1))
      as Hlk.
    destruct (append_all store _ (stores w1) !! store) as [s|];
      destruct (stores w1 !! store) as [s1|]; simpl in *; try congruence.
    injection Hs as Hs. rewrite Hs in Hlk. exact Hlk. }
  split; [reflexivity|]. split; [reflexivity|]. split.
  { unfold loader_is_alive.
    change (loader_thread (set_thread _ _ _)) with (loader_thread w1). rewrite Hloader.
    change (threads (set_thread ?n ?c ?w0)) with (<[n := Started c]> (threads w1)).
    rewrite list_lookup_insert_eq; [reflexivity|]. by eapply lookup_lt_Some. }
  split; [exact Hlock|]. split; [exact Hd1|]. split.
  { unfold model_exists.
    change (treeview_model (set_thread _ _ _)) with (treeview_model w1).
    rewrite Hmodel.
    change (stores (set_thread _ _ _))
      with (append_all store (shown_rows self e' (table_rows self e')) (stores w1)).
    pose proof (append_all_lookup store (shown_rows self e' (table_rows self e')) (stores w1))
      as Hlk.
    destruct (stores w1 !! store) as [s1|]; [|discriminate Hs].
    destruct (append_all store _ (stores w1) !! store) as [s|] eqn:Hlk'; [|discriminate Hlk].
    by eapply lookup_lt_Some. }
  reflexivity.
Qed.

(** X4. A load from start to end.  On a tab that is not destroyed, whose
    loader is not alive and whose lock is free, [load_campaign_information]
    with [force] followed by the whole run of the thread it starts leaves in
    the model of the tree view exactly the rows of the remote table that have
    a format, in the order of the table, each as [str(id)] followed by its
    formatted fields, whatever the store held before; the tree view is
    sensitive again, [last_load_time] is the time read at the end, and the
    loader is no longer alive. *)
Theorem complete_load_shows_rows (self : tab_class) (e e' : env) (w : world) :
  (forall row_data, only is_row_lookup (format_row_data self row_data)) ->
  loader_is_alive w = false -> loader_thread_lock w = PlainLock false ->
  is_destroyed w = false -> model_exists w ->
  exists w1 w2,
    run_main (GenericTab self) e
      (CampaignViewGenericTab.load_campaign_information self true) w = Some (tt, w1)
    /\ apply_operation (GenericTab self) e' (OpLoaderRun (length (threads w))) w1 = Some w2
    /\ model_rows w2 = Some (shown_rows self e' (table_rows self e'))
    /\ treeview_sensitive w2 = true
    /\ last_load_time w2 = Stamp (env_time e')
    /\ loader_is_alive w2 = false.
Proof.
  intros Hf Ha Hl Hd Hm.
  destruct (complete_load self e e' w Hf Ha Hl Hd Hm)
    as (w1 & w2 & l & H1 & _ & H2 & H3 & H4 & H5 & H6 & _).
  by exists w1, w2.
Qed.

(** X5. The loader of a destroyed tab appends no row.  When a row of the
    table has a format it returns at that row, leaving the tree view
    insensitive and [last_load_time] as it was; when no row has one it runs
    to its end as on a live tab. *)
Theorem destroyed_loader_appends_nothing (self : tab_class) (e : env) (n store : nat)
    (w : world) :
  (forall row_data, only is_row_lookup (format_row_data self row_data)) ->
  is_destroyed w = true ->
  exists w',
    run_loader (GenericTab self) e n
      (CampaignViewGenericTab.row_loader_thread_routine self store) w = Some (tt, w')
    /\ stores w' = stores w
    /\ match kept_rows self e (table_rows self e) with
       | [] => treeview_sensitive w' = true /\ last_load_time w' = Stamp (env_time e)
       | _ => treeview_sensitive w' = false /\ last_load_time w' = last_load_time w
       end.
Proof.
  intros Hf Hd.
  destruct (run_row_loader_thread_routine_destroyed self e n store w Hf Hd) as [l Hl].
  eexists. split; [exact Hl|].
  destruct (kept_rows self e (table_rows self e)); by repeat split.
Qed.

(** ** From the selected row back to the table *)

Lemma model_get_value_rows w rows tree_iter column :
  model_rows w = Some rows ->
  model_get_value w tree_iter column = default "" (r ← rows !! tree_iter; r !! column).
Proof.
  unfold model_rows, model_get_value. intros H.
  destruct (treeview_model w) as [n|]; [|discriminate]. simpl in *.
  destruct (stores w !! n) as [s|]; [|discriminate]. simpl in *. by injection H as <-.
Qed.

Lemma run_log_prefix {A} self e idle th (p : prog A) w x w' :
  run self e idle th p w = Some (x, w') -> exists l, log w' = log w ++ l.
Proof.
  revert w. induction p as [y|a k IH]; intros w; simpl.
  - intros [= _ <-]. exists []. by rewrite app_nil_r.
  - destruct (perform self e idle th a w) as [[r w1]|] eqn:Hp; [|discriminate].
    intros Hr. destruct (IH _ _ Hr) as [l Hl].
    destruct (perform_frame _ _ _ _ _ _ _ _ Hp) as (_ & _ & _ & Hlog).
    exists (log_of th a ++ l). by rewrite Hl, Hlog, <- app_assoc.
Qed.

(** X6. After a load from start to end, the row the user selects is the
    row of the table it was made from: [_prompt_to_delete_row], confirmed,
    sends [<remote_table_name>/delete] with the [str] of the id of the
    selected row and starts a reload, and [signal_activate_popup_menu_copy]
    puts the selected cell of that row on the clipboard. *)
Theorem selected_row_is_the_table_row (self : tab_class) (e e' e2 : env) (w : world)
    (tree_iter column : nat) (row_id : pyval) (fields : list pyval) (text : string) :
  (forall row_data, only is_row_lookup (format_row_data self row_data)) ->
  loader_is_alive w = false -> loader_thread_lock w = PlainLock false ->
  is_destroyed w = false -> model_exists w ->
  kept_rows self e' (table_rows self e') !! tree_iter = Some (row_id, fields) ->
  cells row_id fields !! column = Some text ->
  env_selected e2 = Some tree_iter -> env_yes_no e2 = true ->
  exists w1 w2 w3 w4,
    run_main (GenericTab self) e
      (CampaignViewGenericTab.load_campaign_information self true) w = Some (tt, w1)
    /\ apply_operation (GenericTab self) e' (OpLoaderRun (length (threads w))) w1 = Some w2
    /\ run_main (GenericTab self) e2
         (CampaignViewGenericTab.signal_activate_popup_menu_copy column) w2 = Some (tt, w3)
    /\ log w3 = log w2 ++ [(MainThread, Gui SelectionGetSelected);
                           (MainThread, Gui (ModelGetValue tree_iter column));
                           (MainThread, Gui (ClipboardSetText text))]
    /\ run_main (GenericTab self) e2
         (CampaignViewGenericTab._prompt_to_delete_row self) w2 = Some (tt, w4)
    /\ (MainThread, RpcCall (remote_table_name self +:+ "/delete") (PStr (py_str row_id)))
       ∈ log w4
    /\ loader_is_alive w4 = true.
Proof.
  intros Hf Ha Hl Hd Hm Hkept Hcell Hsel Hyes.
  destruct (complete_load self e e' w Hf Ha Hl Hd Hm)
    as (w1 & w2 & l & H1 & _ & H2 & Hrows & _ & _ & Ha2 & Hl2 & Hd2 & Hm2 & _).
  assert (Hshown : shown_rows self e' (table_rows self e') !! tree_iter
                   = Some (cells row_id fields)).
  { unfold shown_rows. by rewrite list_lookup_fmap, Hkept. }
  assert (Hval : forall c, model_get_value w2 tree_iter c
                           = default "" (cells row_id fields !! c)).
  { intros c. rewrite (model_get_value_rows _ _ _ _ Hrows), Hshown. reflexivity. }
  set (w2' := record MainThread
                (RpcCall (remote_table_name self +:+ "/delete") (PStr (py_str row_id)))
                (record MainThread
                   (Gui (ShowDialogYesNo "Delete This Row?" "This information will be lost."))
                   (record MainThread (Gui (ModelGetValue tree_iter 0))
                      (record MainThread (Gui SelectionGetSelected) w2)))).
  destruct (generic_load_fields self e2 w2' Ha2 Hl2)
    as (w4 & Hrun4 & _ & _ & Hth4 & Hlt4 & _).
  assert (Hprompt : run_main (GenericTab self) e2
                      (CampaignViewGenericTab._prompt_to_delete_row self) w2
                    = Some (tt, w4)).
  { rewrite <- Hrun4. unfold run_main.
    change (CampaignViewGenericTab._prompt_to_delete_row self)
      with (alive <- LoaderIsAlive;
            if alive then
              Gui (ShowDialogWarning "Can Not Delete Rows While Loading");; Ret tt
            else
            tree_iter <- Gui SelectionGetSelected;
            match tree_iter with
            | None => Ret tt
            | Some tree_iter =>
                row_id <- Gui (ModelGetValue tree_iter 0);
                yes <- Gui (ShowDialogYesNo "Delete This Row?" "This information will be lost.");
                if negb yes then Ret tt else
                RpcCall (remote_table_name self +:+ "/delete") (PStr row_id);;
                CampaignViewGenericTab.load_campaign_information self true
            end).
    cbn [run perform]. rewrite Ha2. cbn [run perform gui]. rewrite Hsel.
    cbn [run perform gui]. rewrite Hyes.
    cbn [negb run perform].
    change (model_get_value (record _ _ w2) tree_iter 0) with (model_get_value w2 tree_iter 0).
    rewrite (Hval 0). reflexivity. }
  exists w1, w2,
    (record MainThread (Gui (ClipboardSetText text))
       (record MainThread (Gui (ModelGetValue tree_iter column))
          (record MainThread (Gui SelectionGetSelected) w2))).
  exists w4. split; [exact H1|]. split; [exact H2|].
  split.
  { unfold run_main. simpl. rewrite Hsel. simpl.
    change (model_get_value (record _ _ w2) tree_iter column)
      with (model_get_value w2 tree_iter column).
    rewrite Hval, Hcell. reflexivity. }
  split.
  { unfold record. cbn [log set_log]. by rewrite <- !app_assoc. }
  split; [exact Hprompt|]. split.
  - destruct (run_log_prefix _ _ _ _ _ _ _ _ Hrun4) as [l4 ->].
    apply elem_of_app. left. unfold w2', record. cbn [log set_log].
    apply elem_of_app. right. apply elem_of_cons. by left.
  - unfold loader_is_alive. rewrite Hlt4, Hth4, lookup_created. reflexivity.
Qed.

(** ** The shape of the rows *)

Ltac width_tac :=
  repeat first
    [ exact I
    | reflexivity
    | assumption
    | split
    | intro
    | progress simpl
    | match goal with
      | |- context [negb (row_truthy ?r)] => destruct (row_truthy r)
      | |- only _ (if ?x then _ else _) => destruct x
      end ].

Lemma row_loader_loop_width format_datetime self store rows :
  self ∈ [CampaignViewDeaddropTab.cls format_datetime;
          CampaignViewCredentialsTab.cls format_datetime;
          CampaignViewVisitsTab.cls format_datetime;
          CampaignViewMessagesTab.cls format_datetime] ->
  only (appends_width (1 + length (view_columns self)))
    (CampaignViewGenericTab.row_loader_loop self store rows).
Proof.
  rewrite !elem_of_cons, elem_of_nil. intros [->|[->|[->|[->|[]]]]];
    induction rows as [|row_data rows IH]; width_tac.
Qed.

(** X7. What [format_row_data] returns in [CampaignViewDeaddropTab],
    [CampaignViewCredentialsTab], [CampaignViewVisitsTab] and
    [CampaignViewMessagesTab] has the length of [view_columns], as the
    docstring of the method asks: in every run of the loader of these
    classes, each row appended has [1 + len(view_columns)] cells, the number
    of columns of the store that [load_campaign_information] creates. *)
Theorem appended_rows_fit_the_store (format_datetime : pyval -> pyval) (self : tab_class)
    (store : nat) (t : list event) :
  self ∈ [CampaignViewDeaddropTab.cls format_datetime;
          CampaignViewCredentialsTab.cls format_datetime;
          CampaignViewVisitsTab.cls format_datetime;
          CampaignViewMessagesTab.cls format_datetime] ->
  runs (CampaignViewGenericTab.row_loader_thread_routine self store) t tt ->
  Forall (fun ev => appends_width (1 + length (view_columns self)) (ev_action ev) = true) t.
Proof.
  intros Hself. apply only_runs.
  unfold CampaignViewGenericTab.row_loader_thread_routine.
  split; [reflexivity|]. intros _. split; [reflexivity|]. intros campaign_id.
  split; [reflexivity|]. intros rows. apply only_bind.
  - by apply (row_loader_loop_width format_datetime).
  - intros [|]; simpl; [|exact I]. by repeat (split; [reflexivity|intro]).
Qed.

(** ** What the handlers do not do *)

Ltac runs_inv H :=
  repeat match type of H with
         | runs (Do _ _) _ _ =>
             let r := fresh "r" in
             let t := fresh "t" in
             let E := fresh "E" in
             destruct H as (r & t & E & H); subst
         | runs (Ret _) _ _ => destruct H as [-> _]
         | runs (if ?b then _ else _) _ _ => destruct b; cbn [negb] in H
         | runs (match ?x with Some _ => _ | None => _ end) _ _ => destruct x
         | _ => progress cbn [negb] in H
         end.

Lemma load_no_rpc_call self force t :
  runs (CampaignViewGenericTab.load_campaign_information self force) t tt ->
  Forall (fun ev => is_delete_rpc (ev_action ev) = false) t.
Proof.
  intros Hr.
  apply (only_runs (fun a => negb (is_delete_rpc a))) in Hr.
  - eapply Forall_impl; [exact Hr|]. intros ev. simpl. by destruct (is_delete_rpc _).
  - apply (load_campaign_information_only _ (GenericTab self)).
    intros a. destruct a; try exact I; try reflexivity. by destruct c.
Qed.

(** X8. [_prompt_to_delete_row] calls the server only after it found the
    loader not alive, a row selected, and the user answered yes to
    'Delete This Row?': every run with an RPC in it is these steps, then
    [<remote_table_name>/delete] on the value of column 0 of the selected
    row, once, then a forced load. *)
Theorem delete_needs_selection_and_yes (self : tab_class) (t : list event) :
  runs (CampaignViewGenericTab._prompt_to_delete_row self) t tt ->
  Exists (fun ev => is_delete_rpc (ev_action ev) = true) t ->
  exists tree_iter row_id t',
    t = [Ev LoaderIsAlive false;
         Ev (Gui SelectionGetSelected) (Some tree_iter);
         Ev (Gui (ModelGetValue tree_iter 0)) row_id;
         Ev (Gui (ShowDialogYesNo "Delete This Row?" "This information will be lost.")) true;
         Ev (RpcCall (remote_table_name self +:+ "/delete") (PStr row_id)) tt] ++ t'
    /\ runs (CampaignViewGenericTab.load_campaign_information self true) t' tt
    /\ Forall (fun ev => is_delete_rpc (ev_action ev) = false) t'.
Proof.
  unfold CampaignViewGenericTab._prompt_to_delete_row. intros Hr Hex.
  destruct Hr as (alive & t1 & -> & Hr). destruct alive.
  { runs_inv Hr. rewrite !Exists_cons, Exists_nil in Hex. simpl in Hex.
    destruct Hex as [|[|[]]]; discriminate. }
  destruct Hr as (tree_iter & t2 & -> & Hr). destruct tree_iter as [tree_iter|].
  2:{ runs_inv Hr. rewrite !Exists_cons, Exists_nil in Hex. simpl in Hex.
      destruct Hex as [|[|[]]]; discriminate. }
  destruct Hr as (row_id & t3 & -> & Hr). destruct Hr as (yes & t4 & -> & Hr).
  destruct yes; cbn [negb] in Hr.
  2:{ runs_inv Hr. rewrite !Exists_cons, Exists_nil in Hex. simpl in Hex.
      destruct Hex as [|[|[|[|[]]]]]; discriminate. }
  destruct Hr as ([] & t5 & -> & Hr).
  exists tree_iter, row_id, t5. split; [reflexivity|]. split; [exact Hr|].
  by eapply load_no_rpc_call.
Qed.

(** X9. [signal_button_clicked_export] writes a file only when the loader is
    not alive, the campaign name of the configuration is a string and the
    file chooser, opened on that name followed by [.csv], returned a path,
    and then to that path and once.  It raises only when the loader is not
    alive and the campaign name is no string, at the concatenation of
    line 200: before any dialog, and nothing is written. *)
Theorem export_needs_a_chosen_path (self : tab_class) (t : list event) :
  runs (CampaignViewGenericTab.signal_button_clicked_export self) t tt ->
  (Exists (fun ev => is_export (ev_action ev) = true) t ->
   exists campaign_name destination_file,
     t = [Ev LoaderIsAlive false;
          Ev (ConfigGet "campaign_name") (PStr campaign_name);
          Ev (Gui (FileChooserQuickSave (campaign_name +:+ ".csv"))) (Some destination_file);
          Ev (ExportCsv destination_file) tt])
  /\ (Exists (fun ev => is_raise (ev_action ev) = true) t ->
      exists campaign_name,
        (forall name, campaign_name <> PStr name)
        /\ t = [Ev LoaderIsAlive false;
                Ev (ConfigGet "campaign_name") campaign_name;
                Ev (Raise "TypeError") tt]).
Proof.
  unfold CampaignViewGenericTab.signal_button_clicked_export. intros Hr.
  destruct Hr as (alive & t1 & -> & Hr). destruct alive.
  { runs_inv Hr.
    split; intros Hex; rewrite !Exists_cons, Exists_nil in Hex; simpl in Hex;
      destruct Hex as [|[|[]]]; discriminate. }
  destruct Hr as (campaign_name & t2 & -> & Hr).
  destruct campaign_name as [|campaign_name|n].
  - destruct Hr as ([] & t3 & -> & [-> _]). split.
    + intros Hex. rewrite !Exists_cons, Exists_nil in Hex. simpl in Hex.
      destruct Hex as [|[|[|[]]]]; discriminate.
    + intros _. exists PNone. by split.
  - destruct Hr as (response & t3 & -> & Hr). destruct response as [destination_file|].
    + destruct Hr as ([] & t4 & -> & [-> _]). split.
      * intros _. by exists campaign_name, destination_file.
      * intros Hex. rewrite !Exists_cons, Exists_nil in Hex. simpl in Hex.
        destruct Hex as [|[|[|[|[]]]]]; discriminate.
    + destruct Hr as [-> _].
      split; intros Hex; rewrite !Exists_cons, Exists_nil in Hex; simpl in Hex;
        destruct Hex as [|[|[|[]]]]; discriminate.
  - destruct Hr as ([] & t3 & -> & [-> _]). split.
    + intros Hex. rewrite !Exists_cons, Exists_nil in Hex. simpl in Hex.
      destruct Hex as [|[|[|[]]]]; discriminate.
    + intros _. exists (PInt n). by split.
Qed.

(** ** The dashboard *)

Lemma dashboard_add_graphs_spec config get_graph items names graphs w :
  configured config items names ->
  dashboard_add_graphs config get_graph items graphs w
  = Some (graphs ++ found_graphs get_graph items names,
          set_log (log w ++ (graph_warning <$> missing_graphs get_graph names)) w).
Proof.
  intros Hc. revert graphs w.
  induction Hc as [|[dash_port details] name items names Hn _ IH]; intros graphs w.
  - simpl. rewrite !app_nil_r. by destruct w.
  - cbn [dashboard_add_graphs]. cbn [fst] in Hn. rewrite Hn.
    unfold found_graphs, missing_graphs. cbn [zip zip_with List.filter snd].
    destruct (get_graph name); cbn [negb].
    + rewrite IH. unfold found_graphs, missing_graphs. cbn [fmap list_fmap fst snd].
      by rewrite <- app_assoc.
    + rewrite IH. unfold found_graphs, missing_graphs, record.
      rewrite set_log_set_log. cbn [log set_log fmap list_fmap].
      by rewrite <- app_assoc.
Qed.

Lemma dashboard_add_graphs_configured config get_graph items graphs w :
  is_Some (dashboard_add_graphs config get_graph items graphs w) ->
  exists names, configured config items names.
Proof.
  revert graphs w. induction items as [|[dash_port details] items IH]; intros graphs w.
  - intros _. exists []. constructor.
  - cbn [dashboard_add_graphs].
    destruct (config !! ("dashboard." +:+ dash_port)) as [[|name|]|] eqn:Hn;
      try (by intros [? ?]).
    intros H.
    assert (Hn' : exists names, configured config items names).
    { destruct (get_graph name); cbn [negb] in H; by eapply IH. }
    destruct Hn' as [names Hc]. exists (name :: names). by constructor.
Qed.

Lemma found_missing_length get_graph items names :
  length items = length names ->
  length (found_graphs get_graph items names) + length (missing_graphs get_graph names)
  = length items.
Proof.
  unfold found_graphs, missing_graphs. rewrite length_fmap.
  revert names. induction items as [|item items IH]; intros [|name names] Hl;
    try discriminate; [reflexivity|].
  cbn [zip zip_with List.filter snd]. injection Hl as Hl. specialize (IH names Hl).
  destruct (get_graph name); simpl; lia.
Qed.

(** X10. [CampaignViewDashboardTab.__init__] returns exactly when the
    configuration names a graph, by a string, for every dash port; a port
    without one raises at line 339.  It then leaves in [self.graphs] one
    graph for each port whose graph class exists, of that name and with the
    size of the port, in the order of the ports; each name whose class is not
    found is skipped with one warning in the log, after the debug line on the
    refresh frequency; and no port is left out of both. *)
Theorem dashboard_graphs_follow_ports (timedef_to_seconds : string -> Z)
    (config : gmap string pyval) (get_graph : string -> bool)
    (items : list (string * option (Z * Z))) :
  (is_Some (dashboard__init__ timedef_to_seconds config get_graph items)
   <-> exists names, configured config items names)
  /\ (forall names,
        configured config items names ->
        exists w,
          dashboard__init__ timedef_to_seconds config get_graph items
          = Some (found_graphs get_graph items names, w)
          /\ log w
             = (MainThread,
                LoggerLog "debug"
                  ("dashboard refresh frequency set to "
                   +:+ pretty (configured_refresh_frequency timedef_to_seconds config)
                   +:+ " seconds"))
               :: (graph_warning <$> missing_graphs get_graph names)
          /\ length (found_graphs get_graph items names)
             + length (missing_graphs get_graph names) = length items).
Proof.
  assert (Hrun : forall names,
    configured config items names ->
    exists w,
      dashboard__init__ timedef_to_seconds config get_graph items
      = Some (found_graphs get_graph items names, w)
      /\ log w
         = (MainThread,
            LoggerLog "debug"
              ("dashboard refresh frequency set to "
               +:+ pretty (configured_refresh_frequency timedef_to_seconds config)
               +:+ " seconds"))
           :: (graph_warning <$> missing_graphs get_graph names)).
  { intros names Hc. unfold dashboard__init__.
    rewrite (dashboard_add_graphs_spec _ _ _ _ _ _ Hc). cbn [mbind option_bind app].
    eexists. split; [reflexivity|]. reflexivity. }
  split; [split|].
  - unfold dashboard__init__.
    match goal with |- context [dashboard_add_graphs ?c ?g ?i ?gs ?w] =>
      destruct (dashboard_add_graphs c g i gs w) as [[graphs w']|] eqn:Hadd end.
    + intros _. eapply dashboard_add_graphs_configured. rewrite Hadd. by eexists.
    + by intros [? ?].
  - intros [names Hc]. destruct (Hrun names Hc) as (w & -> & _). by eexists.
  - intros names Hc. destruct (Hrun names Hc) as (w & H1 & H2).
    exists w. split; [exact H1|]. split; [exact H2|].
    apply found_missing_length. by eapply Forall2_length.
Qed.

(** X11. A run of the loader thread of the dashboard refreshes every graph of
    [self.graphs] once, in order, each through [glib_idle_add_wait], the
    first with an empty [info_cache] and each next one with what the one
    before returned; it then sets [last_load_time] to the time it reads and
    changes nothing else. *)
Theorem dashboard_loader_refreshes_each_graph (graphs : list graph) (e : env) (n : nat)
    (w : world) :
  run_loader (DashboardTab graphs) e n
    (CampaignViewDashboardTab.loader_thread_routine graphs) w
  = Some (tt,
          set_log (log w
                   ++ (refresh_calls e graphs ∅ ≫= refresh_entries (LoaderThread n))
                   ++ [(LoaderThread n, SetLastLoadTime (env_time e))])
            (set_last_load_time (Stamp (env_time e)) w))
  /\ (refresh_calls e graphs ∅).*1 = graphs.
Proof.
  split.
  - unfold CampaignViewDashboardTab.loader_thread_routine, run_loader.
    rewrite run_bind. pose proof (run_refresh_graphs graphs e n ∅ w) as Hr.
    unfold run_loader in Hr. rewrite Hr. cbn [run perform]. f_equal. f_equal.
    unfold record. cbn [log set_log set_last_load_time]. by rewrite <- !app_assoc.
  - generalize (∅ : info_cache). induction graphs as [|g graphs IH]; intros cache;
      [reflexivity|]. simpl. by rewrite IH.
Qed.

(** ** The top-level tab *)

Lemma lock_unheld_free w : lock_unheld w -> lock_free w.
Proof. intros [H|H]; unfold lock_free; rewrite H; by eexists. Qed.

Lemma load_tab_forced e tab :
  lock_unheld (CampaignViewTab.tab_world tab) ->
  (needs_rpc (CampaignViewTab.tab_self tab) = true -> env_has_rpc e = true) ->
  CampaignViewTab.tab_self (CampaignViewTab.load_tab e true tab) = CampaignViewTab.tab_self tab
  /\ loader_is_alive (CampaignViewTab.tab_world (CampaignViewTab.load_tab e true tab)) = true.
Proof.
  intros Hl Hrpc. destruct tab as [self w]. cbn [CampaignViewTab.tab_self CampaignViewTab.tab_world] in *.
  unfold CampaignViewTab.load_tab. cbn [CampaignViewTab.tab_self CampaignViewTab.tab_world].
  destruct (loader_is_alive w) eqn:Ha.
  - assert (Hrun : exists w', run_main self e (CampaignViewTab.load_campaign_information self true) w
                              = Some (tt, w') /\ logged_more w w').
    { destruct self as [cls|graphs]; unfold run_main.
      - exists w. simpl. rewrite Ha. split; [done|]. exists []. rewrite app_nil_r. by destruct w.
      - simpl. rewrite Hrpc by done. simpl.
        destruct Hl as [Hl|Hl]; rewrite Hl; simpl;
          rewrite loader_is_alive_record, loader_is_alive_set_lock, Ha; simpl;
          (eexists; split; [reflexivity|]); eexists; unfold record;
          cbn [log set_log set_loader_thread_lock loader_thread_lock lock_release];
          rewrite ?decide_True by done; rewrite <- ?app_assoc;
          destruct w; cbn in *; subst; reflexivity. }
    destruct Hrun as (w' & -> & l & ->). split; [reflexivity|]. exact Ha.
  - destruct (forced_load_starts self e w Ha (lock_unheld_free w Hl) Hrpc)
      as (w' & -> & Ha' & _). by split.
Qed.

(** X12. [signal_kpc_campaign_set] forces a load on every sub-tab: it keeps
    the set of tabs, the pages and [last_page_id], and each tab whose lock is
    free has its loader alive afterwards, the one that was running or a new
    one (the dashboard when the RPC client is there). *)
Theorem campaign_set_loads_every_tab (e : env) (s : CampaignViewTab.state) (name : string)
    (tab : CampaignViewTab.sub_tab) :
  CampaignViewTab.tabs s !! name = Some tab ->
  lock_unheld (CampaignViewTab.tab_world tab) ->
  (needs_rpc (CampaignViewTab.tab_self tab) = true -> env_has_rpc e = true) ->
  let s' := CampaignViewTab.signal_kpc_campaign_set e s in
  dom (CampaignViewTab.tabs s') = dom (CampaignViewTab.tabs s)
  /\ CampaignViewTab.notebook_pages s' = CampaignViewTab.notebook_pages s
  /\ CampaignViewTab.last_page_id s' = CampaignViewTab.last_page_id s
  /\ exists tab',
       CampaignViewTab.tabs s' !! name = Some tab'
       /\ CampaignViewTab.tab_self tab' = CampaignViewTab.tab_self tab
       /\ loader_is_alive (CampaignViewTab.tab_world tab') = true.
Proof.
  intros Hn Hl Hrpc s'. subst s'. unfold CampaignViewTab.signal_kpc_campaign_set.
  cbn [CampaignViewTab.tabs CampaignViewTab.notebook_pages CampaignViewTab.last_page_id].
  split; [apply dom_fmap_L|]. split; [reflexivity|]. split; [reflexivity|].
  exists (CampaignViewTab.load_tab e true tab). rewrite lookup_fmap, Hn.
  split; [reflexivity|]. by apply load_tab_forced.
Qed.

Lemma init_tabs_fresh timedef_to_seconds format_datetime get_graph has_matplotlib items
    toggle_active config s name tab :
  CampaignViewTab.__init__ timedef_to_seconds format_datetime get_graph has_matplotlib
    items toggle_active config = Some s ->
  CampaignViewTab.tabs s !! name = Some tab ->
  last_load_time (CampaignViewTab.tab_world tab) = NegInf
  /\ loader_is_alive (CampaignViewTab.tab_world tab) = false
  /\ lock_unheld (CampaignViewTab.tab_world tab).
Proof.
  unfold CampaignViewTab.__init__, CampaignViewTab.add_tab.
  destruct has_matplotlib; cbn [CampaignViewTab.tabs mbind option_bind].
  - destruct (dashboard__init__ timedef_to_seconds config get_graph items)
      as [[graphs w]|] eqn:Hd; cbn [mbind option_bind]; [|discriminate].
    destruct (dashboard__init__world _ _ _ _ _ Hd) as [l Hw].
    cbn [snd] in Hw. subst w. intros [= <-]. cbn [CampaignViewTab.tabs].
    rewrite !lookup_insert_Some, lookup_empty.
    intros [[_ <-]|[_ [[_ <-]|[_ [[_ <-]|[_ [[_ <-]|[_ [[_ <-]|[_ ?]]]]]]]]]];
      try discriminate;
      (split; [reflexivity|split; [reflexivity|]]); (by left) || (by right).
  - intros [= <-]. cbn [CampaignViewTab.tabs].
    rewrite !lookup_insert_Some, lookup_empty.
    intros [[_ <-]|[_ [[_ <-]|[_ [[_ <-]|[_ [[_ <-]|[_ ?]]]]]]]];
      try discriminate;
      (split; [reflexivity|split; [reflexivity|]]); (by left) || (by right).
Qed.

(** X14. The first time the user turns to a page after the construction of
    the tab, with the RPC client there, the sub-tab of that page starts its
    loader: its [last_load_time] is still [float('-inf')], so the load without
    force goes through. *)
Theorem first_visit_starts_the_loader (timedef_to_seconds : string -> Z)
    (format_datetime : pyval -> pyval) (get_graph : string -> bool)
    (has_matplotlib : bool) (items : list (string * option (Z * Z)))
    (toggle_active : bool) (config : gmap string pyval) (s : CampaignViewTab.state)
    (e : env) (current_page : string) (index : Z) :
  CampaignViewTab.__init__ timedef_to_seconds format_datetime get_graph
    has_matplotlib items toggle_active config = Some s ->
  env_has_rpc e = true ->
  current_page ∈ CampaignViewTab.notebook_pages s ->
  exists tab tab',
    CampaignViewTab.tabs s !! current_page = Some tab
    /\ loader_is_alive (CampaignViewTab.tab_world tab) = false
    /\ CampaignViewTab.tabs (CampaignViewTab._tab_changed e current_page index s)
         !! current_page = Some tab'
    /\ CampaignViewTab.tab_self tab' = CampaignViewTab.tab_self tab
    /\ loader_is_alive (CampaignViewTab.tab_world tab') = true
    /\ CampaignViewTab.last_page_id (CampaignViewTab._tab_changed e current_page index s)
       = index.
Proof.
  intros Hs Hrpc Hpage.
  assert (Htab : is_Some (CampaignViewTab.tabs s !! current_page)).
  { apply elem_of_dom. revert Hs Hpage.
    unfold CampaignViewTab.__init__, CampaignViewTab.add_tab.
    destruct has_matplotlib; cbn [mbind option_bind];
      [destruct (dashboard__init__ timedef_to_seconds config get_graph items)
         as [[graphs w]|]; cbn [mbind option_bind]; [|discriminate]|];
      intros [= <-];
      cbn [CampaignViewTab.tabs CampaignViewTab.notebook_pages app];
      rewrite !dom_insert_L, dom_empty_L, !elem_of_union, !elem_of_singleton,
        !elem_of_cons, elem_of_nil; tauto. }
  destruct Htab as [tab Htab].
  destruct (init_tabs_fresh _ _ _ _ _ _ _ _ _ _ Hs Htab) as (Hlast & Ha & Hl).
  destruct tab as [self w]. cbn [CampaignViewTab.tab_world] in *.
  destruct (forced_load_starts self e w Ha (lock_unheld_free w Hl) (fun _ => Hrpc))
    as (w' & Hrun & Ha' & _).
  exists {| CampaignViewTab.tab_self := self; CampaignViewTab.tab_world := w |},
         {| CampaignViewTab.tab_self := self; CampaignViewTab.tab_world := w' |}.
  split; [exact Htab|]. split; [exact Ha|].
  unfold CampaignViewTab._tab_changed. rewrite Hrpc. cbn [negb CampaignViewTab.tabs
    CampaignViewTab.last_page_id CampaignViewTab.tab_self CampaignViewTab.tab_world].
  split; [|by repeat split].
  rewrite lookup_alter_eq, Htab. cbn [fmap option_fmap option_map]. f_equal.
  unfold CampaignViewTab.load_tab.
  cbn [CampaignViewTab.tab_self CampaignViewTab.tab_world].
  by rewrite (load_never_loaded self e w Hlast), Hrun.
Qed.

(** ** [signal_destroy] and a waiting loader *)

Lemma waits_destroying {A} (p : prog A) : waits p -> destroying p.
Proof. destruct p as [x|a k]; [done|]. destruct a; simpl; try done. Qed.

Lemma destroying_not_idle {A} a (k : result a -> prog A) :
  destroying (Do a k) -> in_dialog a = false.
Proof. destruct a; simpl; try done. Qed.

Lemma destroy_waits_step self n c s s' :
  destroy_waits n c s -> step self s s' -> destroy_waits n c s'.
Proof.
  intros (Hl & [k0 Hn] & U & q & Hq & Hd) Hstep.
  destruct Hstep as [sg p w Hh|e a k r w w' Hp|w|e m a k r w w' main Hm Hp];
    unfold destroy_waits; cbn [sys_world sys_main] in *.
  - discriminate.
  - injection Hq as <-.
    assert (Halive : loader_is_alive w = true).
    { unfold loader_is_alive. by rewrite Hl, Hn. }
    destruct (perform_frame _ _ _ _ _ _ _ _ Hp) as (Ft & Fl & _ & _).
    destruct a; cbn [destroying waits] in Hd; try contradiction.
    + (* LoaderIsAlive *)
      simpl in Hp. injection Hp as <- <-. rewrite Halive.
      split; [exact Hl|]. split; [by exists k0|]. split; [exact U|].
      eexists. split; [reflexivity|]. by apply waits_destroying.
    + (* ThreadJoin *)
      simpl in Hp. by rewrite Halive in Hp.
    + (* IsDestroyedSet *)
      split; [by rewrite Fl|]. split; [exists k0; by rewrite Ft|].
      split; [by rewrite Ft|].
      eexists. split; [reflexivity|]. apply waits_destroying, Hd.
  - injection Hq as <-. contradiction.
  - assert (m = n) as -> by (by eapply U).
    rewrite Hn in Hm. injection Hm as <- _. subst main.
    destruct q as [x|a0 k1]; [contradiction|].
    cbn [main_idle] in Hp. rewrite (destroying_not_idle _ _ Hd) in Hp. discriminate.
Qed.

(** X15. [signal_destroy] joins the loader thread on the main thread.  When
    it is called while the loader, the only thread alive, waits in
    [glib_idle_add_wait] for the main loop to make a call, neither moves
    again: in every state that follows the handler has not returned and the
    loader still waits with the same call. *)
Theorem destroy_blocks_on_waiting_loader (self : tab_object) (n : nat) (c : gui_call)
    (s s' : system) :
  loader_thread (sys_world s) = Some n ->
  (exists k, threads (sys_world s) !! n = Some (Started (Do (GlibIdleAddWait c) k))) ->
  (forall m t, threads (sys_world s) !! m = Some t -> is_alive t = true -> m = n) ->
  sys_main s = Some CampaignViewGenericTab.signal_destroy ->
  rtc (step self) s s' ->
  sys_main s' <> None
  /\ loader_is_alive (sys_world s') = true
  /\ exists k, threads (sys_world s') !! n = Some (Started (Do (GlibIdleAddWait c) k)).
Proof.
  intros Hl Hn U Hmain Hsteps.
  assert (Hinv : destroy_waits n c s).
  { split; [exact Hl|]. split; [exact Hn|]. split; [exact U|].
    eexists. split; [exact Hmain|]. simpl. auto. }
  clear Hl Hn U Hmain. induction Hsteps as [s|s s1 s2 Hstep _ IH].
  - destruct Hinv as (Hl & [k Hn] & _ & q & Hq & _).
    split; [by rewrite Hq|]. split; [|by exists k].
    unfold loader_is_alive. by rewrite Hl, Hn.
  - apply IH. by eapply destroy_waits_step.
Qed.

(** ** The columns and the events of the tree view *)

Lemma operations_other_columns self ops w0 w column :
  formats_plainly self -> threads_only not_column_set w0 -> column <> 3 ->
  apply_operations self ops w0 = Some w ->
  view_column_visible w !! column = view_column_visible w0 !! column.
Proof.
  intros Hf. revert w0. induction ops as [|[e op] ops IH]; intros w0 Hw Hc; simpl.
  - by intros [= <-].
  - destruct (apply_operation self e op w0) as [w1|] eqn:H1; simpl; [|discriminate].
    intros H.
    destruct (match op with OpSignal s => is_toggle s | OpLoaderRun _ => false end) eqn:Hop.
    + destruct op as [[]|]; try discriminate.
      destruct self as [cls|graphs]; [|discriminate].
      apply toggle_sets_column in H1 as (Ht & _ & Hv).
      assert (Hw1 : threads_only not_column_set w1).
      { intros n p. rewrite Ht. apply Hw. }
      rewrite (IH _ Hw1 Hc H), Hv. by apply lookup_alter_ne.
    + apply operation_keeps_columns in H1 as (Hw1 & _ & Hv); [|exact Hf| |exact Hw].
      * by rewrite (IH _ Hw1 Hc H), Hv.
      * destruct op; [exact Hop|exact I].
Qed.

(** X16. On the credentials tab the columns Email, Username and Submitted
    are visible after the constructor and stay visible whatever happens to
    the tab afterwards: the handler of the toggle sets the visibility of
    column 3 only, and nothing else sets the visibility of a column. *)
Theorem other_columns_stay_visible (timedef_to_seconds : string -> Z)
    (config : gmap string pyval) (format_datetime : pyval -> pyval)
    (toggle_active : bool) (ops : list (env * operation)) (w : world) (column : nat) :
  let self := GenericTab (CampaignViewCredentialsTab.cls format_datetime) in
  let w0 := credentials__init__ timedef_to_seconds config format_datetime toggle_active in
  apply_operations self ops w0 = Some w ->
  column <> 3 ->
  view_column_visible w !! column
  = if bool_decide (1 <= column <= 4) then Some true else None.
Proof.
  intros self w0 Hops Hc.
  rewrite (operations_other_columns self ops w0 w column); [|..|exact Hops]; [| | |exact Hc].
  - unfold w0, credentials__init__. cbn [view_column_visible set_view_column_visible].
    rewrite lookup_alter_ne by done. cbn [generic__init__ view_column_visible].
    destruct column as [|[|[|[|[|column]]]]]; try done.
    cbn. rewrite !lookup_insert_ne by lia. by rewrite lookup_empty.
  - intros row_data. apply formats_lookups.
  - by intros n p.
Qed.

Lemma inert_handler_only self s p :
  handler (GenericTab self) s = Some p -> is_inert s = true -> only inert_action p.
Proof.
  destruct s; try discriminate; simpl; intros [= <-] Hi.
  - unfold CampaignViewGenericTab.signal_treeview_button_pressed, ignore.
    destruct (negb _); simpl; [exact I|]. split; [reflexivity|].
    intros [tree_iter|]; simpl; [|exact I]. by split.
  - unfold CampaignViewGenericTab.signal_treeview_key_pressed.
    destruct is_key_press; simpl in *; [|exact I]. by destruct keyval.
  - unfold CampaignViewGenericTab.signal_activate_popup_menu_copy.
    split; [reflexivity|]. intros [tree_iter|]; simpl; [|exact I].
    split; [reflexivity|]. intros text. by split.
Qed.

Lemma inert_run {A} self e (p : prog A) :
  only inert_action p ->
  forall w, exists x l, run_main self e p w = Some (x, set_log (log w ++ l) w).
Proof.
  unfold run_main. induction p as [x|a k IH]; intros Ho w.
  - exists x, []. simpl. rewrite app_nil_r. by destruct w.
  - destruct Ho as [Ha Hk]. destruct a; try discriminate Ha.
    destruct c; try discriminate Ha; cbn [run perform gui];
      match goal with
      | |- context [run _ _ _ _ (k ?r) ?w1] =>
          destruct (IH r (Hk r) w1) as (x & l & ->)
      end;
      eexists x, (_ :: l); unfold record; rewrite set_log_set_log; cbn [log set_log];
      by rewrite <- app_assoc.
Qed.

(** X17. A button press on the tree view, a key press other than F5 and
    Delete, an event on the key handler that is no key press, and the copy
    item of the menu change nothing of the tab: their handlers call the
    selection, the menu, the model and the clipboard only, return, and leave
    the stores, the threads, the lock and [last_load_time] as they were.  The
    menu pops up, and the handler returns [True], exactly on a press of
    button 3 with a row selected. *)
Theorem inert_events_change_nothing (self : tab_class) (e : env) (s : signal) (w : world) :
  is_inert s = true ->
  (exists w', apply_operation (GenericTab self) e (OpSignal s) w = Some w'
              /\ logged_more w w')
  /\ forall is_button_press button,
       run_main (GenericTab self) e
         (CampaignViewGenericTab.signal_treeview_button_pressed is_button_press button) w
       = if is_button_press && (button =? 3)%Z && bool_decide (is_Some (env_selected e))
         then Some (Some true,
                    record MainThread (Gui PopupMenuPopup)
                      (record MainThread (Gui SelectionGetSelected) w))
         else if is_button_press && (button =? 3)%Z
         then Some (None, record MainThread (Gui SelectionGetSelected) w)
         else Some (None, w).
Proof.
  intros Hi. split.
  - destruct (handler (GenericTab self) s) as [p|] eqn:Hh; [|by destruct s].
    pose proof (inert_handler_only self s p Hh Hi) as Ho.
    assert (He : emit s w = w) by (by destruct s).
    destruct (inert_run (GenericTab self) e p Ho w) as ([] & l & Hrun).
    exists (set_log (log w ++ l) w). split; [|by exists l].
    unfold apply_operation. rewrite Hh. simpl. by rewrite He, Hrun.
  - intros is_button_press button. unfold run_main.
    unfold CampaignViewGenericTab.signal_treeview_button_pressed.
    destruct (is_button_press && (button =? 3)%Z); simpl; [|reflexivity].
    destruct (env_selected e); reflexivity.
Qed.

(** ** Edges of a load *)

(** X18. [refresh_frequency] is the bound from which on a load without
    [force] goes through: on a tab loaded at time [t] whose loader is not
    alive, the call made at time [now] starts the loader when
    [now - t >= refresh_frequency], the bound included, and changes nothing
    when [now - t < refresh_frequency]. *)
Theorem refresh_frequency_is_the_bound (self : tab_object) (e : env) (w : world) (t : Z) :
  last_load_time w = Stamp t ->
  loader_is_alive w = false -> lock_unheld w ->
  (needs_rpc self = true -> env_has_rpc e = true) ->
  exists w',
    run_main self e (CampaignViewTab.load_campaign_information self false) w = Some (tt, w')
    /\ (loader_is_alive w' = true <-> (refresh_frequency w <= env_time e - t)%Z)
    /\ ((env_time e - t < refresh_frequency w)%Z -> w' = w).
Proof.
  intros Hlast Ha Hl Hrpc.
  destruct (env_time e - t <? refresh_frequency w)%Z eqn:He.
  - exists w. split.
    + destruct self; unfold run_main; simpl; rewrite Hlast; simpl; by rewrite He.
    + apply Z.ltb_lt in He. rewrite Ha. split; [|done]. split; [discriminate|lia].
  - destruct (forced_load_starts self e w Ha (lock_unheld_free w Hl) Hrpc)
      as (w' & Hrun & Ha' & _).
    exists w'. apply Z.ltb_ge in He as He'. split; [|split; [by split|lia]].
    rewrite <- Hrun. destruct self; unfold run_main; simpl; rewrite Hlast; simpl;
      by rewrite He.
Qed.

(** X19. Without an RPC client ([self.parent] has no [rpc]) a load of the
    dashboard that is forced or finds the data stale logs the warning and
    does nothing else: the lock is not taken and no thread is created.  So a
    round of the timeout without an RPC client logs the debug line and the
    warning, and the timeout stays. *)
Theorem dashboard_load_without_rpc (graphs : list graph) (e : env) (force : bool)
    (w : world) :
  env_has_rpc e = false ->
  force = true \/ elapsed_lt (env_time e) (last_load_time w) (refresh_frequency w) = false ->
  let warning :=
    LoggerLog "warning" "skipping load_campaign_information because rpc is not initialized" in
  run_main (DashboardTab graphs) e
    (CampaignViewDashboardTab.load_campaign_information force) w
  = Some (tt, record MainThread warning w)
  /\ forall i, i < length (timeouts w) ->
       fire_timeout (DashboardTab graphs) e i w
       = Some (record MainThread warning
                 (record MainThread (LoggerLog "debug" "idle loader routine called") w)).
Proof.
  intros Hrpc Hstale warning. split.
  - unfold run_main. destruct force; simpl.
    + by rewrite Hrpc.
    + destruct Hstale as [|He]; [discriminate|]. rewrite He. simpl. by rewrite Hrpc.
  - intros i Hi. unfold fire_timeout.
    destruct (lookup_lt_is_Some_2 (timeouts w) i Hi) as [[secs []] ->]. simpl.
    unfold run_main. simpl. by rewrite Hrpc.
Qed.

(** X20. [is_destroyed] is never cleared, so a tab that was destroyed shows
    nothing any more: a forced load on it, followed by the whole run of the
    thread it starts, leaves the model of the tree view empty whatever the
    remote table holds. *)
Theorem reload_after_destroy_shows_nothing (self : tab_class) (e e' : env) (w : world) :
  (forall row_data, only is_row_lookup (format_row_data self row_data)) ->
  loader_is_alive w = false -> loader_thread_lock w = PlainLock false ->
  is_destroyed w = true -> model_exists w ->
  exists w1 w2,
    run_main (GenericTab self) e
      (CampaignViewGenericTab.load_campaign_information self true) w = Some (tt, w1)
    /\ apply_operation (GenericTab self) e' (OpLoaderRun (length (threads w))) w1 = Some w2
    /\ model_rows w2 = Some []
    /\ is_destroyed w2 = true
    /\ loader_is_alive w2 = false.
Proof.
  intros Hf Ha Hl Hd Hm.
  destruct (generic_load_fields self e w Ha Hl)
    as (w1 & Hrun & Hmodel & Hstores & Hthreads & Hloader & Hlock & Hdes & _ & _).
  set (store := default (length (stores w)) (treeview_model w)) in *.
  assert (Hd1 : is_destroyed w1 = true) by congruence.
  destruct (run_row_loader_thread_routine_destroyed self e' (length (threads w)) store w1
              Hf Hd1) as [l Hl1].
  assert (Hn : threads w1 !! length (threads w)
               = Some (Started (CampaignViewGenericTab.row_loader_thread_routine self store))).
  { rewrite Hthreads. apply lookup_created. }
  assert (Hs : store_rows <$> (stores w1 !! store) = Some []).
  { rewrite Hstores. unfold store, model_exists in *.
    destruct (treeview_model w) as [st|]; simpl.
    - rewrite list_lookup_alter_eq.
      destruct (lookup_lt_is_Some_2 (stores w) st Hm) as [s ->]. reflexivity.
    - rewrite lookup_app_r by lia. by rewrite Nat.sub_diag. }
  exists w1. eexists. split; [exact Hrun|]. split.
  { unfold apply_operation. rewrite Hn. simpl. rewrite Hl1. reflexivity. }
  destruct (kept_rows self e' (table_rows self e')) as [|kept rest]; (split; [|split]);
    try exact Hd1.
  - unfold model_rows. change (treeview_model (set_thread _ _ _)) with (treeview_model w1).
    rewrite Hmodel. simpl. change (stores (set_thread _ _ _)) with (stores w1).
    destruct (stores w1 !! store) as [s1|]; simpl in *; congruence.
  - unfold loader_is_alive.
    change (loader_thread (set_thread _ _ _)) with (loader_thread w1). rewrite Hloader.
    change (threads (set_thread ?n ?c ?w0)) with (<[n := Started c]> (threads w1)).
    rewrite list_lookup_insert_eq; [reflexivity|]. by eapply lookup_lt_Some.
  - unfold model_rows. change (treeview_model (set_thread _ _ _)) with (treeview_model w1).
    rewrite Hmodel. simpl. change (stores (set_thread _ _ _)) with (stores w1).
    destruct (stores w1 !! store) as [s1|]; simpl in *; congruence.
  - unfold loader_is_alive.
    change (loader_thread (set_thread _ _ _)) with (loader_thread w1). rewrite Hloader.
    change (threads (set_thread ?n ?c ?w0)) with (<[n := Started c]> (threads w1)).
    rewrite list_lookup_insert_eq; [reflexivity|]. by eapply lookup_lt_Some.
Qed.

(** ** The lock, with every call made by the main thread *)

Lemma holds_bind {A B} held (p : prog A) (f : A -> prog B) :
  holds held p -> (forall x, holds false (f x)) -> holds held (x <~ p; f x).
Proof.
  intros Hp Hf. revert held Hp. induction p as [x|a k IH]; intros held Hp; simpl in *.
  - subst held. apply Hf.
  - destruct a; try (intros r; apply IH, Hp);
      (destruct Hp as [Hh Hk]; split; [exact Hh|]; intros r; apply IH, Hk).
Qed.

Ltac holds_tac :=
  simpl;
  repeat match goal with
         | |- True => exact I
         | |- _ /\ _ => split
         | |- _ = _ => reflexivity
         | |- forall _, _ => intro; simpl
         | |- holds _ (match ?x with _ => _ end) => destruct x; simpl
         | |- holds _ (bind (match ?x with _ => _ end) _) => destruct x; simpl
         | |- holds _ (bind _ _) => apply holds_bind
         end.

Lemma load_campaign_information_holds self force :
  holds false (CampaignViewTab.load_campaign_information self force).
Proof.
  destruct self as [cls|graphs], force;
    unfold CampaignViewTab.load_campaign_information,
      CampaignViewGenericTab.load_campaign_information,
      CampaignViewDashboardTab.load_campaign_information, not_stale;
    holds_tac.
Qed.

Lemma handler_holds self s p : handler self s = Some p -> holds false p.
Proof.
  pose proof load_campaign_information_holds as Hl.
  destruct self as [cls|graphs], s; simpl; intros [= <-];
    try apply (Hl (GenericTab cls)); try apply (Hl (DashboardTab graphs));
    unfold CampaignViewGenericTab.signal_button_clicked_export,
      CampaignViewGenericTab.signal_destroy,
      CampaignViewGenericTab.signal_treeview_button_pressed,
      CampaignViewGenericTab.signal_treeview_key_pressed,
      CampaignViewGenericTab.signal_activate_popup_menu_copy,
      CampaignViewGenericTab._prompt_to_delete_row,
      CampaignViewCredentialsTab.signal_button_toggled_show_passwords,
      callback_code, CampaignViewDashboardTab.loader_idle_routine, ignore;
    holds_tac;
    try apply (Hl (GenericTab cls)); try apply (Hl (DashboardTab graphs)).
Qed.

Lemma thread_code_no_lock self target :
  formats_plainly self -> only not_lock_action (thread_code self target).
Proof.
  intros Hf. apply thread_code_only; [exact Hf| |].
  - intros a. destruct a; try discriminate; reflexivity.
  - intros a. destruct a; try exact I; try reflexivity. by destruct c.
Qed.

Lemma lock_inv_step self s s' :
  formats_plainly self -> lock_inv s -> step self s s' -> lock_inv s'.
Proof.
  intros Hf [Hth Hmain] Hstep.
  destruct Hstep as [sg p w Hh|e a k r w w' Hp|w|e n a k r w w' main Hn Hp];
    unfold lock_inv in *; cbn [sys_world sys_main] in *.
  - split.
    + intros n q. destruct (emit_frame sg w) as (-> & _). apply Hth.
    + exists false. split; [by eapply handler_holds|].
      unfold lock_unheld in *. by destruct sg.
  - split;
      [eapply perform_threads_only;
         [intros target; by apply thread_code_no_lock|exact Hth|exact Hp]|].
    destruct Hmain as (held & Hq & Hlock).
    pose proof (perform_lock_frame _ _ _ _ _ _ _ _ Hp) as Fk.
    destruct a; simpl in Hq;
      try (exists held; split; [apply Hq|];
           unfold lock_held_by_main, lock_unheld in *; rewrite Fk; exact Hlock).
    + (* LockAcquire *)
      destruct Hq as [-> Hq]. exists true. split; [apply Hq|].
      simpl in Hp. unfold lock_held_by_main.
      destruct Hlock as [Hl|Hl]; rewrite Hl in Hp; simpl in Hp; injection Hp as <- <-;
        [by left|by right].
    + (* LockRelease *)
      destruct Hq as [-> Hq]. exists false. split; [apply Hq|].
      simpl in Hp. injection Hp as <- <-. unfold lock_unheld.
      destruct Hlock as [Hl|Hl]; cbn; rewrite Hl; simpl; [by left|by right].
  - destruct Hmain as (held & -> & Hlock). split; [exact Hth|exact Hlock].
  - pose proof (Hth n _ Hn) as [Ha Hk].
    split.
    + apply threads_only_set_thread; [apply Hk|].
      eapply perform_threads_only;
        [intros target; by apply thread_code_no_lock|exact Hth|exact Hp].
    + pose proof (perform_lock_frame _ _ _ _ _ _ _ _ Hp) as Fk.
      assert (El : loader_thread_lock (set_thread n (k r) w') = loader_thread_lock w).
      { destruct a; try discriminate Ha; exact Fk. }
      unfold lock_held_by_main, lock_unheld in *. rewrite El. exact Hmain.
Qed.

(** X21. With every call made by the main thread, no handler ever waits for
    the loader lock: in every state of a run from a tab whose lock is free,
    the lock is free whenever the main thread is back in its loop, the
    handler that is about to acquire the lock finds it free, and the loader
    threads never touch it. *)
Theorem handlers_never_wait_for_the_lock (self : tab_object) (w0 : world) (s : system) :
  formats_plainly self -> threads w0 = [] -> lock_unheld w0 ->
  reachable self w0 s ->
  (sys_main s = None -> lock_unheld (sys_world s))
  /\ (forall k, sys_main s = Some (Do LockAcquire k) ->
        is_Some (lock_acquire MainThread (loader_thread_lock (sys_world s))))
  /\ threads_only not_lock_action (sys_world s).
Proof.
  intros Hf Ht Hl Hreach.
  assert (Hinv : lock_inv s).
  { induction Hreach as [|s s' _ IH Hstep].
    - split; [|exact Hl]. cbn [sys_world]. intros n p. by rewrite Ht.
    - by eapply lock_inv_step. }
  destruct Hinv as [Hth Hmain]. split; [|split; [|exact Hth]].
  - intros Hnone. by rewrite Hnone in Hmain.
  - intros k Hk. rewrite Hk in Hmain. destruct Hmain as (held & [-> _] & Hlock).
    by apply lock_unheld_free.
Qed.

(** ** What a loader waits for *)

Lemma reachable_threads_only ok self w0 s :
  (forall target, only ok (thread_code self target)) ->
  threads_only ok w0 -> reachable self w0 s -> threads_only ok (sys_world s).
Proof.
  intros Hc Ht. induction 1 as [|s s' _ IH Hstep].
  - exact Ht.
  - destruct Hstep as [sg p w Hh|e a k r w w' Hp|w|e n a k r w w' main Hn Hp];
      cbn [sys_world] in *.
    + intros n q. destruct (emit_frame sg w) as (-> & _). apply IH.
    + by eapply perform_threads_only.
    + exact IH.
    + apply threads_only_set_thread; [apply (IH n _ Hn)|].
      by eapply perform_threads_only.
Qed.

Lemma thread_code_waits self target :
  formats_plainly self -> only waits_for_main_loop_only (thread_code self target).
Proof.
  intros Hf. apply thread_code_only; [exact Hf| |].
  - intros b. destruct b; try discriminate; reflexivity.
  - intros b. destruct b; try exact I; try reflexivity. by destruct c.
Qed.

(** X24. A loader thread waits for nothing but the main loop: in every
    state of a run in which the main thread is in its loop or in a dialog,
    each loader thread that is alive can take its next step, whatever the
    server, the clock and the user answer. *)
Theorem loader_waits_only_for_the_main_loop (self : tab_object) (w0 : world) (s : system)
    (n : nat) (a : action) (k : result a -> prog unit) (e : env) :
  formats_plainly self ->
  threads_only waits_for_main_loop_only w0 ->
  reachable self w0 s ->
  main_idle (sys_main s) = true ->
  threads (sys_world s) !! n = Some (Started (Do a k)) ->
  exists r w',
    perform self e (main_idle (sys_main s)) (LoaderThread n) a (sys_world s) = Some (r, w').
Proof.
  intros Hf Ht Hreach Hidle Hn.
  assert (Hok : threads_only waits_for_main_loop_only (sys_world s)).
  { eapply reachable_threads_only; [|exact Ht|exact Hreach].
    intros target. by apply thread_code_waits. }
  destruct (Hok n _ Hn) as [Ha _]. rewrite Hidle.
  destruct a; try discriminate Ha; simpl; try (eexists; eexists; reflexivity).
  - destruct (gui e c (sys_world s)) as [r w']. eexists. eexists. reflexivity.
  - destruct (gui e c _) as [r w']. eexists. eexists. reflexivity.
Qed.

(** ** The further properties at sample inputs *)

(** X1 on the messages tab as its constructor leaves it. *)
Lemma generic_load_proceeds_witness :
  loader_is_alive sample_messages_tab = false
  /\ loader_thread_lock sample_messages_tab = PlainLock false
  /\ exists w',
       run_main (GenericTab sample_messages_cls) sample_env
         (CampaignViewGenericTab.load_campaign_information sample_messages_cls true)
         sample_messages_tab = Some (tt, w')
       /\ treeview_model w' = Some 0
       /\ stores w' = [{| store_ncols := 5; store_rows := [] |}]
       /\ loader_thread w' = Some 0.
Proof.
  destruct (generic_load_proceeds sample_messages_cls sample_env true sample_messages_tab
              eq_refl eq_refl (or_introl eq_refl))
    as (w' & H1 & H2 & H3 & _ & H5 & _).
  split; [reflexivity|]. split; [reflexivity|]. exists w'.
  split; [exact H1|]. split; [exact H2|]. split; [exact H3|exact H5].
Defined.

(** X2 on the messages tab while its loader is at work on the second of
    two rows, and on the sample dashboard with its loader started, with and
    without RPC client. *)
Lemma load_while_loading_keeps_state_witness :
  loader_is_alive (sys_world sample_mid_load) = true
  /\ lock_unheld (sys_world sample_mid_load)
  /\ run_main (GenericTab sample_messages_cls) sample_env
       (CampaignViewTab.load_campaign_information (GenericTab sample_messages_cls) true)
       (sys_world sample_mid_load) = Some (tt, sys_world sample_mid_load)
  /\ loader_is_alive sample_dashboard_loading = true
  /\ lock_unheld sample_dashboard_loading
  /\ run_main (DashboardTab sample_dashboard.1) sample_env
       (CampaignViewDashboardTab.load_campaign_information true) sample_dashboard_loading
     = Some (tt, set_log (log sample_dashboard_loading
                          ++ [(MainThread, LockAcquire); (MainThread, LockRelease)])
                   sample_dashboard_loading)
  /\ run_main (DashboardTab sample_dashboard.1) sample_env_no_rpc
       (CampaignViewDashboardTab.load_campaign_information true) sample_dashboard_loading
     = Some (tt, set_log (log sample_dashboard_loading ++ [skipped_load_warning])
                   sample_dashboard_loading).
Proof.
  assert (Ha : loader_is_alive (sys_world sample_mid_load) = true)
    by (vm_compute; reflexivity).
  assert (Hl : lock_unheld (sys_world sample_mid_load)) by (left; vm_compute; reflexivity).
  assert (Ha' : loader_is_alive sample_dashboard_loading = true)
    by (vm_compute; reflexivity).
  assert (Hl' : lock_unheld sample_dashboard_loading) by (right; vm_compute; reflexivity).
  pose proof (load_while_loading_keeps_state (GenericTab sample_messages_cls) sample_env true
                (sys_world sample_mid_load) Ha Hl) as H1.
  pose proof (load_while_loading_keeps_state (DashboardTab sample_dashboard.1) sample_env
                true sample_dashboard_loading Ha' Hl') as H2.
  pose proof (load_while_loading_keeps_state (DashboardTab sample_dashboard.1)
                sample_env_no_rpc true sample_dashboard_loading Ha' Hl') as H3.
  split; [exact Ha|]. split; [exact Hl|].
  split; [rewrite H1; vm_compute; reflexivity|].
  split; [exact Ha'|]. split; [exact Hl'|]. split; [exact H2|exact H3].
Defined.

(** X3 on the dashboard as its constructor leaves it. *)
Lemma load_releases_lock_witness :
  lock_unheld sample_dashboard.2
  /\ exists w',
       run_main (DashboardTab sample_dashboard.1) sample_env
         (CampaignViewTab.load_campaign_information (DashboardTab sample_dashboard.1) true)
         sample_dashboard.2 = Some (tt, w')
       /\ loader_thread_lock w' = ReentrantLock None.
Proof.
  assert (Hl : lock_unheld sample_dashboard.2) by (right; vm_compute; reflexivity).
  destruct (load_releases_lock (DashboardTab sample_dashboard.1) sample_env true
              sample_dashboard.2 Hl) as (w' & H1 & H2).
  split; [exact Hl|]. exists w'. split; [exact H1|]. rewrite H2. by vm_compute.
Defined.

(** X4 on the messages tab and the two sample rows. *)
Lemma complete_load_shows_rows_witness :
  (forall row_data, only is_row_lookup (format_row_data sample_messages_cls row_data))
  /\ loader_is_alive sample_messages_tab = false
  /\ loader_thread_lock sample_messages_tab = PlainLock false
  /\ is_destroyed sample_messages_tab = false
  /\ model_exists sample_messages_tab
  /\ exists w1 w2,
       run_main (GenericTab sample_messages_cls) sample_env
         (CampaignViewGenericTab.load_campaign_information sample_messages_cls true)
         sample_messages_tab = Some (tt, w1)
       /\ apply_operation (GenericTab sample_messages_cls) sample_table_env (OpLoaderRun 0) w1
          = Some w2
       /\ model_rows w2
          = Some [["7"; "alice@example.org"; "2014-03-01"; ""; "Yes"];
                  ["8"; "bob@example.org"; "2014-03-02"; "2014-03-03"; ""]].
Proof.
  assert (Hf : forall row_data,
             only is_row_lookup (format_row_data sample_messages_cls row_data))
    by (intros row_data; exact I).
  destruct (complete_load_shows_rows sample_messages_cls sample_env sample_table_env
              sample_messages_tab Hf eq_refl eq_refl eq_refl I)
    as (w1 & w2 & H1 & H2 & H3 & _).
  split; [exact Hf|]. split; [reflexivity|]. split; [reflexivity|]. split; [reflexivity|].
  split; [exact I|]. exists w1, w2. split; [exact H1|]. split; [exact H2|].
  rewrite H3. by vm_compute.
Defined.

(** X5 on the messages tab after [signal_destroy], with the two sample
    rows in the table. *)
Lemma destroyed_loader_appends_nothing_witness :
  (forall row_data, only is_row_lookup (format_row_data sample_messages_cls row_data))
  /\ is_destroyed (sys_world sample_destroyed) = true
  /\ exists w',
       run_loader (GenericTab sample_messages_cls) sample_table_env 0
         (CampaignViewGenericTab.row_loader_thread_routine sample_messages_cls 0)
         (sys_world sample_destroyed) = Some (tt, w')
       /\ stores w' = []
       /\ treeview_sensitive w' = false
       /\ last_load_time w' = NegInf.
Proof.
  assert (Hf : forall row_data,
             only is_row_lookup (format_row_data sample_messages_cls row_data))
    by (intros row_data; exact I).
  destruct (destroyed_loader_appends_nothing sample_messages_cls sample_table_env 0 0
              (sys_world sample_destroyed) Hf eq_refl) as (w' & H1 & H2 & H3).
  change (treeview_sensitive w' = false /\ last_load_time w' = NegInf) in H3.
  split; [exact Hf|]. split; [reflexivity|]. exists w'.
  split; [exact H1|]. split; [exact H2|exact H3].
Defined.

(** X6 on the messages tab and the two sample rows, the first row selected
    and its Email cell copied. *)
Lemma selected_row_is_the_table_row_witness :
  kept_rows sample_messages_cls sample_table_env
    (table_rows sample_messages_cls sample_table_env) !! 0
  = Some (PInt 7, [PStr "alice@example.org"; PStr "2014-03-01"; PNone; PStr "Yes"])
  /\ cells (PInt 7) [PStr "alice@example.org"; PStr "2014-03-01"; PNone; PStr "Yes"] !! 1
     = Some "alice@example.org"
  /\ env_selected sample_env = Some 0
  /\ env_yes_no sample_env = true
  /\ exists w2 w3 w4,
       log w3 = log w2 ++ [(MainThread, Gui SelectionGetSelected);
                           (MainThread, Gui (ModelGetValue 0 1));
                           (MainThread, Gui (ClipboardSetText "alice@example.org"))]
       /\ run_main (GenericTab sample_messages_cls) sample_env
            (CampaignViewGenericTab._prompt_to_delete_row sample_messages_cls) w2
          = Some (tt, w4)
       /\ (MainThread, RpcCall "messages/delete" (PStr "7")) ∈ log w4.
Proof.
  assert (Hf : forall row_data,
             only is_row_lookup (format_row_data sample_messages_cls row_data))
    by (intros row_data; exact I).
  assert (Hk : kept_rows sample_messages_cls sample_table_env
                 (table_rows sample_messages_cls sample_table_env) !! 0
               = Some (PInt 7, [PStr "alice@example.org"; PStr "2014-03-01"; PNone;
                                PStr "Yes"]))
    by (vm_compute; reflexivity).
  assert (Hc : cells (PInt 7) [PStr "alice@example.org"; PStr "2014-03-01"; PNone; PStr "Yes"]
                 !! 1 = Some "alice@example.org")
    by (vm_compute; reflexivity).
  destruct (selected_row_is_the_table_row sample_messages_cls sample_env sample_table_env
              sample_env sample_messages_tab 0 1 (PInt 7)
              [PStr "alice@example.org"; PStr "2014-03-01"; PNone; PStr "Yes"]
              "alice@example.org" Hf eq_refl eq_refl eq_refl I Hk Hc eq_refl eq_refl)
    as (w1 & w2 & w3 & w4 & _ & _ & _ & H4 & H5 & H6 & _).
  split; [exact Hk|]. split; [exact Hc|]. split; [reflexivity|]. split; [reflexivity|].
  exists w2, w3, w4. split; [exact H4|]. split; [exact H5|exact H6].
Defined.

(** X7 on a run of the loader of the messages tab over a table of one
    row. *)
Lemma appended_rows_fit_the_store_witness :
  sample_messages_cls ∈ [CampaignViewDeaddropTab.cls sample_format_datetime;
                         CampaignViewCredentialsTab.cls sample_format_datetime;
                         CampaignViewVisitsTab.cls sample_format_datetime;
                         CampaignViewMessagesTab.cls sample_format_datetime]
  /\ runs (CampaignViewGenericTab.row_loader_thread_routine sample_messages_cls 0)
       sample_loader_trace_row tt
  /\ Forall (fun ev => appends_width 5 (ev_action ev) = true) sample_loader_trace_row.
Proof.
  assert (Hc : sample_messages_cls ∈ [CampaignViewDeaddropTab.cls sample_format_datetime;
                                      CampaignViewCredentialsTab.cls sample_format_datetime;
                                      CampaignViewVisitsTab.cls sample_format_datetime;
                                      CampaignViewMessagesTab.cls sample_format_datetime]).
  { rewrite !elem_of_cons. right. right. right. by left. }
  assert (Hr : runs (CampaignViewGenericTab.row_loader_thread_routine sample_messages_cls 0)
                 sample_loader_trace_row tt).
  { unfold sample_loader_trace_row. simpl.
    repeat (eexists; eexists; split; [reflexivity|]; simpl). split; reflexivity. }
  split; [exact Hc|]. split; [exact Hr|].
  exact (appended_rows_fit_the_store sample_format_datetime sample_messages_cls 0
           sample_loader_trace_row Hc Hr).
Defined.

(** X8 on a confirmed delete of the first row of the messages tab. *)
Lemma delete_needs_selection_and_yes_witness :
  runs (CampaignViewGenericTab._prompt_to_delete_row sample_messages_cls)
    sample_delete_trace tt
  /\ Exists (fun ev => is_delete_rpc (ev_action ev) = true) sample_delete_trace
  /\ exists tree_iter row_id t',
       sample_delete_trace
       = [Ev LoaderIsAlive false;
          Ev (Gui SelectionGetSelected) (Some tree_iter);
          Ev (Gui (ModelGetValue tree_iter 0)) row_id;
          Ev (Gui (ShowDialogYesNo "Delete This Row?" "This information will be lost.")) true;
          Ev (RpcCall "messages/delete" (PStr row_id)) tt] ++ t'
       /\ Forall (fun ev => is_delete_rpc (ev_action ev) = false) t'.
Proof.
  assert (Hr : runs (CampaignViewGenericTab._prompt_to_delete_row sample_messages_cls)
                 sample_delete_trace tt).
  { unfold sample_delete_trace. simpl.
    repeat (eexists; eexists; split; [reflexivity|]; simpl). split; reflexivity. }
  assert (He : Exists (fun ev => is_delete_rpc (ev_action ev) = true) sample_delete_trace).
  { unfold sample_delete_trace. do 4 apply Exists_cons_tl. by apply Exists_cons_hd. }
  destruct (delete_needs_selection_and_yes sample_messages_cls sample_delete_trace Hr He)
    as (tree_iter & row_id & t' & H1 & _ & H3).
  split; [exact Hr|]. split; [exact He|]. exists tree_iter, row_id, t'.
  split; [exact H1|exact H3].
Defined.

(** X9 on an export to a chosen path, and on an export with a campaign
    name that is [None]. *)
Lemma export_needs_a_chosen_path_witness :
  runs (CampaignViewGenericTab.signal_button_clicked_export sample_messages_cls)
    sample_export_trace tt
  /\ Exists (fun ev => is_export (ev_action ev) = true) sample_export_trace
  /\ (exists campaign_name destination_file,
        sample_export_trace
        = [Ev LoaderIsAlive false;
           Ev (ConfigGet "campaign_name") (PStr campaign_name);
           Ev (Gui (FileChooserQuickSave (campaign_name +:+ ".csv")))
              (Some destination_file);
           Ev (ExportCsv destination_file) tt])
  /\ runs (CampaignViewGenericTab.signal_button_clicked_export sample_messages_cls)
       sample_export_raise_trace tt
  /\ Exists (fun ev => is_raise (ev_action ev) = true) sample_export_raise_trace
  /\ (exists campaign_name,
        (forall name, campaign_name <> PStr name)
        /\ sample_export_raise_trace
           = [Ev LoaderIsAlive false;
              Ev (ConfigGet "campaign_name") campaign_name;
              Ev (Raise "TypeError") tt]).
Proof.
  assert (Hr : runs (CampaignViewGenericTab.signal_button_clicked_export sample_messages_cls)
                 sample_export_trace tt).
  { unfold sample_export_trace. simpl.
    repeat (eexists; eexists; split; [reflexivity|]; simpl). split; reflexivity. }
  assert (He : Exists (fun ev => is_export (ev_action ev) = true) sample_export_trace).
  { unfold sample_export_trace. do 3 apply Exists_cons_tl. by apply Exists_cons_hd. }
  assert (Hr' : runs (CampaignViewGenericTab.signal_button_clicked_export
                        sample_messages_cls) sample_export_raise_trace tt).
  { unfold sample_export_raise_trace. simpl.
    repeat (eexists; eexists; split; [reflexivity|]; simpl). split; reflexivity. }
  assert (He' : Exists (fun ev => is_raise (ev_action ev) = true) sample_export_raise_trace).
  { unfold sample_export_raise_trace. do 2 apply Exists_cons_tl. by apply Exists_cons_hd. }
  destruct (export_needs_a_chosen_path sample_messages_cls sample_export_trace Hr)
    as [H1 _].
  destruct (export_needs_a_chosen_path sample_messages_cls sample_export_raise_trace Hr')
    as [_ H2].
  split; [exact Hr|]. split; [exact He|]. split; [exact (H1 He)|].
  split; [exact Hr'|]. split; [exact He'|exact (H2 He')].
Defined.

(** X10 on the sample configuration: VisitorInfo is not found. *)
Lemma dashboard_graphs_follow_ports_witness :
  configured sample_config dash_ports sample_graph_names
  /\ exists w,
       dashboard__init__ sample_timedef_to_seconds sample_config sample_get_graph dash_ports
       = Some ([{| graph_name := "Overview"; graph_size := Some (380, 200)%Z |};
                {| graph_name := "VisitsTimeline"; graph_size := None |}], w)
       /\ log w = [(MainThread,
                    LoggerLog "debug" "dashboard refresh frequency set to 300 seconds");
                   graph_warning "VisitorInfo"]
  /\ dashboard__init__ sample_timedef_to_seconds ∅ sample_get_graph dash_ports = None.
Proof.
  assert (Hc : configured sample_config dash_ports sample_graph_names).
  { repeat constructor. }
  destruct (dashboard_graphs_follow_ports sample_timedef_to_seconds sample_config
              sample_get_graph dash_ports) as [_ H].
  destruct (H sample_graph_names Hc) as (w & H1 & H2 & _).
  destruct (dashboard_graphs_follow_ports sample_timedef_to_seconds ∅ sample_get_graph
              dash_ports) as [[H3 _] _].
  split; [exact Hc|]. exists w. split; [exact H1|]. split; [rewrite H2; vm_compute; reflexivity|].
  destruct (dashboard__init__ sample_timedef_to_seconds ∅ sample_get_graph dash_ports)
    as [d|] eqn:Hd; [|reflexivity].
  destruct H3 as [names Hn]; [by eexists|].
  apply Forall2_cons_inv_l in Hn as (name & names' & Hbad & _). discriminate Hbad.
Defined.

(** X12 on the messages tab of the top-level tab as its constructor leaves
    it. *)
Lemma campaign_set_loads_every_tab_witness :
  (exists tab,
     CampaignViewTab.tabs sample_view_tab !! "messages" = Some tab
     /\ lock_unheld (CampaignViewTab.tab_world tab))
  /\ dom (CampaignViewTab.tabs (CampaignViewTab.signal_kpc_campaign_set sample_env
                                  sample_view_tab))
     = dom (CampaignViewTab.tabs sample_view_tab)
  /\ exists tab',
       CampaignViewTab.tabs (CampaignViewTab.signal_kpc_campaign_set sample_env
                               sample_view_tab) !! "messages" = Some tab'
       /\ loader_is_alive (CampaignViewTab.tab_world tab') = true.
Proof.
  assert (Ht : CampaignViewTab.tabs sample_view_tab !! "messages"
               = Some {| CampaignViewTab.tab_self := GenericTab sample_messages_cls;
                         CampaignViewTab.tab_world := sample_messages_tab |})
    by (vm_compute; reflexivity).
  assert (Hl : lock_unheld sample_messages_tab) by (by left).
  destruct (campaign_set_loads_every_tab sample_env sample_view_tab "messages" _ Ht Hl
              (fun _ => eq_refl)) as (H1 & _ & _ & tab' & H4 & _ & H6).
  split; [eexists; split; [exact Ht|exact Hl]|]. split; [exact H1|].
  exists tab'. split; [exact H4|exact H6].
Defined.

(** X14 on the page of the visits tab, and on the page of the dashboard, of
    the top-level tab built from the sample configuration. *)
Lemma first_visit_starts_the_loader_witness :
  CampaignViewTab.__init__ sample_timedef_to_seconds sample_format_datetime sample_get_graph
    true dash_ports false sample_config = Some sample_view_tab
  /\ env_has_rpc sample_env = true
  /\ "visits" ∈ CampaignViewTab.notebook_pages sample_view_tab
  /\ (exists tab',
        CampaignViewTab.tabs (CampaignViewTab._tab_changed sample_env "visits" 2
                                sample_view_tab) !! "visits" = Some tab'
        /\ loader_is_alive (CampaignViewTab.tab_world tab') = true)
  /\ "dashboard" ∈ CampaignViewTab.notebook_pages sample_view_tab
  /\ (exists tab',
        CampaignViewTab.tabs (CampaignViewTab._tab_changed sample_env "dashboard" 0
                                sample_view_tab) !! "dashboard" = Some tab'
        /\ loader_is_alive (CampaignViewTab.tab_world tab') = true).
Proof.
  assert (Hs : CampaignViewTab.__init__ sample_timedef_to_seconds sample_format_datetime
                 sample_get_graph true dash_ports false sample_config
               = Some sample_view_tab) by (vm_compute; reflexivity).
  assert (Hpages : CampaignViewTab.notebook_pages sample_view_tab
                   = ["dashboard"; "messages"; "visits"; "credentials";
                      "deaddrop_connections"]) by (vm_compute; reflexivity).
  assert (Hp : "visits" ∈ CampaignViewTab.notebook_pages sample_view_tab).
  { rewrite Hpages, !elem_of_cons. right. right. by left. }
  assert (Hp' : "dashboard" ∈ CampaignViewTab.notebook_pages sample_view_tab).
  { rewrite Hpages, !elem_of_cons. by left. }
  destruct (first_visit_starts_the_loader sample_timedef_to_seconds sample_format_datetime
              sample_get_graph true dash_ports false sample_config sample_view_tab
              sample_env "visits" 2 Hs eq_refl Hp)
    as (tab & tab' & _ & _ & H3 & _ & H5 & _).
  destruct (first_visit_starts_the_loader sample_timedef_to_seconds sample_format_datetime
              sample_get_graph true dash_ports false sample_config sample_view_tab
              sample_env "dashboard" 0 Hs eq_refl Hp')
    as (tab0 & tab0' & _ & _ & H3' & _ & H5' & _).
  split; [exact Hs|]. split; [reflexivity|]. split; [exact Hp|].
  split; [exists tab'; by split|]. split; [exact Hp'|]. exists tab0'. by split.
Defined.

(** X15 on the messages tab, [signal_destroy] taken up right after a forced
    load, the loader waiting to make the tree view insensitive; the handler
    sets the flag. *)
Lemma destroy_blocks_on_waiting_loader_witness :
  loader_thread (sys_world sample_destroy_while_loading) = Some 0
  /\ (exists k, threads (sys_world sample_destroy_while_loading) !! 0
                = Some (Started (Do (GlibIdleAddWait (TreeviewSetSensitive false)) k)))
  /\ sys_main sample_destroy_while_loading = Some CampaignViewGenericTab.signal_destroy
  /\ rtc (step (GenericTab sample_messages_cls)) sample_destroy_while_loading
       sample_destroy_joining
  /\ sys_main sample_destroy_joining <> None
  /\ loader_is_alive (sys_world sample_destroy_joining) = true.
Proof.
  assert (Hl : loader_thread (sys_world sample_destroy_while_loading) = Some 0)
    by (vm_compute; reflexivity).
  assert (Ht : threads (sys_world sample_destroy_while_loading)
               = [Started (CampaignViewGenericTab.row_loader_thread_routine
                             sample_messages_cls 0)])
    by (vm_compute; reflexivity).
  assert (Hn : exists k, threads (sys_world sample_destroy_while_loading) !! 0
                         = Some (Started (Do (GlibIdleAddWait (TreeviewSetSensitive false)) k))).
  { rewrite Ht. eexists. reflexivity. }
  assert (U : forall m t, threads (sys_world sample_destroy_while_loading) !! m = Some t ->
                          is_alive t = true -> m = 0).
  { rewrite Ht. intros [|m] t; [done|]. by destruct m. }
  assert (Hs : rtc (step (GenericTab sample_messages_cls)) sample_destroy_while_loading
                 sample_destroy_joining).
  { apply rtc_once.
    exact (step_main (GenericTab sample_messages_cls) sample_env IsDestroyedSet
             (fun _ => alive <- LoaderIsAlive; if alive then ThreadJoin;; Ret tt else Ret tt)
             tt sample_loading_tab (sys_world sample_destroy_joining) eq_refl). }
  destruct (destroy_blocks_on_waiting_loader (GenericTab sample_messages_cls) 0
              (TreeviewSetSensitive false) sample_destroy_while_loading
              sample_destroy_joining Hl Hn U eq_refl Hs)
    as (H1 & H2 & _).
  split; [exact Hl|]. split; [exact Hn|]. split; [reflexivity|].
  split; [exact Hs|]. split; [exact H1|exact H2].
Defined.

(** X16 on the credentials tab after the toggle. *)
Lemma other_columns_stay_visible_witness :
  apply_operations sample_credentials_self sample_toggle sample_credentials_tab
  = Some sample_toggled_tab
  /\ 2 <> 3
  /\ view_column_visible sample_toggled_tab !! 2 = Some true.
Proof.
  assert (H1 : apply_operations sample_credentials_self sample_toggle sample_credentials_tab
               = Some sample_toggled_tab) by (vm_compute; reflexivity).
  assert (H2 : 2 <> 3) by lia.
  split; [exact H1|]. split; [exact H2|].
  exact (other_columns_stay_visible sample_timedef_to_seconds ∅ sample_format_datetime false
           sample_toggle sample_toggled_tab 2 H1 H2).
Defined.

(** X17 on a press of the left button. *)
Lemma inert_events_change_nothing_witness :
  is_inert (SigTreeviewButtonPressed true 1) = true
  /\ exists w',
       apply_operation (GenericTab sample_messages_cls) sample_env
         (OpSignal (SigTreeviewButtonPressed true 1)) sample_messages_tab = Some w'
       /\ logged_more sample_messages_tab w'.
Proof.
  destruct (inert_events_change_nothing sample_messages_cls sample_env
              (SigTreeviewButtonPressed true 1) sample_messages_tab eq_refl) as [H _].
  split; [reflexivity|exact H].
Defined.

(** X18 on the messages tab, loaded at time 100 and asked again at time 200
    with a refresh frequency of 300. *)
Lemma refresh_frequency_is_the_bound_witness :
  last_load_time sample_loaded_tab = Stamp 100
  /\ loader_is_alive sample_loaded_tab = false
  /\ lock_unheld sample_loaded_tab
  /\ run_main (GenericTab sample_messages_cls) sample_env
       (CampaignViewTab.load_campaign_information (GenericTab sample_messages_cls) false)
       sample_loaded_tab = Some (tt, sample_loaded_tab).
Proof.
  assert (Hl : lock_unheld sample_loaded_tab) by (by left).
  destruct (refresh_frequency_is_the_bound (GenericTab sample_messages_cls) sample_env
              sample_loaded_tab 100 eq_refl eq_refl Hl (fun _ => eq_refl))
    as (w' & H1 & _ & H3).
  assert (Hlt : (env_time sample_env - 100 < refresh_frequency sample_loaded_tab)%Z)
    by (vm_compute; reflexivity).
  split; [reflexivity|]. split; [reflexivity|]. split; [exact Hl|].
  by rewrite (H3 Hlt) in H1.
Defined.

(** X19 on the dashboard as its constructor leaves it, without RPC client. *)
Lemma dashboard_load_without_rpc_witness :
  env_has_rpc sample_env_no_rpc = false
  /\ run_main (DashboardTab sample_dashboard.1) sample_env_no_rpc
       (CampaignViewDashboardTab.load_campaign_information true) sample_dashboard.2
     = Some (tt, record MainThread
                   (LoggerLog "warning"
                      "skipping load_campaign_information because rpc is not initialized")
                   sample_dashboard.2).
Proof.
  destruct (dashboard_load_without_rpc sample_dashboard.1 sample_env_no_rpc true
              sample_dashboard.2 eq_refl (or_introl eq_refl)) as [H _].
  split; [reflexivity|exact H].
Defined.

(** X20 on the messages tab after [signal_destroy], with the two sample
    rows in the table. *)
Lemma reload_after_destroy_shows_nothing_witness :
  (forall row_data, only is_row_lookup (format_row_data sample_messages_cls row_data))
  /\ loader_is_alive (sys_world sample_destroyed) = false
  /\ loader_thread_lock (sys_world sample_destroyed) = PlainLock false
  /\ is_destroyed (sys_world sample_destroyed) = true
  /\ model_exists (sys_world sample_destroyed)
  /\ exists w1 w2,
       run_main (GenericTab sample_messages_cls) sample_env
         (CampaignViewGenericTab.load_campaign_information sample_messages_cls true)
         (sys_world sample_destroyed) = Some (tt, w1)
       /\ apply_operation (GenericTab sample_messages_cls) sample_table_env (OpLoaderRun 0) w1
          = Some w2
       /\ model_rows w2 = Some [].
Proof.
  assert (Hf : forall row_data,
             only is_row_lookup (format_row_data sample_messages_cls row_data))
    by (intros row_data; exact I).
  destruct (reload_after_destroy_shows_nothing sample_messages_cls sample_env
              sample_table_env (sys_world sample_destroyed) Hf eq_refl eq_refl eq_refl I)
    as (w1 & w2 & H1 & H2 & H3 & _).
  split; [exact Hf|]. split; [reflexivity|]. split; [reflexivity|]. split; [reflexivity|].
  split; [exact I|]. exists w1, w2. split; [exact H1|]. split; [exact H2|exact H3].
Defined.

(** X21 on the messages tab.  After a forced load, with its loader at work
    on the second of two rows and the main thread back in its loop, the lock
    is free.  After a load and the whole run of its loader, a second forced
    load that has come to the acquire of the lock finds it free. *)
Lemma handlers_never_wait_for_the_lock_witness :
  reachable (GenericTab sample_messages_cls) sample_messages_tab sample_mid_load
  /\ sys_main sample_mid_load = None
  /\ loader_is_alive (sys_world sample_mid_load) = true
  /\ (MainThread, LockAcquire) ∈ log (sys_world sample_mid_load)
  /\ lock_unheld (sys_world sample_mid_load)
  /\ threads_only not_lock_action (sys_world sample_mid_load)
  /\ reachable (GenericTab sample_messages_cls) sample_messages_tab sample_at_acquire
  /\ length (threads (sys_world sample_at_acquire)) = 1
  /\ (exists k, sys_main sample_at_acquire = Some (Do LockAcquire k))
  /\ is_Some (lock_acquire MainThread (loader_thread_lock (sys_world sample_at_acquire))).
Proof.
  assert (Hf : formats_plainly (GenericTab sample_messages_cls))
    by (intros row_data; exact I).
  assert (Hl : lock_unheld sample_messages_tab) by (by left).
  assert (Hr : reachable (GenericTab sample_messages_cls) sample_messages_tab
                 sample_mid_load).
  { apply (sched_run_reachable _ (sample_load_steps ++ sample_loader_steps)).
    vm_compute. reflexivity. }
  assert (Hr' : reachable (GenericTab sample_messages_cls) sample_messages_tab
                  sample_at_acquire).
  { apply (sched_run_reachable _ sample_reload_steps). vm_compute. reflexivity. }
  assert (Hk : exists k, sys_main sample_at_acquire = Some (Do LockAcquire k)).
  { vm_compute. eexists. reflexivity. }
  destruct (handlers_never_wait_for_the_lock (GenericTab sample_messages_cls)
              sample_messages_tab sample_mid_load Hf eq_refl Hl Hr) as (H1 & _ & H3).
  destruct (handlers_never_wait_for_the_lock (GenericTab sample_messages_cls)
              sample_messages_tab sample_at_acquire Hf eq_refl Hl Hr') as (_ & H2 & _).
  assert (Hm : sys_main sample_mid_load = None) by (vm_compute; reflexivity).
  split; [exact Hr|]. split; [exact Hm|]. split; [vm_compute; reflexivity|].
  split; [vm_compute; by left|]. split; [exact (H1 Hm)|]. split; [exact H3|].
  split; [exact Hr'|]. split; [vm_compute; reflexivity|]. split; [exact Hk|].
  destruct Hk as [k Hk]. exact (H2 k Hk).
Defined.

(** X22 on the messages tab: a second forced load, taken up and handled
    while the loader of the first is at work on the second of two rows,
    leaves that loader the only thread alive. *)
Lemma one_loader_alive_on_main_thread_witness :
  reachable (GenericTab sample_messages_cls) sample_messages_tab sample_second_load
  /\ (exists t, threads (sys_world sample_second_load) !! 0 = Some t /\ is_alive t = true)
  /\ length (threads (sys_world sample_second_load)) = 1
  /\ forall m t',
       threads (sys_world sample_second_load) !! m = Some t' -> is_alive t' = true -> m = 0.
Proof.
  assert (Hf : formats_plainly (GenericTab sample_messages_cls))
    by (intros row_data; exact I).
  assert (Hr : reachable (GenericTab sample_messages_cls) sample_messages_tab
                 sample_second_load).
  { apply (sched_run_reachable _
             (sample_load_steps ++ sample_loader_steps
              ++ [TakeSignal (SigLoad true); MainStep sample_table_env])).
    vm_compute. reflexivity. }
  assert (Ht : exists t, threads (sys_world sample_second_load) !! 0 = Some t
                         /\ is_alive t = true).
  { vm_compute. eexists. split; reflexivity. }
  pose proof (one_loader_alive_on_main_thread (GenericTab sample_messages_cls)
                sample_messages_tab sample_second_load Hf eq_refl eq_refl Hr) as H.
  split; [exact Hr|]. split; [exact Ht|]. split; [vm_compute; reflexivity|].
  destruct Ht as (t & Ht & Ha). intros m t' Hm Ha'. exact (H m 0 t' t Hm Ha' Ht Ha).
Defined.

(** X23 on two forced loads of the dashboard, interleaved as the two racing
    loads of the messages tab. *)
Lemma dashboard_one_loader_alive_witness :
  threads sample_dashboard.2 = []
  /\ loader_thread_lock sample_dashboard.2 = ReentrantLock None
  /\ alive_threads
       (interleave (DashboardTab sample_dashboard.1) sample_env racing_schedule
          (CampaignViewDashboardTab.load_campaign_information <$> [true; true])
          sample_dashboard.2).2 <= 1.
Proof.
  assert (Ht : threads sample_dashboard.2 = []) by (vm_compute; reflexivity).
  assert (Hl : loader_thread_lock sample_dashboard.2 = ReentrantLock None)
    by (vm_compute; reflexivity).
  split; [exact Ht|]. split; [exact Hl|].
  exact (dashboard_one_loader_alive sample_dashboard.1 sample_env racing_schedule
           [true; true] sample_dashboard.2 Ht Hl).
Defined.

(** X24 on the messages tab right after a forced load, the main thread back
    in its loop and the loader about to make the tree view insensitive. *)
Lemma loader_waits_only_for_the_main_loop_witness :
  formats_plainly (GenericTab sample_messages_cls)
  /\ threads_only waits_for_main_loop_only sample_loading_tab
  /\ reachable (GenericTab sample_messages_cls) sample_loading_tab
       {| sys_world := sample_loading_tab; sys_main := None |}
  /\ exists r w',
       perform (GenericTab sample_messages_cls) sample_env true (LoaderThread 0)
         (GlibIdleAddWait (TreeviewSetSensitive false)) sample_loading_tab = Some (r, w').
Proof.
  assert (Hf : formats_plainly (GenericTab sample_messages_cls))
    by (intros row_data; exact I).
  assert (Ht : threads sample_loading_tab
               = [Started (CampaignViewGenericTab.row_loader_thread_routine
                             sample_messages_cls 0)])
    by (vm_compute; reflexivity).
  assert (Ho : threads_only waits_for_main_loop_only sample_loading_tab).
  { intros n p. rewrite Ht. destruct n as [|n]; [|by destruct n].
    intros [= <-].
    exact (thread_code_waits (GenericTab sample_messages_cls) (RowLoaderRoutine 0) Hf). }
  assert (Hr : reachable (GenericTab sample_messages_cls) sample_loading_tab
                 {| sys_world := sample_loading_tab; sys_main := None |})
    by apply reachable_init.
  assert (Hn : threads sample_loading_tab !! 0
               = Some (Started (Do (GlibIdleAddWait (TreeviewSetSensitive false))
                                  (fun _ =>
                                     campaign_id <- ConfigGet "campaign_id";
                                     rows <- RpcRemoteTable "campaign/messages" campaign_id;
                                     completed <~ CampaignViewGenericTab.row_loader_loop
                                                    sample_messages_cls 0 rows;
                                     if completed then
                                       GlibIdleAddWait (TreeviewSetSensitive true);;
                                       now <- TimeTime;
                                       SetLastLoadTime now;;
                                       Ret tt
                                     else Ret tt))))
    by (rewrite Ht; reflexivity).
  split; [exact Hf|]. split; [exact Ho|]. split; [exact Hr|].
  exact (loader_waits_only_for_the_main_loop (GenericTab sample_messages_cls)
           sample_loading_tab _ 0 _ _ sample_env Hf Ho Hr eq_refl Hn).
Defined.
